(** * Rule marketplace: commerce, entitlement, review and content-gate core

    A shallow embedding of the request handlers of
    - [src/controllers/transactionController.js] (purchaseRule, requestRefund,
      processRefund),
    - [src/controllers/reviewController.js] (createReview, updateReview,
      deleteReview, markHelpful),
    - [src/controllers/ruleController.js] (getRules, getRuleById) and the
      download route of [src/routes/ruleRoutes.js],
    over the Mongoose models [Rule], [Transaction], [Purchase], [Review],
    [User] and [Notification]; and, further down, of the handlers around
    them: getTransaction, getMyTransactions and getPlatformStats of the
    transaction controller, deleteRule and forkRule of the rule controller,
    moderateRule, reviewModerationAction and updateUserRole of
    [src/controllers/adminController.js], [hasPermission] of the User model
    and the middleware of [src/middleware/auth.js] with the chains of the
    routers that use it.

    Conventions.
    - A JavaScript [Number] that carries money or a rating is an IEEE binary64
      value, modelled by Rocq's primitive [float]; the arithmetic of the
      handlers is the arithmetic of [PrimFloat].
    - A [Number] that only ever counts (views, helpful votes, list lengths)
      and a [Date] (milliseconds since the epoch) are integers, modelled by
      [Z]; such values stay far below 2^53, where binary64 is exact.
    - A handler is a function of the database: it returns either the
      exception it threw or its response, together with the database as the
      writes performed so far left it. The random bytes and the clock a
      handler consults are arguments.
    - The transaction and review controllers are written against [stats],
      [creator], [pricing.type] and [pricing.amount], names the Rule schema
      does not declare (it has [statistics], [author], [pricing.isPaid] and
      [pricing.price]); processRefund increments [statistics.earnings],
      where the User schema has [statistics.totalEarnings]. The model keeps
      the undeclared names apart from the declared ones, as optional fields
      a stored document may or may not carry ([None] is JavaScript's
      [undefined]).
    - The schemas are strict (none sets [strict: false]): a document loaded
      through its model exposes the declared paths only ([Rule.hydrate]),
      [save] writes the declared paths only, and a path of an update that
      the schema does not declare is dropped when Mongoose casts the update
      ([Rule.saveOver], [User.saveOver]). So a handler never sees what is
      stored under an undeclared name, and never changes it. *)

From Stdlib Require Import ZArith QArith Bool List String Ascii Lia.
From Stdlib Require Import Floats Uint63.
Import ListNotations.

Local Open Scope string_scope.
Local Open Scope Z_scope.

(* ================================================================== *)
(** * JavaScript values *)

Module JS.

(** [Number]: binary64. *)
Definition Number := float.

Definition isNaN (x : Number) : bool := negb (x =? x)%float.

(** ToBoolean on a Number: [0], [-0] and [NaN] are falsy. *)
Definition truthy (x : Number) : bool := negb (x =? 0)%float && negb (isNaN x).

(** The Number of an array length. *)
Definition ofLength (n : nat) : Number := PrimFloat.of_uint63 (Uint63.of_Z (Z.of_nat n)).

(** [x || d] where [x] may be [undefined]: the first truthy operand. *)
Definition orNumber (x : option Number) (d : Number) : Number :=
  match x with
  | Some v => if truthy v then v else d
  | None => d
  end.

Definition orCount (x : option Z) (d : Z) : Z :=
  match x with
  | Some v => if Z.eqb v 0 then d else v
  | None => d
  end.

Definition orString (x : option string) (d : string) : string :=
  match x with
  | Some v => if String.eqb v "" then d else v
  | None => d
  end.

(** ToBoolean on a possibly-undefined string. *)
Definition truthyString (x : option string) : bool :=
  match x with
  | Some v => negb (String.eqb v "")
  | None => false
  end.

(** [s.substring(0, n)]. *)
Definition substring0 (n : nat) (s : string) : string := String.substring 0 n s.

(** [Array.prototype.indexOf] on an array of ObjectIds (Mongoose compares
    ids by value); [None] stands for [-1]. *)
Fixpoint indexOf (x : N) (l : list N) : option nat :=
  match l with
  | [] => None
  | y :: l' => if N.eqb y x then Some 0%nat
               else option_map S (indexOf x l')
  end.

(** [a.splice(i, 1)]: the array without its element at index [i]. *)
Fixpoint splice1 {A : Type} (i : nat) (l : list A) : list A :=
  match l, i with
  | [], _ => []
  | _ :: l', O => l'
  | y :: l', S i' => y :: splice1 i' l'
  end.

Definition upperAscii (c : ascii) : ascii :=
  let n := nat_of_ascii c in
  if (97 <=? n)%nat && (n <=? 122)%nat then ascii_of_nat (n - 32) else c.

(** [s.toUpperCase()] on ASCII text. *)
Fixpoint toUpperCase (s : string) : string :=
  match s with
  | EmptyString => EmptyString
  | String c s' => String (upperAscii c) (toUpperCase s')
  end.

End JS.

(* ================================================================== *)
(** * Exceptions ([src/middleware/errorHandler.js]) *)

Definition ObjectId := N.
Bind Scope N_scope with ObjectId.

Inductive Exception : Type :=
| ApiError (statusCode : Z) (message : string)
| TypeError (reading : string)
| ReferenceError (identifier : string)
| ValidationError (path : string).

Module errors.
Definition badRequest (message : string) : Exception := ApiError 400 message.
Definition forbidden (message : string) : Exception := ApiError 403 message.
Definition notFound (message : string) : Exception := ApiError 404 message.
Definition conflict (message : string) : Exception := ApiError 409 message.
End errors.

(* ================================================================== *)
(** * Models *)

Module Rule.

Inductive Visibility := PUBLIC | PRIVATE | UNLISTED.

(** [ruleSchema.pricing]; [type] and [amount] are read by the transaction
    and review controllers but are not paths of the schema. *)
Record Pricing := {
  isPaid : bool;
  price : JS.Number;
  currency : string;
  licenseType : string;
  type : option string;
  amount : option JS.Number
}.

Record RuleContent := { query : string }.

(** [ruleSchema.statistics]. *)
Record Statistics := {
  views : Z;
  downloads : Z;
  forks : Z;
  purchases : Z;
  rating : JS.Number;
  totalRatings : Z
}.

(** The object the transaction and review controllers call [stats]; not a
    path of the schema. *)
Record Stats := {
  stats_purchases : option Z;
  stats_revenue : option JS.Number;
  stats_rating : option JS.Number;
  stats_reviewCount : option Z
}.

Record t := {
  _id : ObjectId;
  title : string;
  author : ObjectId;
  ruleContent : RuleContent;
  visibility : Visibility;
  pricing : Pricing;
  statistics : Statistics;
  isActive : bool;
  creator : option ObjectId;
  stats : option Stats
}.

(** A document as the Rule schema shapes it: only declared paths. *)
Definition conforms (r : t) : Prop :=
  type (pricing r) = None /\ amount (pricing r) = None /\
  creator r = None /\ stats r = None.

Definition emptyStats : Stats :=
  {| stats_purchases := None; stats_revenue := None;
     stats_rating := None; stats_reviewCount := None |}.

Definition setQuery (q : string) (r : t) : t :=
  {| _id := _id r; title := title r; author := author r;
     ruleContent := {| query := q |}; visibility := visibility r;
     pricing := pricing r; statistics := statistics r;
     isActive := isActive r; creator := creator r; stats := stats r |}.

Definition setStatistics (s : Statistics) (r : t) : t :=
  {| _id := _id r; title := title r; author := author r;
     ruleContent := ruleContent r; visibility := visibility r;
     pricing := pricing r; statistics := s;
     isActive := isActive r; creator := creator r; stats := stats r |}.

Definition setStats (s : option Stats) (r : t) : t :=
  {| _id := _id r; title := title r; author := author r;
     ruleContent := ruleContent r; visibility := visibility r;
     pricing := pricing r; statistics := statistics r;
     isActive := isActive r; creator := creator r; stats := s |}.

(** The document a query of the model hands to a handler for the stored
    [r]. The schema is strict: the document exposes the declared paths, and
    reading [pricing.type], [pricing.amount], [creator] or [stats] on it
    gives [undefined], whatever [r] has stored under these names. *)
Definition hydrate (r : t) : t :=
  {| _id := _id r; title := title r; author := author r;
     ruleContent := ruleContent r; visibility := visibility r;
     pricing :=
       {| isPaid := isPaid (pricing r); price := price (pricing r);
          currency := currency (pricing r);
          licenseType := licenseType (pricing r);
          type := None; amount := None |};
     statistics := statistics r; isActive := isActive r;
     creator := None; stats := None |}.

(** What [save], or an update cast against the schema, leaves in the
    collection for the document [doc] where [old] was stored: the declared
    paths are those of [doc]; what [doc] carries under an undeclared name is
    dropped, and what [old] had stored under one stays. *)
Definition saveOver (doc old : t) : t :=
  {| _id := _id doc; title := title doc; author := author doc;
     ruleContent := ruleContent doc; visibility := visibility doc;
     pricing :=
       {| isPaid := isPaid (pricing doc); price := price (pricing doc);
          currency := currency (pricing doc);
          licenseType := licenseType (pricing doc);
          type := type (pricing old); amount := amount (pricing old) |};
     statistics := statistics doc; isActive := isActive doc;
     creator := creator old; stats := stats old |}.

End Rule.

Module Transaction.

Inductive Status := PENDING | COMPLETED | FAILED | REFUNDED | DISPUTED.
Inductive PaymentMethod := STRIPE | PAYPAL | CRYPTO | CREDITS.

Definition Status_eqb (a b : Status) : bool :=
  match a, b with
  | PENDING, PENDING | COMPLETED, COMPLETED | FAILED, FAILED
  | REFUNDED, REFUNDED | DISPUTED, DISPUTED => true
  | _, _ => false
  end.

(** A value of the [metadata] map. *)
Inductive Mixed :=
| MString (s : option string)
| MDate (ms : Z)
| MId (id : ObjectId).

Record t := {
  _id : ObjectId;
  buyer : ObjectId;
  seller : ObjectId;
  rule : ObjectId;
  amount : JS.Number;
  currency : string;
  paymentMethod : PaymentMethod;
  status : Status;
  paymentIntentId : string;
  platformFee : JS.Number;
  sellerEarnings : JS.Number;
  (** [None] when the stored document has no [metadata] field *)
  metadata : option (list (string * Mixed));
  createdAt : Z
}.

Definition setStatus (s : Status) (x : t) : t :=
  {| _id := _id x; buyer := buyer x; seller := seller x; rule := rule x;
     amount := amount x; currency := currency x;
     paymentMethod := paymentMethod x; status := s;
     paymentIntentId := paymentIntentId x; platformFee := platformFee x;
     sellerEarnings := sellerEarnings x; metadata := metadata x;
     createdAt := createdAt x |}.

Definition setMetadata (m : option (list (string * Mixed))) (x : t) : t :=
  {| _id := _id x; buyer := buyer x; seller := seller x; rule := rule x;
     amount := amount x; currency := currency x;
     paymentMethod := paymentMethod x; status := status x;
     paymentIntentId := paymentIntentId x; platformFee := platformFee x;
     sellerEarnings := sellerEarnings x; metadata := m;
     createdAt := createdAt x |}.

End Transaction.

Module Purchase.

(** [downloads.history], a log the handlers only append to, is left out. *)
Record Downloads := { count : Z; lastDownloadedAt : option Z }.

Record t := {
  _id : ObjectId;
  user : ObjectId;
  rule : ObjectId;
  transaction : ObjectId;
  accessGrantedAt : Z;
  downloads : Downloads;
  licenseKey : string;
  isActive : bool
}.

Definition setDownloads (d : Downloads) (p : t) : t :=
  {| _id := _id p; user := user p; rule := rule p;
     transaction := transaction p; accessGrantedAt := accessGrantedAt p;
     downloads := d; licenseKey := licenseKey p; isActive := isActive p |}.

End Purchase.

Module Review.

Record Helpful := { count : Z; users : list ObjectId }.

Record t := {
  _id : ObjectId;
  rule : ObjectId;
  user : ObjectId;
  rating : JS.Number;
  comment : option string;
  verified : bool;
  helpful : Helpful;
  reported : bool;
  isActive : bool
}.

Definition setRatingComment (r : JS.Number) (c : option string) (x : t) : t :=
  {| _id := _id x; rule := rule x; user := user x; rating := r;
     comment := c; verified := verified x; helpful := helpful x;
     reported := reported x; isActive := isActive x |}.

Definition setIsActive (b : bool) (x : t) : t :=
  {| _id := _id x; rule := rule x; user := user x; rating := rating x;
     comment := comment x; verified := verified x; helpful := helpful x;
     reported := reported x; isActive := b |}.

Definition setHelpful (h : Helpful) (x : t) : t :=
  {| _id := _id x; rule := rule x; user := user x; rating := rating x;
     comment := comment x; verified := verified x; helpful := h;
     reported := reported x; isActive := isActive x |}.

(** The schema's validators. [save] validates the required paths and the
    modified ones: [rating] (required, within 1..5; a NaN fails the cast)
    on every save, [comment] (at most 1000 characters) when it was set. *)
Definition validRating (x : t) : bool :=
  (1 <=? rating x)%float && (rating x <=? 5)%float.

Definition validComment (x : t) : bool :=
  match comment x with
  | Some c => (String.length c <=? 1000)%nat
  | None => true
  end.

End Review.

Module User.

Inductive Role := USER | VERIFIED_CONTRIBUTOR | MODERATOR | ADMIN.

Definition isAdmin (r : Role) : bool :=
  match r with ADMIN => true | _ => false end.

(** [userSchema.statistics]. *)
Record Statistics := {
  totalRules : Z;
  totalDownloads : Z;
  totalEarnings : JS.Number;
  rating : JS.Number
}.

Record t := {
  _id : ObjectId;
  username : string;
  email : string;
  role : Role;
  statistics : Statistics;
  (** [statistics.earnings], the path processRefund increments; not a path
      of the schema. *)
  statistics_earnings : option JS.Number
}.

Definition setEarnings (e : option JS.Number) (u : t) : t :=
  {| _id := _id u; username := username u; email := email u;
     role := role u; statistics := statistics u; statistics_earnings := e |}.

(** What an update cast against the strict User schema leaves in the
    collection for [doc] where [old] was stored: the declared paths of
    [doc]; [statistics.earnings], which the schema does not declare, stays
    as [old] had it. *)
Definition saveOver (doc old : t) : t :=
  {| _id := _id doc; username := username doc; email := email doc;
     role := role doc; statistics := statistics doc;
     statistics_earnings := statistics_earnings old |}.

End User.

Module Notification.

Inductive Type_ := RULE_APPROVED | RULE_REJECTED | RULE_PURCHASED
                 | NEW_REVIEW | COMMENT_REPLY | ACHIEVEMENT | SYSTEM.

(** [message], [data] and [actionUrl] are free text built from the fields
    below and are not modelled. *)
Record t := {
  recipient : ObjectId;
  type : Type_;
  title : string
}.

End Notification.

Module Activity.

Inductive Type_ := RULE_PURCHASED | RULE_DOWNLOADED | RULE_REVIEWED.

Record t := {
  user : ObjectId;
  type : Type_;
  target : ObjectId
}.

End Activity.

(* ================================================================== *)
(** * The database and the handler monad *)

Record Store := {
  rules : list Rule.t;
  transactions : list Transaction.t;
  purchases : list Purchase.t;
  reviews : list Review.t;
  users : list User.t;
  notifications : list Notification.t;
  activities : list Activity.t;
  (** the next ObjectId the driver hands out *)
  nextId : ObjectId
}.

Definition setRules (l : list Rule.t) (db : Store) : Store :=
  {| rules := l; transactions := transactions db; purchases := purchases db;
     reviews := reviews db; users := users db;
     notifications := notifications db; activities := activities db;
     nextId := nextId db |}.

Definition setTransactions (l : list Transaction.t) (db : Store) : Store :=
  {| rules := rules db; transactions := l; purchases := purchases db;
     reviews := reviews db; users := users db;
     notifications := notifications db; activities := activities db;
     nextId := nextId db |}.

Definition setPurchases (l : list Purchase.t) (db : Store) : Store :=
  {| rules := rules db; transactions := transactions db; purchases := l;
     reviews := reviews db; users := users db;
     notifications := notifications db; activities := activities db;
     nextId := nextId db |}.

Definition setReviews (l : list Review.t) (db : Store) : Store :=
  {| rules := rules db; transactions := transactions db;
     purchases := purchases db; reviews := l; users := users db;
     notifications := notifications db; activities := activities db;
     nextId := nextId db |}.

Definition setUsers (l : list User.t) (db : Store) : Store :=
  {| rules := rules db; transactions := transactions db;
     purchases := purchases db; reviews := reviews db; users := l;
     notifications := notifications db; activities := activities db;
     nextId := nextId db |}.

Definition setNotifications (l : list Notification.t) (db : Store) : Store :=
  {| rules := rules db; transactions := transactions db;
     purchases := purchases db; reviews := reviews db; users := users db;
     notifications := l; activities := activities db; nextId := nextId db |}.

Definition setActivities (l : list Activity.t) (db : Store) : Store :=
  {| rules := rules db; transactions := transactions db;
     purchases := purchases db; reviews := reviews db; users := users db;
     notifications := notifications db; activities := l; nextId := nextId db |}.

Definition setNextId (n : ObjectId) (db : Store) : Store :=
  {| rules := rules db; transactions := transactions db;
     purchases := purchases db; reviews := reviews db; users := users db;
     notifications := notifications db; activities := activities db;
     nextId := n |}.

(** An async handler: the exception it rejects with or the value it
    resolves to, and the database after the writes it got to perform. *)
Definition Handler (A : Type) : Type := Store -> (Exception + A) * Store.

Definition ret {A : Type} (a : A) : Handler A := fun db => (inr a, db).

Definition throw {A : Type} (e : Exception) : Handler A := fun db => (inl e, db).

Definition bind {A B : Type} (m : Handler A) (k : A -> Handler B) : Handler B :=
  fun db =>
    match m db with
    | (inl e, db') => (inl e, db')
    | (inr a, db') => k a db'
    end.

Definition read {A : Type} (f : Store -> A) : Handler A := fun db => (inr (f db), db).

Definition write (f : Store -> Store) : Handler unit := fun db => (inr tt, f db).

Declare Scope handler_scope.
Delimit Scope handler_scope with handler.
Notation "x <- m ;; k" := (bind m (fun x => k))
  (at level 61, m at next level, right associativity) : handler_scope.
Notation "m ;; k" := (bind m (fun _ => k))
  (at level 61, right associativity) : handler_scope.
Local Open Scope handler_scope.

(** [if (c) throw e] *)
Definition throwIf (c : bool) (e : Exception) : Handler unit :=
  if c then throw e else ret tt.

(** A value that must not be [undefined] where the source dereferences it. *)
Definition deref {A : Type} (x : option A) (reading : string) : Handler A :=
  match x with
  | Some a => ret a
  | None => throw (TypeError reading)
  end.

(** [x] or the rejection of the handler when the document is absent. *)
Definition orThrow {A : Type} (x : option A) (e : Exception) : Handler A :=
  match x with
  | Some a => ret a
  | None => throw e
  end.

(** ** Queries and writes of the models

    The documents a collection holds are taken to satisfy the validators of
    their schema. [save] validates again the required paths and the paths
    the handler assigned; of the paths these handlers assign, only [rating]
    and [comment] of a Review carry a validator that can reject, and only
    those two are checked below. *)

(** [updateOne(filter, update)]: the first document the filter selects is
    updated, the others are left as they are. *)
Fixpoint updateFirst {A : Type} (same : A -> bool) (f : A -> A) (l : list A)
  : list A :=
  match l with
  | [] => []
  | y :: l' => if same y then f y :: l' else y :: updateFirst same f l'
  end.

(** [doc.save()] on a loaded document: the stored document of the same
    [_id] is replaced. *)
Definition replaceBy {A : Type} (same : A -> bool) (x : A) (l : list A) : list A :=
  updateFirst same (fun _ => x) l.

Definition freshId : Handler ObjectId :=
  fun db => (inr (nextId db), setNextId (N.succ (nextId db)) db).

(** [Rule.findById(id)]: the stored document as the model exposes it. *)
Definition Rule_findById (id : ObjectId) : Handler (option Rule.t) :=
  read (fun db =>
    match find (fun r => N.eqb (Rule._id r) id) (rules db) with
    | Some r => Some (Rule.hydrate r)
    | None => None
    end).

(** [rule.save()] on a document that was loaded from the collection: its
    declared paths are written to the stored document of the same [_id]. *)
Definition Rule_save (r : Rule.t) : Handler unit :=
  write (fun db =>
    setRules (updateFirst (fun y => N.eqb (Rule._id y) (Rule._id r))
                          (Rule.saveOver r) (rules db)) db).

(** [Rule.findByIdAndUpdate(id, update)]: the update is cast against the
    schema before it is sent, which drops the paths the schema does not
    declare. *)
Definition Rule_findByIdAndUpdate (id : ObjectId) (update : Rule.t -> Rule.t)
  : Handler unit :=
  write (fun db =>
    setRules (updateFirst (fun y => N.eqb (Rule._id y) id)
                          (fun old => Rule.saveOver (update old) old)
                          (rules db)) db).

Definition Transaction_findById (id : ObjectId) : Handler (option Transaction.t) :=
  read (fun db => find (fun x => N.eqb (Transaction._id x) id) (transactions db)).

Definition Transaction_insert (x : Transaction.t) : Handler unit :=
  write (fun db => setTransactions (transactions db ++ [x]) db).

Definition Transaction_save (x : Transaction.t) : Handler unit :=
  write (fun db =>
    setTransactions
      (replaceBy (fun y => N.eqb (Transaction._id y) (Transaction._id x)) x
                 (transactions db)) db).

(** The filter [{ user, rule, isActive: true }]. *)
Definition activePurchaseOf (user rule : ObjectId) (p : Purchase.t) : bool :=
  N.eqb (Purchase.user p) user && N.eqb (Purchase.rule p) rule &&
  Purchase.isActive p.

(** [Purchase.findOne({ user, rule, isActive: true })]. *)
Definition Purchase_findOne (user rule : ObjectId) : Handler (option Purchase.t) :=
  read (fun db => find (activePurchaseOf user rule) (purchases db)).

(** [Purchase.exists({ user, rule, isActive: true })], as a boolean. *)
Definition Purchase_exists (user rule : ObjectId) : Handler bool :=
  read (fun db => existsb (activePurchaseOf user rule) (purchases db)).

Definition Purchase_insert (p : Purchase.t) : Handler unit :=
  write (fun db => setPurchases (purchases db ++ [p]) db).

Definition Purchase_save (p : Purchase.t) : Handler unit :=
  write (fun db =>
    setPurchases
      (replaceBy (fun y => N.eqb (Purchase._id y) (Purchase._id p)) p
                 (purchases db)) db).

Definition Review_findById (id : ObjectId) : Handler (option Review.t) :=
  read (fun db => find (fun x => N.eqb (Review._id x) id) (reviews db)).

(** [Review.findOne({ rule, user })]: no [isActive] in the filter. *)
Definition Review_findOne (rule user : ObjectId) : Handler (option Review.t) :=
  read (fun db =>
    find (fun x => N.eqb (Review.rule x) rule && N.eqb (Review.user x) user)
         (reviews db)).

(** [Review.find({ rule, isActive: true })]. *)
Definition Review_find (rule : ObjectId) : Handler (list Review.t) :=
  read (fun db =>
    filter (fun x => N.eqb (Review.rule x) rule && Review.isActive x) (reviews db)).

(** [review.save()]: the validators run first and reject the save. *)
Definition Review_save (commentModified : bool) (x : Review.t) : Handler unit :=
  throwIf (negb (Review.validRating x &&
                 (negb commentModified || Review.validComment x)))
          (ValidationError "Review") ;;
  write (fun db =>
    setReviews
      (replaceBy (fun y => N.eqb (Review._id y) (Review._id x)) x (reviews db)) db).

Definition Review_insert (x : Review.t) : Handler unit :=
  throwIf (negb (Review.validRating x && Review.validComment x))
          (ValidationError "Review") ;;
  write (fun db => setReviews (reviews db ++ [x]) db).

(** [$inc: { "statistics.earnings": d }] on a document: [$inc] creates the
    field, holding [d], when the document lacks it. *)
Definition inc_statistics_earnings (d : JS.Number) (u : User.t) : User.t :=
  User.setEarnings
    (Some match User.statistics_earnings u with
          | Some e => (e + d)%float
          | None => d
          end) u.

(** [User.findByIdAndUpdate(id, { $inc: { "statistics.earnings": d } })]:
    the update is cast against the User schema, which declares
    [statistics.totalEarnings] and no [statistics.earnings]; the [$inc] is
    dropped. *)
Definition User_inc_statistics_earnings (id : ObjectId) (d : JS.Number)
  : Handler unit :=
  write (fun db =>
    setUsers
      (updateFirst (fun u => N.eqb (User._id u) id)
         (fun old => User.saveOver (inc_statistics_earnings d old) old)
         (users db)) db).

Definition User_findById (id : ObjectId) : Handler (option User.t) :=
  read (fun db => find (fun u => N.eqb (User._id u) id) (users db)).

Definition Notification_create (n : Notification.t) : Handler unit :=
  write (fun db => setNotifications (notifications db ++ [n]) db).

Definition Activity_create (a : Activity.t) : Handler unit :=
  write (fun db => setActivities (activities db ++ [a]) db).

(* ================================================================== *)
(** * [src/controllers/transactionController.js] *)

Module transactionController.

(** [0.1], the binary64 nearest to one tenth. *)
Definition platformFeePercent : JS.Number := 0x1.999999999999ap-4%float.

(** [undefined * 0.1] is [NaN]. *)
Definition toNumber (x : option JS.Number) : JS.Number :=
  match x with
  | Some v => v
  | None => PrimFloat.nan
  end.

(** The Number cast of a schema path: [undefined] on a required path and
    [NaN] on any path reject the save. *)
Definition castNumber (path : string) (x : option JS.Number) : Handler JS.Number :=
  match x with
  | Some v => throwIf (JS.isNaN v) (ValidationError path) ;; ret v
  | None => throw (ValidationError path)
  end.

Record PurchaseResponse := {
  res_transaction : Transaction.t;
  res_purchase : Purchase.t;
  res_licenseKey : string
}.

(** [rule.pricing.type !== "PAID"] ([rule.pricing] itself is always an
    object on a Rule document). On a document loaded through the model,
    [pricing.type] is [undefined] and the test is true. *)
Definition notPaidType (rule : Rule.t) : bool :=
  match Rule.type (Rule.pricing rule) with
  | Some ty => negb (String.eqb ty "PAID")
  | None => true
  end.

(** [exports.purchaseRule]. [randomHex1] and [randomHex2] are the two
    results of [crypto.randomBytes(16).toString("hex")]; [now] is the clock
    that stamps [createdAt]. The statements after the guard are kept as the
    source has them. *)
Definition purchaseRule (user : User.t) (ruleId : ObjectId)
    (paymentMethodId : option string) (randomHex1 randomHex2 : string) (now : Z)
  : Handler PurchaseResponse :=
  rule <- Rule_findById ruleId ;;
  rule <- orThrow rule (errors.notFound "Rule not found") ;;
  throwIf (notPaidType rule) (errors.badRequest "This rule is not for sale") ;;
  existingPurchase <- Purchase_findOne (User._id user) ruleId ;;
  throwIf (match existingPurchase with Some _ => true | None => false end)
          (errors.conflict "You have already purchased this rule") ;;
  creator <- deref (Rule.creator rule) "toString" ;;
  throwIf (N.eqb creator (User._id user))
          (errors.badRequest "You cannot purchase your own rule") ;;
  let amount := Rule.amount (Rule.pricing rule) in
  let platformFee := (toNumber amount * platformFeePercent)%float in
  let sellerEarnings := (toNumber amount - platformFee)%float in
  (* new Transaction({...}); await transaction.save(): the schema casts and
     validates (amount: required, min 0), then the document is inserted *)
  amount' <- castNumber "amount" amount ;;
  throwIf (amount' <? 0)%float (ValidationError "amount") ;;
  platformFee' <- castNumber "platformFee" (Some platformFee) ;;
  sellerEarnings' <- castNumber "sellerEarnings" (Some sellerEarnings) ;;
  transactionId <- freshId ;;
  let transaction :=
    {| Transaction._id := transactionId;
       Transaction.buyer := User._id user;
       Transaction.seller := creator;
       Transaction.rule := ruleId;
       Transaction.amount := amount';
       Transaction.currency := "USD";
       Transaction.paymentMethod := Transaction.STRIPE;
       Transaction.status := Transaction.COMPLETED;
       Transaction.paymentIntentId := JS.orString paymentMethodId randomHex1;
       Transaction.platformFee := platformFee';
       Transaction.sellerEarnings := sellerEarnings';
       Transaction.metadata :=
         Some [("ruleTitle", Transaction.MString (Some (Rule.title rule)));
               ("buyerEmail", Transaction.MString (Some (User.email user)));
               ("sellerEmail", Transaction.MString None)];
       Transaction.createdAt := now |} in
  Transaction_insert transaction ;;
  (* new Purchase({...}); await purchase.save() *)
  purchaseId <- freshId ;;
  let purchase :=
    {| Purchase._id := purchaseId;
       Purchase.user := User._id user;
       Purchase.rule := ruleId;
       Purchase.transaction := transactionId;
       Purchase.accessGrantedAt := now;
       Purchase.downloads :=
         {| Purchase.count := 0; Purchase.lastDownloadedAt := None |};
       Purchase.licenseKey := JS.toUpperCase randomHex2;
       Purchase.isActive := true |} in
  Purchase_insert purchase ;;
  (* rule.stats.purchases = ...; rule.stats.revenue = ...; await rule.save() *)
  stats <- deref (Rule.stats rule) "purchases" ;;
  let stats' :=
    {| Rule.stats_purchases := Some (JS.orCount (Rule.stats_purchases stats) 0 + 1);
       Rule.stats_revenue :=
         Some (JS.orNumber (Rule.stats_revenue stats) 0 + amount')%float;
       Rule.stats_rating := Rule.stats_rating stats;
       Rule.stats_reviewCount := Rule.stats_reviewCount stats |} in
  Rule_save (Rule.setStats (Some stats') rule) ;;
  Notification_create
    {| Notification.recipient := creator;
       Notification.type := Notification.RULE_PURCHASED;
       Notification.title := "Your rule was purchased" |} ;;
  Notification_create
    {| Notification.recipient := User._id user;
       Notification.type := Notification.RULE_PURCHASED;
       Notification.title := "Purchase successful" |} ;;
  ret {| res_transaction := transaction;
         res_purchase := purchase;
         res_licenseKey := Purchase.licenseKey purchase |}.

(** [(Date.now() - transaction.createdAt) / (1000 * 60 * 60 * 24)], the
    quotient taken exactly. *)
Definition daysSince (now createdAt : Z) : Q :=
  (inject_Z (now - createdAt) / inject_Z (1000 * 60 * 60 * 24))%Q.

Definition Qgtb (x y : Q) : bool := negb (Qle_bool x y).

(** [{ ...transaction.metadata, refundReason, refundRequestedAt,
    refundRequestedBy }], as the value [transaction.save()] validates for
    the path [metadata]. Without a stored [metadata] the spread adds
    nothing and the object holds the three keys. With one,
    [transaction.metadata] is a Mongoose Map: the spread copies the own
    properties of the Map object, not its entries, the object is not one
    the Map of the schema can be cast from, and the save is rejected with a
    ValidationError. *)
Definition spreadMetadata (metadata : option (list (string * Transaction.Mixed)))
    (reason : option string) (now : Z) (user : ObjectId)
  : Handler (list (string * Transaction.Mixed)) :=
  match metadata with
  | Some _ => throw (ValidationError "metadata")
  | None =>
      ret [("refundReason", Transaction.MString reason);
           ("refundRequestedAt", Transaction.MDate now);
           ("refundRequestedBy", Transaction.MId user)]
  end.

(** [exports.requestRefund]. *)
Definition requestRefund (user : User.t) (id : ObjectId) (reason : option string)
    (now : Z) : Handler Transaction.t :=
  throwIf (negb (JS.truthyString reason))
          (errors.badRequest "Refund reason is required") ;;
  transaction <- Transaction_findById id ;;
  transaction <- orThrow transaction (errors.notFound "Transaction not found") ;;
  throwIf (negb (N.eqb (Transaction.buyer transaction) (User._id user)))
          (errors.forbidden "Only the buyer can request a refund") ;;
  throwIf (negb (Transaction.Status_eqb (Transaction.status transaction)
                                        Transaction.COMPLETED))
          (errors.badRequest
             "Refund can only be requested for completed transactions") ;;
  throwIf (Qgtb (daysSince now (Transaction.createdAt transaction)) 30)
          (errors.badRequest "Refund requests can only be made within 30 days") ;;
  let transaction := Transaction.setStatus Transaction.DISPUTED transaction in
  metadata <- spreadMetadata (Transaction.metadata transaction) reason now
                             (User._id user) ;;
  let transaction := Transaction.setMetadata (Some metadata) transaction in
  Transaction_save transaction ;;
  Notification_create
    {| Notification.recipient := Transaction.buyer transaction;
       Notification.type := Notification.SYSTEM;
       Notification.title := "Refund request submitted" |} ;;
  ret transaction.

(** [exports.processRefund]. *)
Definition processRefund (id : ObjectId) (approved : bool)
  : Handler Transaction.t :=
  transaction <- Transaction_findById id ;;
  transaction <- orThrow transaction (errors.notFound "Transaction not found") ;;
  throwIf (negb (Transaction.Status_eqb (Transaction.status transaction)
                                        Transaction.DISPUTED))
          (errors.badRequest "Only disputed transactions can be refunded") ;;
  transaction <-
    (if approved then
       let transaction := Transaction.setStatus Transaction.REFUNDED transaction in
       User_inc_statistics_earnings (Transaction.seller transaction)
         (- Transaction.sellerEarnings transaction)%float ;;
       Notification_create
         {| Notification.recipient := Transaction.buyer transaction;
            Notification.type := Notification.SYSTEM;
            Notification.title := "Refund approved" |} ;;
       Notification_create
         {| Notification.recipient := Transaction.seller transaction;
            Notification.type := Notification.SYSTEM;
            Notification.title := "Refund issued" |} ;;
       ret transaction
     else
       let transaction := Transaction.setStatus Transaction.COMPLETED transaction in
       Notification_create
         {| Notification.recipient := Transaction.buyer transaction;
            Notification.type := Notification.SYSTEM;
            Notification.title := "Refund denied" |} ;;
       ret transaction) ;;
  Transaction_save transaction ;;
  ret transaction.

End transactionController.

(* ================================================================== *)
(** * [src/controllers/reviewController.js] *)

Module reviewController.

(** [rule.pricing && rule.pricing.type === "PAID"]; false on a document
    loaded through the model, where [pricing.type] is [undefined]. *)
Definition paidType (rule : Rule.t) : bool :=
  negb (transactionController.notPaidType rule).

Definition isSome {A : Type} (x : option A) : bool :=
  match x with Some _ => true | None => false end.

(** [allReviews.reduce((sum, r) => sum + r.rating, 0) / allReviews.length]. *)
Definition avgRating (allReviews : list Review.t) : JS.Number :=
  (fold_left (fun sum r => sum + Review.rating r) allReviews 0
   / JS.ofLength (List.length allReviews))%float.

(** The update [{ "stats.rating": rating }], as the handler writes it;
    [Rule_findByIdAndUpdate] casts it against the schema. *)
Definition set_stats_rating (rating : JS.Number) (r : Rule.t) : Rule.t :=
  let s := match Rule.stats r with Some s => s | None => Rule.emptyStats end in
  Rule.setStats
    (Some {| Rule.stats_purchases := Rule.stats_purchases s;
             Rule.stats_revenue := Rule.stats_revenue s;
             Rule.stats_rating := Some rating;
             Rule.stats_reviewCount := Rule.stats_reviewCount s |}) r.

(** The update [{ "stats.rating": rating, "stats.reviewCount": count }], as
    the handler writes it. *)
Definition set_stats_rating_reviewCount (rating : JS.Number) (count : Z)
    (r : Rule.t) : Rule.t :=
  let s := match Rule.stats r with Some s => s | None => Rule.emptyStats end in
  Rule.setStats
    (Some {| Rule.stats_purchases := Rule.stats_purchases s;
             Rule.stats_revenue := Rule.stats_revenue s;
             Rule.stats_rating := Some rating;
             Rule.stats_reviewCount := Some count |}) r.

(** [exports.createReview]. The identifier [hasPurchased] is declared with
    [const] inside the block of the [if] that guards paid rules; the object
    literal handed to [new Review] reads it outside that block, where no
    binding of that name is in scope, so evaluating the literal throws a
    ReferenceError. The statements after it are kept as the source has
    them. *)
Definition createReview (user : User.t) (ruleId : ObjectId)
    (rating : option JS.Number) (comment : option string) : Handler Review.t :=
  rule <- Rule_findById ruleId ;;
  rule <- orThrow rule (errors.notFound "Rule not found") ;;
  (if paidType rule then
     hasPurchased <- Purchase_findOne (User._id user) ruleId ;;
     throwIf (negb (isSome hasPurchased))
             (errors.forbidden "You must purchase this rule to leave a review")
   else ret tt) ;;
  existingReview <- Review_findOne ruleId (User._id user) ;;
  throwIf (isSome existingReview)
          (errors.conflict "You have already reviewed this rule") ;;
  verified <- throw (ReferenceError "hasPurchased") ;;
  rating' <- transactionController.castNumber "rating" rating ;;
  reviewId <- freshId ;;
  let review :=
    {| Review._id := reviewId;
       Review.rule := ruleId;
       Review.user := User._id user;
       Review.rating := rating';
       Review.comment := comment;
       Review.verified := verified;
       Review.helpful := {| Review.count := 0; Review.users := [] |};
       Review.reported := false;
       Review.isActive := true |} in
  Review_insert review ;;
  Activity_create
    {| Activity.user := User._id user;
       Activity.type := Activity.RULE_REVIEWED;
       Activity.target := ruleId |} ;;
  allReviews <- Review_find ruleId ;;
  Rule_findByIdAndUpdate ruleId
    (set_stats_rating_reviewCount (avgRating allReviews)
                                  (Z.of_nat (List.length allReviews))) ;;
  ret review.

(** Whether an assignment to [comment] leaves the value it had. *)
Definition sameComment (a b : option string) : bool :=
  match a, b with
  | Some x, Some y => String.eqb x y
  | None, None => true
  | _, _ => false
  end.

(** [exports.updateReview]. *)
Definition updateReview (user : User.t) (id : ObjectId)
    (rating : option JS.Number) (comment : option string) : Handler Review.t :=
  review <- Review_findById id ;;
  review <- orThrow review (errors.notFound "Review not found") ;;
  throwIf (negb (N.eqb (Review.user review) (User._id user)))
          (errors.forbidden "You can only update your own reviews") ;;
  let comment' :=
    if JS.truthyString comment then comment else Review.comment review in
  let commentModified := negb (sameComment comment' (Review.comment review)) in
  let review :=
    Review.setRatingComment
      (JS.orNumber rating (Review.rating review)) comment' review in
  Review_save commentModified review ;;
  _rule <- Rule_findById (Review.rule review) ;;
  allReviews <- Review_find (Review.rule review) ;;
  Rule_findByIdAndUpdate (Review.rule review)
    (set_stats_rating (avgRating allReviews)) ;;
  ret review.

(** [exports.deleteReview]. *)
Definition deleteReview (user : User.t) (id : ObjectId) : Handler unit :=
  review <- Review_findById id ;;
  review <- orThrow review (errors.notFound "Review not found") ;;
  throwIf (negb (N.eqb (Review.user review) (User._id user)) &&
           negb (User.isAdmin (User.role user)))
          (errors.forbidden "You can only delete your own reviews") ;;
  let review := Review.setIsActive false review in
  Review_save false review ;;
  allReviews <- Review_find (Review.rule review) ;;
  (if (0 <? List.length allReviews)%nat then
     Rule_findByIdAndUpdate (Review.rule review)
       (set_stats_rating_reviewCount (avgRating allReviews)
                                     (Z.of_nat (List.length allReviews)))
   else
     Rule_findByIdAndUpdate (Review.rule review)
       (set_stats_rating_reviewCount 0%float 0)).

Record HelpfulResponse := { res_helpful : Z; res_userMarked : bool }.

(** [exports.markHelpful]. *)
Definition markHelpful (user : User.t) (id : ObjectId) (helpful : bool)
  : Handler HelpfulResponse :=
  review <- Review_findById id ;;
  review <- orThrow review (errors.notFound "Review not found") ;;
  let h := Review.helpful review in
  let userIndex := JS.indexOf (User._id user) (Review.users h) in
  let isHelpful := isSome userIndex in
  let h' :=
    if helpful && negb isHelpful then
      {| Review.users := Review.users h ++ [User._id user];
         Review.count := Review.count h + 1 |}
    else if negb helpful && isHelpful then
      {| Review.users :=
           match userIndex with
           | Some i => JS.splice1 i (Review.users h)
           | None => Review.users h
           end;
         Review.count := Review.count h - 1 |}
    else h in
  let review := Review.setHelpful h' review in
  Review_save false review ;;
  ret {| res_helpful := Review.count (Review.helpful review);
         res_userMarked := helpful |}.

End reviewController.

(* ================================================================== *)
(** * [src/controllers/ruleController.js] and the download route *)

Module ruleController.

Definition purchaseMarker : string := "... [Purchase to view full content]".
Definition loginPlaceholder : string := "[Login and purchase to view content]".

(** The masking step shared by [getRules] (prefix of 100) and [getRuleById]
    (prefix of 150): the query the response carries and the [hasPurchased]
    flag. *)
Definition mask (prefix : nat) (user : option User.t) (rule : Rule.t)
  : Handler (Rule.t * bool) :=
  match user with
  | Some u =>
      if Rule.isPaid (Rule.pricing rule) then
        hasPurchased <- Purchase_exists (User._id u) (Rule._id rule) ;;
        if negb hasPurchased then
          ret (Rule.setQuery
                 (JS.substring0 prefix (Rule.query (Rule.ruleContent rule))
                  ++ purchaseMarker) rule, hasPurchased)
        else ret (rule, hasPurchased)
      else ret (rule, false)
  | None =>
      if Rule.isPaid (Rule.pricing rule) then
        ret (Rule.setQuery loginPlaceholder rule, false)
      else ret (rule, false)
  end.

(** [exports.getRules], from the documents the catalog query selected on:
    [Promise.all(rules.map(async (rule) => ...))]. *)
Fixpoint maskedRules (user : option User.t) (found : list Rule.t)
  : Handler (list Rule.t) :=
  match found with
  | [] => ret []
  | rule :: rest =>
      r <- mask 100 user rule ;;
      rs <- maskedRules user rest ;;
      ret (fst r :: rs)
  end.

(** [.populate("author", ...)]: the account the reference names, [null]
    when no account answers it. [req.user] is an account on record (the JWT
    strategy loaded it from the collection), so a reference to the requester
    is answered. *)
Definition populateAuthor (user : option User.t) (rule : Rule.t)
  : Handler (option User.t) :=
  author <- User_findById (Rule.author rule) ;;
  ret match author, user with
      | Some a, _ => Some a
      | None, Some u =>
          if N.eqb (User._id u) (Rule.author rule) then Some u else None
      | None, None => None
      end.

(** [exports.getRuleById]; an early [return res.status(c).json(...)] is the
    rejection [ApiError c message], and what is thrown inside the [try] is
    answered with 500 by the [catch]. The visibility test reads
    [rule.author._id] on the populated author, and only when the rule is
    PRIVATE and there is a requester. *)
Definition getRuleById (user : option User.t) (id : ObjectId)
  : Handler (Rule.t * bool) :=
  rule <- Rule_findById id ;;
  rule <- orThrow rule (errors.notFound "Rule not found") ;;
  author <- populateAuthor user rule ;;
  match Rule.visibility rule with
  | Rule.PRIVATE =>
      match user with
      | Some u =>
          author <- deref author "_id" ;;
          throwIf (negb (N.eqb (User._id author) (User._id u)))
                  (errors.forbidden "Access denied")
      | None => throw (errors.forbidden "Access denied")
      end
  | _ => ret tt
  end ;;
  let st := Rule.statistics rule in
  let rule :=
    Rule.setStatistics
      {| Rule.views := Rule.views st + 1; Rule.downloads := Rule.downloads st;
         Rule.forks := Rule.forks st; Rule.purchases := Rule.purchases st;
         Rule.rating := Rule.rating st;
         Rule.totalRatings := Rule.totalRatings st |} rule in
  Rule_save rule ;;
  mask 150 user rule.

(** [router.post("/:id/download", authenticate, ...)] of
    [src/routes/ruleRoutes.js]: the content is released to the owner, for a
    free rule, or to the holder of an active purchase. *)
Definition download (user : User.t) (id : ObjectId) (now : Z)
  : Handler Rule.RuleContent :=
  rule <- Rule_findById id ;;
  rule <- orThrow rule (errors.notFound "Rule not found") ;;
  let isOwner := N.eqb (Rule.author rule) (User._id user) in
  (if Rule.isPaid (Rule.pricing rule) && negb isOwner then
     purchase <- Purchase_findOne (User._id user) (Rule._id rule) ;;
     purchase <- orThrow purchase
                   (errors.forbidden "Purchase required to download this rule") ;;
     Purchase_save
       (Purchase.setDownloads
          {| Purchase.count := Purchase.count (Purchase.downloads purchase) + 1;
             Purchase.lastDownloadedAt := Some now |} purchase)
   else ret tt) ;;
  let st := Rule.statistics rule in
  Rule_save
    (Rule.setStatistics
       {| Rule.views := Rule.views st; Rule.downloads := Rule.downloads st + 1;
          Rule.forks := Rule.forks st; Rule.purchases := Rule.purchases st;
          Rule.rating := Rule.rating st;
          Rule.totalRatings := Rule.totalRatings st |} rule) ;;
  Activity_create
    {| Activity.user := User._id user;
       Activity.type := Activity.RULE_DOWNLOADED;
       Activity.target := Rule._id rule |} ;;
  ret (Rule.ruleContent rule).

End ruleController.

(* ================================================================== *)
(** * Requests served one at a time *)

Inductive Request : Type :=
| PurchaseRule (user : User.t) (ruleId : ObjectId)
    (paymentMethodId : option string) (randomHex1 randomHex2 : string) (now : Z)
| RequestRefund (user : User.t) (id : ObjectId) (reason : option string) (now : Z)
| ProcessRefund (id : ObjectId) (approved : bool)
| CreateReview (user : User.t) (ruleId : ObjectId) (rating : option JS.Number)
    (comment : option string)
| UpdateReview (user : User.t) (id : ObjectId) (rating : option JS.Number)
    (comment : option string)
| DeleteReview (user : User.t) (id : ObjectId)
| MarkHelpful (user : User.t) (id : ObjectId) (helpful : bool)
| GetRules (user : option User.t) (found : list Rule.t)
| GetRuleById (user : option User.t) (id : ObjectId)
| Download (user : User.t) (id : ObjectId) (now : Z).

(** The database a request leaves behind, whether it resolved or rejected. *)
Definition serve (rq : Request) (db : Store) : Store :=
  match rq with
  | PurchaseRule user ruleId pm r1 r2 now =>
      snd (transactionController.purchaseRule user ruleId pm r1 r2 now db)
  | RequestRefund user id reason now =>
      snd (transactionController.requestRefund user id reason now db)
  | ProcessRefund id approved =>
      snd (transactionController.processRefund id approved db)
  | CreateReview user ruleId rating comment =>
      snd (reviewController.createReview user ruleId rating comment db)
  | UpdateReview user id rating comment =>
      snd (reviewController.updateReview user id rating comment db)
  | DeleteReview user id => snd (reviewController.deleteReview user id db)
  | MarkHelpful user id helpful =>
      snd (reviewController.markHelpful user id helpful db)
  | GetRules user found => snd (ruleController.maskedRules user found db)
  | GetRuleById user id => snd (ruleController.getRuleById user id db)
  | Download user id now => snd (ruleController.download user id now db)
  end.

(** The states reached from [db0] by requests that each run to completion
    before the next one starts. *)
Inductive reachable (db0 : Store) : Store -> Prop :=
| reachable_start : reachable db0 db0
| reachable_serve : forall db rq, reachable db0 db -> reachable db0 (serve rq db).

(** The number of active Purchases of a (buyer, rule) pair. *)
Definition activeCount (user rule : ObjectId) (db : Store) : nat :=
  List.length (filter (activePurchaseOf user rule) (purchases db)).

Definition atMostOneActive (db : Store) : Prop :=
  forall user rule, (activeCount user rule db <= 1)%nat.

(** The driver's discipline on [_id]: unique within the collection, and
    below the next id it hands out. *)
Definition purchaseIdsFresh (db : Store) : Prop :=
  NoDup (map Purchase._id (purchases db)) /\
  Forall (fun p => (Purchase._id p < nextId db)%N) (purchases db).

(* ================================================================== *)
(** * The specification's wording, for comparison *)

Module Spec.

Definition ofZ (z : Z) : JS.Number :=
  if z <? 0 then (- PrimFloat.of_uint63 (Uint63.of_Z (- z)))%float
  else PrimFloat.of_uint63 (Uint63.of_Z z).

(** [round]: the nearest integer, a tie going up (JavaScript's
    [Math.round]), taken on the exact binary expansion [n * 2^e] of the
    number: floor (n * 2^e + 1/2). *)
Definition round (x : JS.Number) : JS.Number :=
  match Prim2SF x with
  | S754_finite s m e =>
      let n := if s then Z.neg m else Z.pos m in
      if 0 <=? e then x
      else ofZ ((2 * n + 2 ^ (- e)) / 2 ^ (1 - e))
  | _ => x
  end.

(** "[split(amount, feeRate=0.10) -> (platformFee, sellerEarnings)] where
    [platformFee = round(amount * feeRate)] and
    [sellerEarnings = amount - platformFee]". *)
Definition split (amount : JS.Number) : JS.Number * JS.Number :=
  let platformFee := round (amount * transactionController.platformFeePercent)%float in
  (platformFee, (amount - platformFee)%float).

(** The same with [round] read as rounding to the cent. *)
Definition splitCents (amount : JS.Number) : JS.Number * JS.Number :=
  let platformFee :=
    (round (amount * transactionController.platformFeePercent * 100) / 100)%float in
  (platformFee, (amount - platformFee)%float).

(** The mean the Rating Aggregator is specified to store; 0 when no active
    review remains. *)
Definition aggregate (ratings : list JS.Number) : JS.Number * Z :=
  match ratings with
  | [] => (0%float, 0)
  | _ => ((fold_left PrimFloat.add ratings 0 / JS.ofLength (List.length ratings))%float,
          Z.of_nat (List.length ratings))
  end.

End Spec.

(* ================================================================== *)
(** * Sample documents *)

Module Sample.

Definition mkUser (id : ObjectId) (name : string) (role : User.Role)
    (totalEarnings : JS.Number) : User.t :=
  {| User._id := id; User.username := name;
     User.email := name ++ "@example.org"; User.role := role;
     User.statistics :=
       {| User.totalRules := 1; User.totalDownloads := 0;
          User.totalEarnings := totalEarnings; User.rating := 0%float |};
     User.statistics_earnings := None |}.

Definition alice : User.t := mkUser 1 "alice" User.USER 0%float.
(** bob sells; his declared earnings hold the 4.32 of one sale. *)
Definition bob : User.t := mkUser 2 "bob" User.USER 0x1.147ae147ae148p+2%float.
Definition carol : User.t := mkUser 3 "carol" User.ADMIN 0%float.
Definition dave : User.t := mkUser 4 "dave" User.USER 0%float.

(** 4.8, the binary64 nearest to it. *)
Definition price : JS.Number := 0x1.3333333333333p+2%float.

(** A query of 195 characters. *)
Definition longQuery : string :=
  "index=windows sourcetype=WinEventLog:Security EventCode=4688 "
  ++ "| search New_Process_Name=*powershell.exe* "
  ++ "| stats count min(_time) as firstSeen by host, user, Process_Command_Line "
  ++ "| where count > 5".

Definition zeroStatistics : Rule.Statistics :=
  {| Rule.views := 0; Rule.downloads := 0; Rule.forks := 0;
     Rule.purchases := 0; Rule.rating := 0%float; Rule.totalRatings := 0 |}.

(** A paid rule of bob's as the Rule schema shapes it. *)
Definition schemaRule : Rule.t :=
  {| Rule._id := 10; Rule.title := "Suspicious PowerShell"; Rule.author := 2;
     Rule.ruleContent := {| Rule.query := longQuery |};
     Rule.visibility := Rule.PUBLIC;
     Rule.pricing :=
       {| Rule.isPaid := true; Rule.price := price; Rule.currency := "USD";
          Rule.licenseType := "SINGLE_USE";
          Rule.type := None; Rule.amount := None |};
     Rule.statistics := zeroStatistics; Rule.isActive := true;
     Rule.creator := None; Rule.stats := None |}.

(** The same rule as a stored document that also carries the names the
    transaction controller reads; the model exposes none of them. *)
Definition listedRule : Rule.t :=
  {| Rule._id := 11; Rule.title := "Suspicious PowerShell"; Rule.author := 2;
     Rule.ruleContent := {| Rule.query := longQuery |};
     Rule.visibility := Rule.PUBLIC;
     Rule.pricing :=
       {| Rule.isPaid := true; Rule.price := price; Rule.currency := "USD";
          Rule.licenseType := "SINGLE_USE";
          Rule.type := Some "PAID"; Rule.amount := Some price |};
     Rule.statistics := zeroStatistics; Rule.isActive := true;
     Rule.creator := Some 2%N; Rule.stats := Some Rule.emptyStats |}.

Definition emptyStore : Store :=
  {| rules := [schemaRule; listedRule]; transactions := []; purchases := [];
     reviews := []; users := [alice; bob; carol; dave]; notifications := [];
     activities := []; nextId := 100 |}.

(** alice's purchase of [rule] through transaction 50. *)
Definition purchaseOf (id rule : ObjectId) : Purchase.t :=
  {| Purchase._id := id; Purchase.user := 1; Purchase.rule := rule;
     Purchase.transaction := 50; Purchase.accessGrantedAt := 0;
     Purchase.downloads := {| Purchase.count := 0; Purchase.lastDownloadedAt := None |};
     Purchase.licenseKey := "0123456789ABCDEF0123456789ABCDEF";
     Purchase.isActive := true |}.

(** The transaction of that purchase: 4.8 split into 0.48 and 4.32, created
    at time 0, with no [metadata] field. *)
Definition saleOf (rule : ObjectId) (status : Transaction.Status) : Transaction.t :=
  {| Transaction._id := 50; Transaction.buyer := 1; Transaction.seller := 2;
     Transaction.rule := rule; Transaction.amount := price;
     Transaction.currency := "USD"; Transaction.paymentMethod := Transaction.STRIPE;
     Transaction.status := status; Transaction.paymentIntentId := "pi_1";
     Transaction.platformFee := (price * transactionController.platformFeePercent)%float;
     Transaction.sellerEarnings :=
       (price - price * transactionController.platformFeePercent)%float;
     Transaction.metadata := None; Transaction.createdAt := 0 |}.

(** alice owns [rule]; the sale is in [status]. *)
Definition soldStore (rule : ObjectId) (status : Transaction.Status) : Store :=
  setTransactions [saleOf rule status]
    (setPurchases [purchaseOf 51 rule] emptyStore).

Definition day : Z := 1000 * 60 * 60 * 24.

Definition mkReview (id user : ObjectId) (rating : JS.Number) (active : bool)
  : Review.t :=
  {| Review._id := id; Review.rule := 10; Review.user := user;
     Review.rating := rating; Review.comment := Some "useful";
     Review.verified := false;
     Review.helpful := {| Review.count := 0; Review.users := [] |};
     Review.reported := false; Review.isActive := active |}.

(** The rule of the schema with active reviews rated 5, 3 and 4. *)
Definition reviewedStore : Store :=
  setReviews [mkReview 60 1 5%float true; mkReview 61 3 3%float true;
              mkReview 62 4 4%float true] emptyStore.

(** alice's only review of the rule, soft-deleted. *)
Definition deletedReviewStore : Store :=
  setReviews [mkReview 60 1 5%float false] emptyStore.

End Sample.

(* ================================================================== *)
(** * What a handler keeps, and what it stores *)

(** [m] relates every database to the one it leaves, by [R]. *)
Definition preserves {A : Type} (R : Store -> Store -> Prop) (m : Handler A) : Prop :=
  forall db, R db (snd (m db)).

(** The Purchase collection is untouched and ids are only consumed. *)
Definition keepsPurchases (db db' : Store) : Prop :=
  purchases db' = purchases db /\ (nextId db <= nextId db')%N.

(** What the entitlement of a Purchase rests on. *)
Definition purchaseKey (p : Purchase.t) : ObjectId * ObjectId * ObjectId * bool :=
  (Purchase._id p, Purchase.user p, Purchase.rule p, Purchase.isActive p).

Definition purchasesInvariant (db : Store) : Prop :=
  atMostOneActive db /\ purchaseIdsFresh db.

(** Who wrote a Review, and of which rule. *)
Definition reviewKey (x : Review.t) : ObjectId * ObjectId * ObjectId :=
  (Review._id x, Review.rule x, Review.user x).

Definition keepsReviewKeys (db db' : Store) : Prop :=
  map reviewKey (reviews db') = map reviewKey (reviews db).

(** A Review of [rule] by [user] is on record, active or not. *)
Definition reviewedBy (rule user : ObjectId) (db : Store) : Prop :=
  exists x, In x (reviews db) /\ Review.rule x = rule /\ Review.user x = user.

(** The rejection of [createReview], test by test. The purchase test is
    not among them: it is guarded by [pricing.type], which no loaded rule
    has. *)
Definition createReview_rejection (user : User.t) (ruleId : ObjectId) (db : Store)
  : Exception :=
  match find (fun r => N.eqb (Rule._id r) ruleId) (rules db) with
  | None => errors.notFound "Rule not found"
  | Some _ =>
      match find (fun x => N.eqb (Review.rule x) ruleId &&
                           N.eqb (Review.user x) (User._id user)) (reviews db) with
      | Some _ => errors.conflict "You have already reviewed this rule"
      | None => ReferenceError "hasPurchased"
      end
  end.

(** The two fields of [ruleSchema.statistics] the Rating Aggregator owns. *)
Definition ratingFields (r : Rule.t) : JS.Number * Z :=
  (Rule.rating (Rule.statistics r), Rule.totalRatings (Rule.statistics r)).

Definition keepsRatingFields (db db' : Store) : Prop :=
  map ratingFields (rules db') = map ratingFields (rules db).

Definition keepsReviews (db db' : Store) : Prop := reviews db' = reviews db.

Definition keepsRules (db db' : Store) : Prop := rules db' = rules db.

(** What [markHelpful] leaves in [helpful]. *)
Definition helpfulAfter (user : ObjectId) (helpful : bool) (h : Review.Helpful)
  : Review.Helpful :=
  match JS.indexOf user (Review.users h), helpful with
  | None, true =>
      {| Review.count := Review.count h + 1;
         Review.users := (Review.users h ++ [user])%list |}
  | Some i, false =>
      {| Review.count := Review.count h - 1;
         Review.users := JS.splice1 i (Review.users h) |}
  | _, _ => h
  end.

(** The query a response of [getRuleById] carries. *)
Definition shownQuery (out : (Exception + Rule.t * bool) * Store) : option string :=
  match fst out with
  | inr (rule, _) => Some (Rule.query (Rule.ruleContent rule))
  | inl _ => None
  end.

(** The document [getRuleById] saves and renders: one more view. *)
Definition viewed (rule : Rule.t) : Rule.t :=
  Rule.setStatistics
    {| Rule.views := Rule.views (Rule.statistics rule) + 1;
       Rule.downloads := Rule.downloads (Rule.statistics rule);
       Rule.forks := Rule.forks (Rule.statistics rule);
       Rule.purchases := Rule.purchases (Rule.statistics rule);
       Rule.rating := Rule.rating (Rule.statistics rule);
       Rule.totalRatings := Rule.totalRatings (Rule.statistics rule) |} rule.

(* ================================================================== *)
(** * Roles and permissions ([src/models/User.js], [src/middleware/auth.js]) *)

(** The table [rolePermissions] of [userSchema.methods.hasPermission]. *)
Definition rolePermissions (role : User.Role) : list string :=
  match role with
  | User.USER =>
      ["rule:create"; "rule:read"; "rule:update:own"; "rule:delete:own"]
  | User.VERIFIED_CONTRIBUTOR =>
      ["rule:create"; "rule:read"; "rule:update:own"; "rule:delete:own";
       "rule:publish"]
  | User.MODERATOR =>
      ["rule:create"; "rule:read"; "rule:update:any"; "rule:delete:any";
       "rule:approve"; "rule:reject"; "user:moderate"]
  | User.ADMIN => ["*"]
  end.

(** [permissions.includes(p)] on an array of strings. *)
Definition includes (p : string) (permissions : list string) : bool :=
  existsb (String.eqb p) permissions.

(** [user.hasPermission(permission)]. *)
Definition User_hasPermission (user : User.t) (permission : string) : bool :=
  let permissions := rolePermissions (User.role user) in
  includes "*" permissions || includes permission permissions.

Definition Role_eqb (a b : User.Role) : bool :=
  match a, b with
  | User.USER, User.USER | User.VERIFIED_CONTRIBUTOR, User.VERIFIED_CONTRIBUTOR
  | User.MODERATOR, User.MODERATOR | User.ADMIN, User.ADMIN => true
  | _, _ => false
  end.

Module auth.

(** [authenticate]: [user] is the account the JWT strategy resolved the
    token to, [info] the message it gave when it resolved none. (The
    strategy's own failure, the [err] branch, does not arise over a [Store].)
    A middleware that answers with [res.status(c).json(...)] instead of
    calling [next] is the rejection [ApiError c message]. *)
Definition authenticate (user : option User.t) (info : option string)
  : Handler User.t :=
  orThrow user (ApiError 401 (JS.orString info "Unauthorized")).

(** [hasRole(...roles)], on [req.user]. *)
Definition hasRole (roles : list User.Role) (req_user : option User.t)
  : Handler unit :=
  match req_user with
  | None => throw (ApiError 401 "Authentication required")
  | Some user =>
      throwIf (negb (existsb (Role_eqb (User.role user)) roles))
              (ApiError 403 "Insufficient permissions")
  end.

(** [isOwnerOr(permission)], on [req.user] and [req.resource]. *)
Definition isOwnerOr (permission : string) (req_user : option User.t)
    (req_resource : option Rule.t) : Handler unit :=
  match req_user with
  | None => throw (ApiError 401 "Authentication required")
  | Some user =>
      let isOwner :=
        match req_resource with
        | Some resource => N.eqb (Rule.author resource) (User._id user)
        | None => false
        end in
      let hasOverride := User_hasPermission user permission in
      throwIf (negb isOwner && negb hasOverride)
              (ApiError 403 "You can only modify your own resources")
  end.

End auth.

(* ================================================================== *)
(** * The rest of the models' queries *)

Definition User_setRole (r : User.Role) (u : User.t) : User.t :=
  {| User._id := User._id u; User.username := User.username u;
     User.email := User.email u; User.role := r;
     User.statistics := User.statistics u;
     User.statistics_earnings := User.statistics_earnings u |}.

(** [User.findByIdAndUpdate(id, { role }, { new: true })]: the document as
    the update left it, or [null]. *)
Definition User_findByIdAndUpdate_role (id : ObjectId) (r : User.Role)
  : Handler (option User.t) :=
  write (fun db =>
    setUsers (updateFirst (fun u => N.eqb (User._id u) id) (User_setRole r)
                          (users db)) db) ;;
  User_findById id.

Definition Rule_setIsActive (b : bool) (r : Rule.t) : Rule.t :=
  {| Rule._id := Rule._id r; Rule.title := Rule.title r;
     Rule.author := Rule.author r; Rule.ruleContent := Rule.ruleContent r;
     Rule.visibility := Rule.visibility r; Rule.pricing := Rule.pricing r;
     Rule.statistics := Rule.statistics r; Rule.isActive := b;
     Rule.creator := Rule.creator r; Rule.stats := Rule.stats r |}.

(** [new Rule({...}).save()] once the validators passed. *)
Definition Rule_insert (r : Rule.t) : Handler unit :=
  write (fun db => setRules (rules db ++ [r]) db).

Definition Review_setReported (b : bool) (x : Review.t) : Review.t :=
  {| Review._id := Review._id x; Review.rule := Review.rule x;
     Review.user := Review.user x; Review.rating := Review.rating x;
     Review.comment := Review.comment x; Review.verified := Review.verified x;
     Review.helpful := Review.helpful x; Review.reported := b;
     Review.isActive := Review.isActive x |}.

Definition Visibility_eqb (a b : Rule.Visibility) : bool :=
  match a, b with
  | Rule.PUBLIC, Rule.PUBLIC | Rule.PRIVATE, Rule.PRIVATE
  | Rule.UNLISTED, Rule.UNLISTED => true
  | _, _ => false
  end.

Definition PaymentMethod_eqb (a b : Transaction.PaymentMethod) : bool :=
  match a, b with
  | Transaction.STRIPE, Transaction.STRIPE
  | Transaction.PAYPAL, Transaction.PAYPAL
  | Transaction.CRYPTO, Transaction.CRYPTO
  | Transaction.CREDITS, Transaction.CREDITS => true
  | _, _ => false
  end.

(* ================================================================== *)
(** * [src/controllers/transactionController.js]: the reading handlers *)

Module transactionReports.

(** A Transaction with [buyer], [seller] and [rule] populated; a reference
    that no document answers populates to [null]. *)
Record Populated := {
  transaction : Transaction.t;
  buyer : option User.t;
  seller : option User.t;
  rule : option Rule.t
}.

(** [exports.getTransaction]. *)
Definition getTransaction (user : User.t) (id : ObjectId) : Handler Populated :=
  transaction <- Transaction_findById id ;;
  transaction <- orThrow transaction (errors.notFound "Transaction not found") ;;
  buyer <- User_findById (Transaction.buyer transaction) ;;
  seller <- User_findById (Transaction.seller transaction) ;;
  rule <- Rule_findById (Transaction.rule transaction) ;;
  (* transaction.buyer._id.toString() !== req.user._id.toString() && ... *)
  b <- deref buyer "_id" ;;
  (if negb (N.eqb (User._id b) (User._id user)) then
     s <- deref seller "_id" ;;
     throwIf (negb (N.eqb (User._id s) (User._id user)) &&
              negb (User.isAdmin (User.role user)))
             (errors.forbidden "You do not have access to this transaction")
   else ret tt) ;;
  ret {| transaction := transaction; buyer := buyer; seller := seller;
         rule := rule |}.

(** The filter [query] of [exports.getMyTransactions]; [type] is
    [req.query.type], "all" when absent. *)
Definition myTransactions (type : option string) (user : User.t)
    (x : Transaction.t) : bool :=
  let type := match type with Some t => t | None => "all" end in
  if String.eqb type "purchases" then
    N.eqb (Transaction.buyer x) (User._id user)
  else if String.eqb type "sales" then
    N.eqb (Transaction.seller x) (User._id user)
  else
    N.eqb (Transaction.buyer x) (User._id user) ||
    N.eqb (Transaction.seller x) (User._id user).

(** [Transaction.countDocuments(query)]. *)
Definition Transaction_countDocuments (query : Transaction.t -> bool)
  : Handler Z :=
  read (fun db => Z.of_nat (List.length (filter query (transactions db)))).

(** [pagination.total] of [exports.getMyTransactions]. (The page of
    documents itself, cut by [sort], [skip] and [limit], is not modelled.) *)
Definition getMyTransactions_total (user : User.t) (type : option string)
  : Handler Z :=
  Transaction_countDocuments (myTransactions type user).

(** [dateFilter], in milliseconds since the epoch. *)
Definition dateFilter (period : string) (now : Z) : Z :=
  if String.eqb period "week" then now - 7 * 24 * 60 * 60 * 1000
  else if String.eqb period "month" then now - 30 * 24 * 60 * 60 * 1000
  else if String.eqb period "year" then now - 365 * 24 * 60 * 60 * 1000
  else 0.

(** The stage [$match: { status: "COMPLETED", createdAt: { $gte } }]. *)
Definition completedSince (since : Z) (x : Transaction.t) : bool :=
  Transaction.Status_eqb (Transaction.status x) Transaction.COMPLETED &&
  (since <=? Transaction.createdAt x).

Record Overview := {
  totalRevenue : JS.Number;
  totalPlatformFees : JS.Number;
  totalSellerEarnings : JS.Number;
  transactionCount : Z
}.

Record MethodStats := {
  method : Transaction.PaymentMethod;
  count : Z;
  totalAmount : JS.Number
}.

Record PlatformStats := {
  period : string;
  overview : Overview;
  paymentMethodStats : list MethodStats
}.

Section Aggregation.

(** The value MongoDB's [$sum] accumulates over the Numbers of a group. *)
Variable sum : list JS.Number -> JS.Number.

(** [$group: { _id: null, ... }]: one group when a document matched, none
    otherwise. *)
Definition groupAll (matched : list Transaction.t) : option Overview :=
  match matched with
  | [] => None
  | _ =>
      Some {| totalRevenue := sum (map Transaction.amount matched);
              totalPlatformFees := sum (map Transaction.platformFee matched);
              totalSellerEarnings := sum (map Transaction.sellerEarnings matched);
              transactionCount := Z.of_nat (List.length matched) |}
  end.

(** [$group: { _id: "$paymentMethod", ... }]: one group for each payment
    method a matched document has. MongoDB leaves the order of the groups
    open; they are listed in the order of the schema's enum. *)
Definition groupByMethod (matched : list Transaction.t) : list MethodStats :=
  flat_map
    (fun m =>
       let g := filter (fun x => PaymentMethod_eqb (Transaction.paymentMethod x) m)
                       matched in
       match g with
       | [] => []
       | _ => [{| method := m;
                  count := Z.of_nat (List.length g);
                  totalAmount := sum (map Transaction.amount g) |}]
       end)
    [Transaction.STRIPE; Transaction.PAYPAL; Transaction.CRYPTO;
     Transaction.CREDITS].

(** [exports.getPlatformStats]; [period] is [req.query.period], "month"
    when absent, and [now] the clock. *)
Definition getPlatformStats (period : option string) (now : Z)
  : Handler PlatformStats :=
  let period := match period with Some p => p | None => "month" end in
  let dateFilter := dateFilter period now in
  stats <- read (fun db => groupAll (filter (completedSince dateFilter)
                                            (transactions db))) ;;
  paymentMethodStats <-
    read (fun db => groupByMethod (filter (completedSince dateFilter)
                                          (transactions db))) ;;
  ret {| period := period;
         overview :=
           match stats with
           | Some o => o
           | None => {| totalRevenue := 0%float; totalPlatformFees := 0%float;
                        totalSellerEarnings := 0%float; transactionCount := 0 |}
           end;
         paymentMethodStats := paymentMethodStats |}.

End Aggregation.

End transactionReports.

(* ================================================================== *)
(** * [src/controllers/ruleController.js]: deleting and forking *)

Module ruleManagement.

(** The handlers of this controller answer for themselves: an early
    [return res.status(c).json(...)] is the rejection [ApiError c message],
    and what is thrown inside their [try] is answered with 500 by their
    [catch]. *)

(** [exports.deleteRule]. [status], which the handler sets to "ARCHIVED",
    is not among the fields [Rule.t] tracks. *)
Definition deleteRule (user : User.t) (id : ObjectId) : Handler unit :=
  rule <- Rule_findById id ;;
  rule <- orThrow rule (errors.notFound "Rule not found") ;;
  throwIf (negb (N.eqb (Rule.author rule) (User._id user)) &&
           negb (User_hasPermission user "rule:delete:any"))
          (errors.forbidden "Access denied") ;;
  Rule_save (Rule_setIsActive false rule).

(** The paths the schema fills in on a new Rule. *)
Definition defaultPricing : Rule.Pricing :=
  {| Rule.isPaid := false; Rule.price := 0%float; Rule.currency := "USD";
     Rule.licenseType := "FREE"; Rule.type := None; Rule.amount := None |}.

Definition defaultStatistics : Rule.Statistics :=
  {| Rule.views := 0; Rule.downloads := 0; Rule.forks := 0;
     Rule.purchases := 0; Rule.rating := 0%float; Rule.totalRatings := 0 |}.

(** [exports.forkRule]. The copy takes the fields the handler lists and the
    schema's defaults for the others; of its validators only [maxlength] of
    [title] can reject, the other validated values being those of the stored
    original. The Activity of type RULE_FORKED logged before the response is
    outside [Activity.Type_] and is not tracked. *)
Definition forkRule (user : User.t) (id : ObjectId) : Handler Rule.t :=
  originalRule <- Rule_findById id ;;
  originalRule <- orThrow originalRule (errors.notFound "Rule not found") ;;
  throwIf (negb (Visibility_eqb (Rule.visibility originalRule) Rule.PUBLIC))
          (errors.forbidden "Cannot fork private rules") ;;
  let title := Rule.title originalRule ++ " (Fork)" in
  throwIf (200 <? String.length title)%nat (ValidationError "title") ;;
  forkId <- freshId ;;
  let forkedRule :=
    {| Rule._id := forkId;
       Rule.title := title;
       Rule.author := User._id user;
       Rule.ruleContent := Rule.ruleContent originalRule;
       Rule.visibility := Rule.PRIVATE;
       Rule.pricing := defaultPricing;
       Rule.statistics := defaultStatistics;
       Rule.isActive := true;
       Rule.creator := None;
       Rule.stats := None |} in
  Rule_insert forkedRule ;;
  let st := Rule.statistics originalRule in
  Rule_save
    (Rule.setStatistics
       {| Rule.views := Rule.views st; Rule.downloads := Rule.downloads st;
          Rule.forks := Rule.forks st + 1; Rule.purchases := Rule.purchases st;
          Rule.rating := Rule.rating st;
          Rule.totalRatings := Rule.totalRatings st |} originalRule) ;;
  ret forkedRule.

End ruleManagement.

(* ================================================================== *)
(** * [src/controllers/adminController.js] *)

Module adminController.

(** [exports.moderateRule]. [Notification.create] validates [recipient],
    a required path; [rule.save()] validates [status], whose enum is DRAFT,
    PENDING_REVIEW, APPROVED, REJECTED, ARCHIVED: "PUBLISHED" fails it,
    "REJECTED" passes. [status] and [publishedAt] are not among the fields
    [Rule.t] tracks. *)
Definition moderateRule (ruleId : ObjectId) (approved : bool) : Handler Rule.t :=
  rule <- Rule_findById ruleId ;;
  rule <- orThrow rule (errors.notFound "Rule not found") ;;
  (if approved then
     recipient <- orThrow (Rule.creator rule) (ValidationError "recipient") ;;
     Notification_create
       {| Notification.recipient := recipient;
          Notification.type := Notification.RULE_APPROVED;
          Notification.title := "Rule Approved" |}
   else
     recipient <- orThrow (Rule.creator rule) (ValidationError "recipient") ;;
     Notification_create
       {| Notification.recipient := recipient;
          Notification.type := Notification.RULE_REJECTED;
          Notification.title := "Rule Rejected" |}) ;;
  throwIf approved (ValidationError "status") ;;
  Rule_save rule ;;
  ret rule.

(** The text of [`${action}`]. *)
Definition template (action : option string) : string :=
  match action with Some a => a | None => "undefined" end.

Definition actionIs (action : option string) (s : string) : bool :=
  match action with Some a => String.eqb a s | None => false end.

(** [exports.reviewModerationAction]: the message and the review of the
    response. *)
Definition reviewModerationAction (reviewId : ObjectId) (action : option string)
  : Handler (string * Review.t) :=
  review <- Review_findById reviewId ;;
  review <- orThrow review (errors.notFound "Review not found") ;;
  let review :=
    if actionIs action "remove" then Review.setIsActive false review
    else if actionIs action "approve" then Review_setReported false review
    else review in
  Review_save false review ;;
  ret ("Review " ++ template action ++ "d successfully", review).

(** [validRoles.includes(role)], and the role a valid string names. *)
Definition roleOfString (role : option string) : option User.Role :=
  match role with
  | Some s =>
      if String.eqb s "USER" then Some User.USER
      else if String.eqb s "VERIFIED_CONTRIBUTOR" then Some User.VERIFIED_CONTRIBUTOR
      else if String.eqb s "MODERATOR" then Some User.MODERATOR
      else if String.eqb s "ADMIN" then Some User.ADMIN
      else None
  | None => None
  end.

(** [exports.updateUserRole]. The Activity it logs has the type
    "ADMIN_ACTION", which is not in the enum of [activitySchema.type]:
    [Activity.create] rejects it with a ValidationError. *)
Definition updateUserRole (userId : ObjectId) (role : option string)
  : Handler User.t :=
  role <- orThrow (roleOfString role) (errors.badRequest "Invalid role") ;;
  user <- User_findByIdAndUpdate_role userId role ;;
  user <- orThrow user (errors.notFound "User not found") ;;
  _activity <- throw (A := unit) (ValidationError "type") ;;
  ret user.

End adminController.

(* ================================================================== *)
(** * Middleware chains of the routers *)

Module routes.

(** [validate]; [valid] tells whether [validationResult(req)] is empty. *)
Definition validate (valid : bool) : Handler unit :=
  throwIf (negb valid) (ApiError 400 "Validation failed").

(** [loadRule] of [src/routes/ruleRoutes.js]. *)
Definition loadRule (id : ObjectId) : Handler Rule.t :=
  rule <- Rule_findById id ;;
  orThrow rule (ApiError 404 "Rule not found").

(** [router.delete("/:id", authenticate, loadRule,
    isOwnerOr("rule:delete:any"), ruleController.deleteRule)]. *)
Definition deleteRule (user : option User.t) (info : option string)
    (id : ObjectId) : Handler unit :=
  user <- auth.authenticate user info ;;
  resource <- loadRule id ;;
  auth.isOwnerOr "rule:delete:any" (Some user) (Some resource) ;;
  ruleManagement.deleteRule user id.

(** [router.post("/:id/refund/process", authenticate, hasRole("ADMIN"),
    [...], validate, transactionController.processRefund)]; [approved] is
    the truth value of [req.body.approved]. *)
Definition processRefund (user : option User.t) (info : option string)
    (valid : bool) (id : ObjectId) (approved : bool) : Handler Transaction.t :=
  user <- auth.authenticate user info ;;
  auth.hasRole [User.ADMIN] (Some user) ;;
  validate valid ;;
  transactionController.processRefund id approved.

End routes.

(* ================================================================== *)
(** * Requests of the rule and admin controllers *)

Inductive ManagementRequest : Type :=
| DeleteRule (user : User.t) (id : ObjectId)
| ForkRule (user : User.t) (id : ObjectId)
| ModerateRule (ruleId : ObjectId) (approved : bool)
| ReviewModerationAction (reviewId : ObjectId) (action : option string)
| UpdateUserRole (userId : ObjectId) (role : option string).

(** The database a request leaves behind, whether it resolved or rejected. *)
Definition manage (rq : ManagementRequest) (db : Store) : Store :=
  match rq with
  | DeleteRule user id => snd (ruleManagement.deleteRule user id db)
  | ForkRule user id => snd (ruleManagement.forkRule user id db)
  | ModerateRule ruleId approved =>
      snd (adminController.moderateRule ruleId approved db)
  | ReviewModerationAction reviewId action =>
      snd (adminController.reviewModerationAction reviewId action db)
  | UpdateUserRole userId role =>
      snd (adminController.updateUserRole userId role db)
  end.

(** The states reached from [db0] by requests of either kind, each run to
    completion before the next one starts. *)
Inductive reachableAll (db0 : Store) : Store -> Prop :=
| reachableAll_start : reachableAll db0 db0
| reachableAll_serve : forall db rq,
    reachableAll db0 db -> reachableAll db0 (serve rq db)
| reachableAll_manage : forall db rq,
    reachableAll db0 db -> reachableAll db0 (manage rq db).

(* ================================================================== *)
(** * What the ledger of transactions keeps *)

(** One move of the refund workflow: COMPLETED to DISPUTED
    ([requestRefund]), DISPUTED to REFUNDED or back to COMPLETED
    ([processRefund]), or no move. *)
Definition statusStep (a b : Transaction.Status) : bool :=
  Transaction.Status_eqb a b ||
  match a, b with
  | Transaction.COMPLETED, Transaction.DISPUTED
  | Transaction.DISPUTED, Transaction.REFUNDED
  | Transaction.DISPUTED, Transaction.COMPLETED => true
  | _, _ => false
  end.

(** Any number of moves. *)
Definition statusReach (a b : Transaction.Status) : bool :=
  Transaction.Status_eqb a b ||
  match a, b with
  | (Transaction.COMPLETED | Transaction.DISPUTED),
    (Transaction.COMPLETED | Transaction.DISPUTED | Transaction.REFUNDED) => true
  | _, _ => false
  end.

(** A Transaction apart from [status] and [metadata]. *)
Definition saleOfRecord (x : Transaction.t)
  : ObjectId * ObjectId * ObjectId * ObjectId * JS.Number * string
    * Transaction.PaymentMethod * string * JS.Number * JS.Number * Z :=
  (Transaction._id x, Transaction.buyer x, Transaction.seller x,
   Transaction.rule x, Transaction.amount x, Transaction.currency x,
   Transaction.paymentMethod x, Transaction.paymentIntentId x,
   Transaction.platformFee x, Transaction.sellerEarnings x,
   Transaction.createdAt x).

Definition sameSale (step : Transaction.Status -> Transaction.Status -> bool)
    (x x' : Transaction.t) : Prop :=
  saleOfRecord x' = saleOfRecord x /\
  step (Transaction.status x) (Transaction.status x') = true.

(** [db'] holds the transactions of [db], each the same sale with its
    status moved by [step], followed by newly recorded sales, each between
    two different accounts and in a status [step] leads to from COMPLETED,
    the status a sale is recorded with. *)
Definition ledgerEvolves (step : Transaction.Status -> Transaction.Status -> bool)
    (db db' : Store) : Prop :=
  exists old added,
    transactions db' = (old ++ added)%list /\
    Forall2 (sameSale step) (transactions db) old /\
    Forall (fun x => step Transaction.COMPLETED (Transaction.status x) = true /\
                     Transaction.buyer x <> Transaction.seller x) added.

(** No transaction has its buyer for seller. *)
Definition armsLength (db : Store) : Prop :=
  Forall (fun x => Transaction.buyer x <> Transaction.seller x) (transactions db).

Definition keepsTransactions (db db' : Store) : Prop :=
  transactions db' = transactions db.


(** The number of sales [getPlatformStats] counts: the COMPLETED
    transactions created at or after [since]. *)
Definition completedCount (since : Z) (db : Store) : Z :=
  Z.of_nat (List.length (filter (transactionReports.completedSince since)
                                (transactions db))).

(** The counts of the groups of [paymentMethodStats], added up. *)
Definition totalCount (groups : list transactionReports.MethodStats) : Z :=
  fold_right (fun g n => transactionReports.count g + n) 0 groups.

(* ================================================================== *)
(** * More sample documents *)

Module Cases.

Definition erin : User.t := Sample.mkUser 5 "erin" User.MODERATOR 0%float.
Definition frank : User.t :=
  Sample.mkUser 6 "frank" User.VERIFIED_CONTRIBUTOR 0%float.

(** MongoDB's [$sum] taken as the running binary64 sum. *)
Definition sum (l : list JS.Number) : JS.Number :=
  fold_left PrimFloat.add l 0%float.

End Cases.

(** [overview.transactionCount] of the response of [getPlatformStats]. *)
Definition reportedCount (sum : list JS.Number -> JS.Number)
    (period : option string) (now : Z) (db : Store) : Z :=
  match fst (transactionReports.getPlatformStats sum period now db) with
  | inr r => transactionReports.transactionCount (transactionReports.overview r)
  | inl _ => 0
  end.

(** The copy [forkRule] stores for [user], under the id [forkId]. *)
Definition forkOf (user : User.t) (forkId : ObjectId) (rule : Rule.t) : Rule.t :=
  {| Rule._id := forkId;
     Rule.title := Rule.title rule ++ " (Fork)";
     Rule.author := User._id user;
     Rule.ruleContent := Rule.ruleContent rule;
     Rule.visibility := Rule.PRIVATE;
     Rule.pricing := ruleManagement.defaultPricing;
     Rule.statistics := ruleManagement.defaultStatistics;
     Rule.isActive := true;
     Rule.creator := None;
     Rule.stats := None |}.

(** The original, one fork more. *)
Definition forked (rule : Rule.t) : Rule.t :=
  Rule.setStatistics
    {| Rule.views := Rule.views (Rule.statistics rule);
       Rule.downloads := Rule.downloads (Rule.statistics rule);
       Rule.forks := Rule.forks (Rule.statistics rule) + 1;
       Rule.purchases := Rule.purchases (Rule.statistics rule);
       Rule.rating := Rule.rating (Rule.statistics rule);
       Rule.totalRatings := Rule.totalRatings (Rule.statistics rule) |} rule.

(** [helpful] holds its voters once each, and as many as it counts. *)
Definition helpfulCounted (h : Review.Helpful) : Prop :=
  Review.count h = Z.of_nat (List.length (Review.users h)) /\
  NoDup (Review.users h).

Definition helpfulConsistent (db : Store) : Prop :=
  Forall (fun x => helpfulCounted (Review.helpful x)) (reviews db).

(** The query [getRules] and [getRuleById] show [user] for [rule], with the
    first [prefix] characters left of a paid query to an account that holds
    no active Purchase. *)
Definition maskedQuery (prefix : nat) (user : option User.t) (rule : Rule.t)
    (db : Store) : string :=
  if Rule.isPaid (Rule.pricing rule) then
    match user with
    | None => ruleController.loginPlaceholder
    | Some u =>
        if existsb (activePurchaseOf (User._id u) (Rule._id rule)) (purchases db)
        then Rule.query (Rule.ruleContent rule)
        else JS.substring0 prefix (Rule.query (Rule.ruleContent rule))
             ++ ruleController.purchaseMarker
    end
  else Rule.query (Rule.ruleContent rule).

(* ================================================================== *)
(** * [src/middleware/errorHandler.js]: the status of a rejection *)

Module errorHandler.

(** The status [errorHandler] sends for what a handler wrapped in
    [asyncHandler] rejected with, [res.status(error.statusCode || 500)]:
    an ApiError carries its own; a Mongoose ValidationError is turned by
    [handleMongoError] into [ApiError(400, 'Validation failed')]; a
    TypeError or ReferenceError has no [statusCode]. *)
Definition statusCode (e : Exception) : Z :=
  match e with
  | ApiError statusCode _ => if Z.eqb statusCode 0 then 500 else statusCode
  | ValidationError _ => 400
  | TypeError _ | ReferenceError _ => 500
  end.

End errorHandler.

(** What a handler rejected with, if it did. *)
Definition rejection {A : Type} (out : (Exception + A) * Store)
  : option Exception :=
  match fst out with
  | inl e => Some e
  | inr _ => None
  end.

(** The rejection a request ends in, if it does. *)
Definition rejected (rq : Request) (db : Store) : option Exception :=
  match rq with
  | PurchaseRule user ruleId pm r1 r2 now =>
      rejection (transactionController.purchaseRule user ruleId pm r1 r2 now db)
  | RequestRefund user id reason now =>
      rejection (transactionController.requestRefund user id reason now db)
  | ProcessRefund id approved =>
      rejection (transactionController.processRefund id approved db)
  | CreateReview user ruleId rating comment =>
      rejection (reviewController.createReview user ruleId rating comment db)
  | UpdateReview user id rating comment =>
      rejection (reviewController.updateReview user id rating comment db)
  | DeleteReview user id => rejection (reviewController.deleteReview user id db)
  | MarkHelpful user id helpful =>
      rejection (reviewController.markHelpful user id helpful db)
  | GetRules user found => rejection (ruleController.maskedRules user found db)
  | GetRuleById user id => rejection (ruleController.getRuleById user id db)
  | Download user id now => rejection (ruleController.download user id now db)
  end.

(** A rule apart from the counters of views and downloads. *)
Definition ruleApartFromCounters (r : Rule.t)
  : ObjectId * string * ObjectId * Rule.RuleContent * Rule.Visibility
    * Rule.Pricing * bool * option ObjectId * option Rule.Stats
    * (Z * Z * JS.Number * Z) :=
  (Rule._id r, Rule.title r, Rule.author r, Rule.ruleContent r,
   Rule.visibility r, Rule.pricing r, Rule.isActive r, Rule.creator r,
   Rule.stats r,
   (Rule.forks (Rule.statistics r), Rule.purchases (Rule.statistics r),
    Rule.rating (Rule.statistics r), Rule.totalRatings (Rule.statistics r))).

(** What a review holds of the helpful votes. *)
Definition reviewVotes (x : Review.t) : ObjectId * Review.Helpful :=
  (Review._id x, Review.helpful x).

(** [x'] is [x], or it is [x], the review [id], with the vote of [user]
    taken by [helpfulAfter]. *)
Definition voted (user id : ObjectId) (helpful : bool) (x x' : Review.t) : Prop :=
  x' = x \/
  (Review._id x = id /\
   x' = Review.setHelpful (helpfulAfter user helpful (Review.helpful x)) x).

(** What [updateReview] makes of a review: a rating and a comment that are
    given and truthy replace the stored ones, the other fields stay. *)
Definition edited (rating : option JS.Number) (comment : option string)
    (review : Review.t) : Review.t :=
  Review.setRatingComment
    (JS.orNumber rating (Review.rating review))
    (if JS.truthyString comment then comment else Review.comment review)
    review.

(** Whether [save] accepts the edited review: the rating is validated on
    every save, the comment when the edit changed it. *)
Definition editAccepted (rating : option JS.Number) (comment : option string)
    (review : Review.t) : bool :=
  Review.validRating (edited rating comment review) &&
  (reviewController.sameComment (Review.comment (edited rating comment review))
                                (Review.comment review)
   || Review.validComment (edited rating comment review)).

(* ================================================================== *)
(** * Reasoning about handlers *)

Section HandlerLaws.

Context {A B : Type}.

Lemma bind_step (m : Handler A) (k : A -> Handler B) db a db1 :
  m db = (inr a, db1) -> bind m k db = k a db1.
Proof. intro H. unfold bind. rewrite H. reflexivity. Qed.

Lemma bind_throws (m : Handler A) (k : A -> Handler B) db e db1 :
  m db = (inl e, db1) -> bind m k db = (inl e, db1).
Proof. intro H. unfold bind. rewrite H. reflexivity. Qed.

Lemma bind_assoc {C : Type} (m : Handler A) (k : A -> Handler B)
    (h : B -> Handler C) db :
  bind (bind m k) h db = bind m (fun a => bind (k a) h) db.
Proof.
  unfold bind. destruct (m db) as [[e | a] db1]; reflexivity.
Qed.

End HandlerLaws.

Lemma throwIf_false c e db : c = false -> throwIf c e db = (inr tt, db).
Proof. intros ->. reflexivity. Qed.

(** ** Lists of documents *)

Section Documents.

Context {A : Type}.
Variable same : A -> bool.

Lemma updateFirst_map {K : Type} (g : A -> K) (f : A -> A) (l : list A) :
  (forall y, In y l -> same y = true -> g (f y) = g y) ->
  map g (updateFirst same f l) = map g l.
Proof.
  induction l as [| y l IH]; intro H; simpl.
  - reflexivity.
  - destruct (same y) eqn:E; simpl.
    + rewrite (H y (or_introl eq_refl) E). reflexivity.
    + rewrite IH; [reflexivity |].
      intros z Hz. apply H. right. exact Hz.
Qed.

Lemma updateFirst_found_fixed (f : A -> A) (l : list A) (y : A) :
  find same l = Some y -> f y = y -> updateFirst same f l = l.
Proof.
  induction l as [| z l IH]; simpl; intros Hfind Hf.
  - reflexivity.
  - destruct (same z).
    + inversion Hfind; subst. rewrite Hf. reflexivity.
    + rewrite IH; auto.
Qed.

Lemma find_updateFirst (f : A -> A) (l : list A) (y : A) :
  find same l = Some y -> same (f y) = true ->
  find same (updateFirst same f l) = Some (f y).
Proof.
  induction l as [| z l IH]; simpl; intros Hfind Hf.
  - discriminate.
  - destruct (same z) eqn:E; simpl.
    + inversion Hfind; subst. rewrite Hf. reflexivity.
    + rewrite E. apply IH; assumption.
Qed.

Lemma updateFirst_twice (f g : A -> A) (l : list A) :
  (forall y, same y = true -> same (f y) = true) ->
  updateFirst same g (updateFirst same f l)
  = updateFirst same (fun y => g (f y)) l.
Proof.
  intro Hf. induction l as [| z l IH]; simpl.
  - reflexivity.
  - destruct (same z) eqn:E; simpl.
    + rewrite (Hf z E). reflexivity.
    + rewrite E, IH. reflexivity.
Qed.

Lemma find_existsb (l : list A) :
  existsb same l = match find same l with Some _ => true | None => false end.
Proof.
  induction l as [| z l IH]; simpl.
  - reflexivity.
  - destruct (same z); simpl; auto.
Qed.

End Documents.

Lemma updateFirst_map_found {A K : Type} (same : A -> bool) (g : A -> K)
    (f : A -> A) (l : list A) (y : A) :
  find same l = Some y -> g (f y) = g y ->
  map g (updateFirst same f l) = map g l.
Proof.
  induction l as [| z l IH]; simpl; intros Hfind Hg.
  - reflexivity.
  - destruct (same z); simpl.
    + inversion Hfind; subst. rewrite Hg. reflexivity.
    + rewrite IH; auto.
Qed.

Lemma find_replaced {A : Type} (same : A -> bool) (x' y : A) (l : list A) :
  find same l = Some y -> same x' = true ->
  find same (replaceBy same x' l) = Some x'.
Proof.
  intros Hfind Hsame. unfold replaceBy.
  exact (find_updateFirst same (fun _ => x') l y Hfind Hsame).
Qed.

(* ================================================================== *)
(** * Strict schemas: what a handler sees and what it can write *)

Lemma Rule_findById_found id db rule :
  find (fun r => N.eqb (Rule._id r) id) (rules db) = Some rule ->
  Rule_findById id db = (inr (Some (Rule.hydrate rule)), db).
Proof. intro H. unfold Rule_findById, read. rewrite H. reflexivity. Qed.

Lemma Rule_findById_none id db :
  find (fun r => N.eqb (Rule._id r) id) (rules db) = None ->
  Rule_findById id db = (inr None, db).
Proof. intro H. unfold Rule_findById, read. rewrite H. reflexivity. Qed.

Lemma updateFirst_fixed {A : Type} (same : A -> bool) (f : A -> A) (l : list A) :
  (forall y, f y = y) -> updateFirst same f l = l.
Proof.
  intro H. induction l as [| z l IH]; simpl; [reflexivity |].
  destruct (same z); [rewrite H | rewrite IH]; reflexivity.
Qed.

Lemma updateFirst_found_replace {A : Type} (same : A -> bool) (f : A -> A)
    (l : list A) (y : A) :
  find same l = Some y -> updateFirst same f l = replaceBy same (f y) l.
Proof.
  unfold replaceBy. induction l as [| z l IH]; simpl; intro H; [discriminate |].
  destruct (same z).
  - inversion H; subst. reflexivity.
  - rewrite (IH H). reflexivity.
Qed.

Lemma setRules_same db : setRules (rules db) db = db.
Proof. destruct db. reflexivity. Qed.

Lemma setUsers_same db : setUsers (users db) db = db.
Proof. destruct db. reflexivity. Qed.

(** A document saved as it was loaded, up to [statistics] and [isActive],
    is the stored one with that change: what the stored document holds
    under undeclared names is still there. *)
Lemma saveOver_hydrate_statistics (s : Rule.Statistics) (r : Rule.t) :
  Rule.saveOver (Rule.setStatistics s (Rule.hydrate r)) r = Rule.setStatistics s r.
Proof. destruct r as [? ? ? ? ? [] ? ? ? ?]. reflexivity. Qed.

Lemma saveOver_hydrate_isActive (b : bool) (r : Rule.t) :
  Rule.saveOver (Rule_setIsActive b (Rule.hydrate r)) r = Rule_setIsActive b r.
Proof. destruct r as [? ? ? ? ? [] ? ? ? ?]. reflexivity. Qed.

(** [rule.save()] on the loaded rule with new [statistics]. *)
Lemma Rule_save_statistics (id : ObjectId) (s : Rule.Statistics) (rule : Rule.t)
    (db : Store) :
  find (fun r => N.eqb (Rule._id r) id) (rules db) = Some rule ->
  Rule_save (Rule.setStatistics s (Rule.hydrate rule)) db
  = (inr tt,
     setRules (replaceBy (fun y => N.eqb (Rule._id y) id)
                         (Rule.setStatistics s rule) (rules db)) db).
Proof.
  intro Hfind.
  assert (Hid : Rule._id rule = id)
    by (apply N.eqb_eq; exact (proj2 (find_some _ _ Hfind))).
  unfold Rule_save, write. cbn [Rule._id Rule.setStatistics Rule.hydrate].
  rewrite Hid, (updateFirst_found_replace _ _ _ _ Hfind),
    saveOver_hydrate_statistics.
  reflexivity.
Qed.

(** The updates of the review controller name [stats.rating] and
    [stats.reviewCount] only: cast against the schema they are empty, and
    the Rule collection is left as it was. *)
Lemma stats_rating_dropped (id : ObjectId) (rating : JS.Number) (db : Store) :
  setRules
    (updateFirst (fun y => N.eqb (Rule._id y) id)
       (fun old => Rule.saveOver (reviewController.set_stats_rating rating old) old)
       (rules db)) db
  = db.
Proof.
  rewrite updateFirst_fixed; [apply setRules_same |].
  intros [? ? ? ? ? [] ? ? ? ?]. reflexivity.
Qed.

Lemma stats_rating_reviewCount_dropped (id : ObjectId) (rating : JS.Number)
    (count : Z) (db : Store) :
  setRules
    (updateFirst (fun y => N.eqb (Rule._id y) id)
       (fun old =>
          Rule.saveOver
            (reviewController.set_stats_rating_reviewCount rating count old) old)
       (rules db)) db
  = db.
Proof.
  rewrite updateFirst_fixed; [apply setRules_same |].
  intros [? ? ? ? ? [] ? ? ? ?]. reflexivity.
Qed.

(** The [$inc] of [processRefund] names [statistics.earnings] only: cast
    against the User schema it is empty, and no user document changes. *)
Lemma statistics_earnings_dropped (id : ObjectId) (d : JS.Number) (db : Store) :
  setUsers
    (updateFirst (fun u => N.eqb (User._id u) id)
       (fun old => User.saveOver (inc_statistics_earnings d old) old)
       (users db)) db
  = db.
Proof.
  rewrite updateFirst_fixed; [apply setUsers_same |].
  intros []. reflexivity.
Qed.

(** Rewrites the dropped updates away, wherever a run has left them. *)
Ltac strict :=
  rewrite ?stats_rating_dropped, ?stats_rating_reviewCount_dropped,
    ?statistics_earnings_dropped.

(* ================================================================== *)
(** * The purchase guard (C6) *)

(** [purchaseRule], run: it ends at the first two tests, since the guard
    reads [pricing.type] on the loaded rule; nothing is written. *)
Lemma purchaseRule_rejected user ruleId pm r1 r2 now db :
  transactionController.purchaseRule user ruleId pm r1 r2 now db
  = (inl match find (fun r => N.eqb (Rule._id r) ruleId) (rules db) with
         | Some _ => errors.badRequest "This rule is not for sale"
         | None => errors.notFound "Rule not found"
         end, db).
Proof.
  unfold transactionController.purchaseRule.
  destruct (find (fun r => N.eqb (Rule._id r) ruleId) (rules db))
    as [rule |] eqn:Hfind.
  - rewrite (bind_step _ _ db _ db (Rule_findById_found _ _ _ Hfind)).
    rewrite (bind_step _ _ db (Rule.hydrate rule) db) by reflexivity.
    apply bind_throws. reflexivity.
  - rewrite (bind_step _ _ db _ db (Rule_findById_none _ _ Hfind)).
    apply bind_throws. reflexivity.
Qed.

(** C6. On a Rule collection whose documents have the pricing the schema
    declares (isPaid, price, currency, licenseType, and so no [type]),
    [purchaseRule] rejects every request before any write: with "This rule
    is not for sale" when the rule exists (and with some rejection
    otherwise), the database being left exactly as it was. *)
Theorem purchaseRule_schema_rule_not_for_sale :
  forall db user ruleId paymentMethodId randomHex1 randomHex2 now,
    (forall r, In r (rules db) -> Rule.type (Rule.pricing r) = None) ->
    (forall rule,
        find (fun r => N.eqb (Rule._id r) ruleId) (rules db) = Some rule ->
        transactionController.purchaseRule
          user ruleId paymentMethodId randomHex1 randomHex2 now db
        = (inl (errors.badRequest "This rule is not for sale"), db)) /\
    exists e,
      transactionController.purchaseRule
        user ruleId paymentMethodId randomHex1 randomHex2 now db
      = (inl e, db).
Proof.
  intros db user ruleId pm r1 r2 now _.
  rewrite purchaseRule_rejected. split.
  - intros rule Hfind. rewrite Hfind. reflexivity.
  - eexists. reflexivity.
Qed.

Lemma purchaseRule_schema_rule_not_for_sale_witness :
  (forall rule,
      find (fun r => N.eqb (Rule._id r) 10) [Sample.schemaRule] = Some rule ->
      transactionController.purchaseRule Sample.alice 10 None "a1" "b2" 5
        (setRules [Sample.schemaRule] Sample.emptyStore)
      = (inl (errors.badRequest "This rule is not for sale"),
         setRules [Sample.schemaRule] Sample.emptyStore)) /\
  exists e,
    transactionController.purchaseRule Sample.alice 10 None "a1" "b2" 5
      (setRules [Sample.schemaRule] Sample.emptyStore)
    = (inl e, setRules [Sample.schemaRule] Sample.emptyStore).
Proof.
  apply (purchaseRule_schema_rule_not_for_sale
           (setRules [Sample.schemaRule] Sample.emptyStore)
           Sample.alice 10%N None "a1" "b2" 5).
  simpl. intros r [<- | []]. reflexivity.
Defined.

Remark schemaRule_conforms : Rule.conforms Sample.schemaRule.
Proof. repeat split. Qed.

(** The rule with [pricing.type] "PAID" stored beside the declared paths is
    no more for sale than the one without. *)
Remark listedRule_not_for_sale :
  Rule.type (Rule.pricing Sample.listedRule) = Some "PAID" /\
  transactionController.purchaseRule Sample.alice 11 None "a1" "b2" 5
    Sample.emptyStore
  = (inl (errors.badRequest "This rule is not for sale"), Sample.emptyStore).
Proof. split; reflexivity. Qed.

(** ** Frame reasoning *)

Section Frames.

Variable R : Store -> Store -> Prop.
Hypothesis R_refl : forall db, R db db.
Hypothesis R_trans : forall a b c, R a b -> R b c -> R a c.

Lemma preserves_bind {A B : Type} (m : Handler A) (k : A -> Handler B) :
  preserves R m -> (forall a, preserves R (k a)) -> preserves R (bind m k).
Proof.
  intros Hm Hk db. unfold bind. specialize (Hm db).
  destruct (m db) as [[e | a] db1]; simpl in *.
  - exact Hm.
  - apply R_trans with db1; [exact Hm | apply Hk].
Qed.

Lemma preserves_ret {A : Type} (a : A) : preserves R (ret a).
Proof. intro db. apply R_refl. Qed.

Lemma preserves_throw {A : Type} (e : Exception) : preserves R (@throw A e).
Proof. intro db. apply R_refl. Qed.

Lemma preserves_read {A : Type} (f : Store -> A) : preserves R (read f).
Proof. intro db. apply R_refl. Qed.

Lemma preserves_throwIf c e : preserves R (throwIf c e).
Proof. intro db. destruct c; apply R_refl. Qed.

Lemma preserves_orThrow {A : Type} (x : option A) e : preserves R (orThrow x e).
Proof. intro db. destruct x; apply R_refl. Qed.

Lemma preserves_deref {A : Type} (x : option A) s : preserves R (deref x s).
Proof. intro db. destruct x; apply R_refl. Qed.

Lemma preserves_castNumber p x :
  preserves R (transactionController.castNumber p x).
Proof.
  destruct x as [v |]; simpl.
  - apply preserves_bind; [apply preserves_throwIf | intro; apply preserves_ret].
  - apply preserves_throw.
Qed.

Lemma preserves_write (f : Store -> Store) :
  (forall db, R db (f db)) -> preserves R (write f).
Proof. intros H db. apply H. Qed.

End Frames.

Ltac unfold_models :=
  unfold transactionController.spreadMetadata, ruleController.populateAuthor,
    Rule_findById, Rule_save, Rule_findByIdAndUpdate,
    Transaction_findById, Transaction_insert, Transaction_save,
    Purchase_findOne, Purchase_exists, Purchase_insert, Purchase_save,
    Review_findById, Review_findOne, Review_find, Review_save, Review_insert,
    User_findById, User_inc_statistics_earnings, Notification_create,
    Activity_create.

(** Walks a handler statement by statement; [solve_write] shows that a
    single write respects the relation. *)
Ltac frame_with Hrefl Htrans solve_write :=
  unfold_models;
  repeat
    first
      [ apply (preserves_ret _ Hrefl) | apply (preserves_throw _ Hrefl)
      | apply (preserves_read _ Hrefl) | apply (preserves_throwIf _ Hrefl)
      | apply (preserves_orThrow _ Hrefl) | apply (preserves_deref _ Hrefl)
      | apply (preserves_castNumber _ Hrefl Htrans)
      | apply preserves_write; intro; solve_write
      | apply (preserves_bind _ Htrans); [| intros ]
      | match goal with
        | |- preserves _ (if ?c then _ else _) => destruct c
        | |- preserves _ (match ?x with _ => _ end) => destruct x
        end ].

(** Runs a handler symbolically: every test of the source becomes a case. *)
Ltac unfold_handler :=
  cbv beta iota zeta delta
    [bind read write ret throw throwIf orThrow deref freshId
     transactionController.castNumber transactionController.spreadMetadata
     ruleController.populateAuthor
     Rule_findById Rule_save Rule_findByIdAndUpdate
     Transaction_findById Transaction_insert Transaction_save
     Purchase_findOne Purchase_exists Purchase_insert Purchase_save
     Review_findById Review_findOne Review_find Review_save Review_insert
     User_findById User_inc_statistics_earnings Notification_create
     Activity_create].

Ltac case_innermost :=
  match goal with
  | |- context [match ?x with _ => _ end] =>
      lazymatch x with
      | context [match _ with _ => _ end] => fail
      | _ => destruct x eqn:?
      end
  end.

Ltac run_handler := unfold_handler; repeat (case_innermost; cbn [fst snd]).

(* ================================================================== *)
(** * One active Purchase per buyer and rule (C2) *)

Lemma keepsPurchases_refl db : keepsPurchases db db.
Proof. split; [reflexivity | lia]. Qed.

Lemma keepsPurchases_trans a b c :
  keepsPurchases a b -> keepsPurchases b c -> keepsPurchases a c.
Proof. intros [H1 H2] [H3 H4]. split; [congruence | lia]. Qed.

Ltac frame_purchases :=
  frame_with keepsPurchases_refl keepsPurchases_trans
             ltac:(split; [reflexivity | simpl; lia]).

Lemma requestRefund_keepsPurchases user id reason now :
  preserves keepsPurchases (transactionController.requestRefund user id reason now).
Proof. unfold transactionController.requestRefund. frame_purchases. Qed.

Lemma processRefund_keepsPurchases id approved :
  preserves keepsPurchases (transactionController.processRefund id approved).
Proof. unfold transactionController.processRefund. frame_purchases. Qed.

Lemma createReview_keepsPurchases user ruleId rating comment :
  preserves keepsPurchases
    (reviewController.createReview user ruleId rating comment).
Proof. unfold reviewController.createReview. frame_purchases. Qed.

Lemma updateReview_keepsPurchases user id rating comment :
  preserves keepsPurchases (reviewController.updateReview user id rating comment).
Proof. unfold reviewController.updateReview. frame_purchases. Qed.

Lemma deleteReview_keepsPurchases user id :
  preserves keepsPurchases (reviewController.deleteReview user id).
Proof. unfold reviewController.deleteReview. frame_purchases. Qed.

Lemma markHelpful_keepsPurchases user id helpful :
  preserves keepsPurchases (reviewController.markHelpful user id helpful).
Proof. unfold reviewController.markHelpful. frame_purchases. Qed.

Lemma mask_keepsPurchases n user rule :
  preserves keepsPurchases (ruleController.mask n user rule).
Proof. unfold ruleController.mask. frame_purchases. Qed.

Lemma maskedRules_keepsPurchases user found :
  preserves keepsPurchases (ruleController.maskedRules user found).
Proof.
  induction found as [| rule rest IH]; simpl.
  - apply (preserves_ret _ keepsPurchases_refl).
  - apply (preserves_bind _ keepsPurchases_trans); [apply mask_keepsPurchases |].
    intro r. apply (preserves_bind _ keepsPurchases_trans); [exact IH |].
    intro rs. apply (preserves_ret _ keepsPurchases_refl).
Qed.

Lemma getRuleById_keepsPurchases user id :
  preserves keepsPurchases (ruleController.getRuleById user id).
Proof.
  unfold ruleController.getRuleById. frame_purchases.
  apply mask_keepsPurchases.
Qed.

Lemma purchaseRule_keepsPurchases user ruleId pm r1 r2 now db :
  keepsPurchases db
    (snd (transactionController.purchaseRule user ruleId pm r1 r2 now db)).
Proof. rewrite purchaseRule_rejected. apply keepsPurchases_refl. Qed.

(** The download route rewrites at most the download counters of the
    Purchase it found. *)
Lemma download_purchases user id now db :
  let db' := snd (ruleController.download user id now db) in
  nextId db' = nextId db /\
  (purchases db' = purchases db \/
   exists p d,
     In p (purchases db) /\
     purchases db'
     = replaceBy (fun y => N.eqb (Purchase._id y) (Purchase._id p))
                 (Purchase.setDownloads d p) (purchases db)).
Proof.
  unfold ruleController.download. run_handler.
  all: split; [reflexivity |]; try (left; reflexivity).
  all: right; match goal with
       | H : find _ (purchases _) = Some ?p |- _ =>
           exists p; eexists; split; [exact (proj1 (find_some _ _ H)) | reflexivity]
       end.
Qed.

Lemma activeCount_by_key (u r : ObjectId) (l l' : list Purchase.t) :
  map purchaseKey l' = map purchaseKey l ->
  List.length (filter (activePurchaseOf u r) l')
  = List.length (filter (activePurchaseOf u r) l).
Proof.
  revert l. induction l' as [| p' l' IH]; intros [| p l] H; simpl in H;
    try discriminate; [reflexivity |].
  unfold purchaseKey at 1 3 in H. injection H as _ Hu Hr Ha Hl.
  assert (E : activePurchaseOf u r p' = activePurchaseOf u r p)
    by (unfold activePurchaseOf; rewrite Hu, Hr, Ha; reflexivity).
  simpl. rewrite E.
  destruct (activePurchaseOf u r p); simpl; rewrite (IH l Hl); reflexivity.
Qed.

Lemma ids_by_key (l l' : list Purchase.t) :
  map purchaseKey l' = map purchaseKey l ->
  map Purchase._id l' = map Purchase._id l.
Proof.
  intro H.
  assert (E : forall m, map Purchase._id m
                        = map (fun k => fst (fst (fst k))) (map purchaseKey m)).
  { intro m. rewrite map_map. reflexivity. }
  rewrite (E l), (E l'), H. reflexivity.
Qed.

Lemma NoDup_map_injective {A K : Type} (f : A -> K) (l : list A) (x y : A) :
  NoDup (map f l) -> In x l -> In y l -> f x = f y -> x = y.
Proof.
  induction l as [| z l IH]; simpl; intros Hnd Hx Hy E; [contradiction |].
  inversion Hnd as [| ? ? Hnotin Hnd']; subst.
  destruct Hx as [-> | Hx], Hy as [-> | Hy]; auto.
  - exfalso. apply Hnotin. rewrite E. apply in_map. exact Hy.
  - exfalso. apply Hnotin. rewrite <- E. apply in_map. exact Hx.
Qed.

Lemma invariant_by_key db db' :
  map purchaseKey (purchases db') = map purchaseKey (purchases db) ->
  (nextId db <= nextId db')%N ->
  purchasesInvariant db -> purchasesInvariant db'.
Proof.
  intros Hk Hn [Hone [Hnd Hlt]]. split; [| split].
  - intros u r. unfold activeCount.
    rewrite (activeCount_by_key u r _ _ Hk). apply Hone.
  - rewrite (ids_by_key _ _ Hk). exact Hnd.
  - apply Forall_forall. intros p Hp.
    assert (Hin : In (Purchase._id p) (map Purchase._id (purchases db))).
    { rewrite <- (ids_by_key _ _ Hk). apply in_map. exact Hp. }
    apply in_map_iff in Hin. destruct Hin as (q & Hq & Hqin).
    rewrite Forall_forall in Hlt. specialize (Hlt q Hqin). lia.
Qed.

(** No request mints, deactivates or reassigns a Purchase: the download
    route rewrites the download counters of one, and nothing else writes to
    the collection. *)
Lemma serve_purchaseKeys rq db :
  purchasesInvariant db ->
  map purchaseKey (purchases (serve rq db)) = map purchaseKey (purchases db) /\
  (nextId db <= nextId (serve rq db))%N.
Proof.
  intro Hinv.
  assert (Hkeep : forall db',
             keepsPurchases db db' ->
             map purchaseKey (purchases db') = map purchaseKey (purchases db) /\
             (nextId db <= nextId db')%N).
  { intros db' [Hp Hn]. rewrite Hp. split; [reflexivity | exact Hn]. }
  destruct rq; simpl.
  - apply Hkeep. apply purchaseRule_keepsPurchases.
  - apply Hkeep. apply requestRefund_keepsPurchases.
  - apply Hkeep. apply processRefund_keepsPurchases.
  - apply Hkeep. apply createReview_keepsPurchases.
  - apply Hkeep. apply updateReview_keepsPurchases.
  - apply Hkeep. apply deleteReview_keepsPurchases.
  - apply Hkeep. apply markHelpful_keepsPurchases.
  - apply Hkeep. apply maskedRules_keepsPurchases.
  - apply Hkeep. apply getRuleById_keepsPurchases.
  - destruct (download_purchases user id now db)
      as [Hn [Hp | (p & d & Hin & Hp)]].
    + apply Hkeep. split; [exact Hp | rewrite Hn; lia].
    + split; [| rewrite Hn; lia].
      rewrite Hp. unfold replaceBy. apply updateFirst_map.
      intros y Hy Hsame. apply N.eqb_eq in Hsame.
      destruct Hinv as [_ [Hnd _]].
      rewrite (NoDup_map_injective Purchase._id _ y p Hnd Hy Hin Hsame).
      reflexivity.
Qed.

Lemma reachable_purchaseKeys db0 db :
  purchasesInvariant db0 -> reachable db0 db ->
  purchasesInvariant db /\
  map purchaseKey (purchases db) = map purchaseKey (purchases db0).
Proof.
  intros H0 Hreach. induction Hreach as [| db rq _ [IH IHk]].
  - split; [exact H0 | reflexivity].
  - destruct (serve_purchaseKeys rq db IH) as [Hk Hn]. split.
    + exact (invariant_by_key db _ Hk Hn IH).
    + rewrite Hk. exact IHk.
Qed.

(** C2: what the code does. From a database with at most one active
    Purchase per (buyer, rule) and well-formed ids, every database reached
    by the requests has at most one active Purchase per pair, and indeed
    the Purchases of the start, each with its buyer, rule and [isActive]:
    no request mints one. There, a [purchaseRule] by a buyer who holds an
    active Purchase of the rule is rejected and writes nothing; but the
    rejection, for a rule on record, is "This rule is not for sale", the
    guard on [pricing.type] coming first and turning every call away: the
    ownership test and its "You have already purchased this rule" are
    never reached. *)
Theorem purchases_at_most_one_active :
  forall db0 db,
    atMostOneActive db0 -> purchaseIdsFresh db0 -> reachable db0 db ->
    atMostOneActive db /\
    map purchaseKey (purchases db) = map purchaseKey (purchases db0) /\
    forall user ruleId paymentMethodId randomHex1 randomHex2 now p,
      find (activePurchaseOf (User._id user) ruleId) (purchases db) = Some p ->
      (exists e,
          transactionController.purchaseRule
            user ruleId paymentMethodId randomHex1 randomHex2 now db
          = (inl e, db)) /\
      (forall rule,
          find (fun r => N.eqb (Rule._id r) ruleId) (rules db) = Some rule ->
          transactionController.purchaseRule
            user ruleId paymentMethodId randomHex1 randomHex2 now db
          = (inl (errors.badRequest "This rule is not for sale"), db)).
Proof.
  intros db0 db Hone Hids Hreach.
  destruct (reachable_purchaseKeys db0 db (conj Hone Hids) Hreach) as [[H1 _] Hk].
  split; [exact H1 | split; [exact Hk |]].
  intros user ruleId pm r1 r2 now p _. rewrite purchaseRule_rejected. split.
  - eexists. reflexivity.
  - intros rule Hrule. rewrite Hrule. reflexivity.
Qed.

Lemma purchases_at_most_one_active_witness :
  let db := serve (PurchaseRule Sample.alice 10 None "a1" "b2" 5)
                  (Sample.soldStore 10 Transaction.COMPLETED) in
  atMostOneActive db /\
  map purchaseKey (purchases db)
  = map purchaseKey (purchases (Sample.soldStore 10 Transaction.COMPLETED)) /\
  forall user ruleId paymentMethodId randomHex1 randomHex2 now p,
    find (activePurchaseOf (User._id user) ruleId) (purchases db) = Some p ->
    (exists e,
        transactionController.purchaseRule
          user ruleId paymentMethodId randomHex1 randomHex2 now db
        = (inl e, db)) /\
    (forall rule,
        find (fun r => N.eqb (Rule._id r) ruleId) (rules db) = Some rule ->
        transactionController.purchaseRule
          user ruleId paymentMethodId randomHex1 randomHex2 now db
        = (inl (errors.badRequest "This rule is not for sale"), db)).
Proof.
  apply (purchases_at_most_one_active
           (Sample.soldStore 10 Transaction.COMPLETED)).
  - intros u r. unfold activeCount. simpl.
    destruct (activePurchaseOf u r (Sample.purchaseOf 51 10)); simpl; lia.
  - split; simpl.
    + repeat constructor. intros [].
    + repeat constructor.
  - apply reachable_serve. apply reachable_start.
Defined.

(** The input on which claim and code part: alice holds an active Purchase
    of rule 10, a paid rule of the schema, and purchases it again; the
    answer is "This rule is not for sale", not "You have already purchased
    this rule". *)
Lemma purchaseRule_owned_rule_not_for_sale :
  find (activePurchaseOf (User._id Sample.alice) 10)
       (purchases (Sample.soldStore 10 Transaction.COMPLETED))
  = Some (Sample.purchaseOf 51 10) /\
  Rule.isPaid (Rule.pricing Sample.schemaRule) = true /\
  transactionController.purchaseRule Sample.alice 10 None "a1" "b2" 5
    (Sample.soldStore 10 Transaction.COMPLETED)
  = (inl (errors.badRequest "This rule is not for sale"),
     Sample.soldStore 10 Transaction.COMPLETED) /\
  fst (transactionController.purchaseRule Sample.alice 10 None "a1" "b2" 5
         (Sample.soldStore 10 Transaction.COMPLETED))
  <> inl (errors.conflict "You have already purchased this rule").
Proof.
  split; [reflexivity | split; [reflexivity | split; [reflexivity |]]].
  vm_compute. discriminate.
Qed.

(* ================================================================== *)
(** * The refund workflow (C3, C10) *)

Lemma daysSince_gt_30 now createdAt :
  transactionController.Qgtb (transactionController.daysSince now createdAt) 30 = true
  <-> 30 * (1000 * 60 * 60 * 24) < now - createdAt.
Proof.
  unfold transactionController.Qgtb, transactionController.daysSince.
  rewrite negb_true_iff, <- not_true_iff_false, Qle_bool_iff.
  unfold Qle, Qdiv, Qmult, Qinv, inject_Z. simpl. lia.
Qed.

Lemma Status_eqb_eq a b : Transaction.Status_eqb a b = true <-> a = b.
Proof. destruct a, b; simpl; split; intro H; try reflexivity; discriminate. Qed.

(** [requestRefund] on a transaction on record, with a reason, test by
    test. *)
Lemma requestRefund_found user id reason now db tx :
  find (fun x => N.eqb (Transaction._id x) id) (transactions db) = Some tx ->
  JS.truthyString reason = true ->
  transactionController.requestRefund user id reason now db
  = if negb (N.eqb (Transaction.buyer tx) (User._id user)) then
      (inl (errors.forbidden "Only the buyer can request a refund"), db)
    else if negb (Transaction.Status_eqb (Transaction.status tx)
                                         Transaction.COMPLETED) then
      (inl (errors.badRequest
              "Refund can only be requested for completed transactions"), db)
    else if transactionController.Qgtb
              (transactionController.daysSince now (Transaction.createdAt tx)) 30
    then
      (inl (errors.badRequest "Refund requests can only be made within 30 days"),
       db)
    else
      match Transaction.metadata tx with
      | Some _ => (inl (ValidationError "metadata"), db)
      | None =>
          let tx' :=
            Transaction.setMetadata
              (Some [("refundReason", Transaction.MString reason);
                     ("refundRequestedAt", Transaction.MDate now);
                     ("refundRequestedBy", Transaction.MId (User._id user))])
              (Transaction.setStatus Transaction.DISPUTED tx) in
          (inr tx',
           setNotifications
             (notifications db ++
              [{| Notification.recipient := Transaction.buyer tx;
                  Notification.type := Notification.SYSTEM;
                  Notification.title := "Refund request submitted" |}])%list
             (setTransactions
                (replaceBy (fun y => N.eqb (Transaction._id y) id) tx'
                           (transactions db)) db))
      end.
Proof.
  intros Hfind Hreason.
  assert (Hid : Transaction._id tx = id)
    by (apply N.eqb_eq; exact (proj2 (find_some _ _ Hfind))).
  unfold transactionController.requestRefund. rewrite Hreason.
  unfold_handler. cbn [negb]. rewrite Hfind.
  destruct (N.eqb (Transaction.buyer tx) (User._id user)); cbn [negb];
    [| reflexivity].
  destruct (Transaction.Status_eqb (Transaction.status tx) Transaction.COMPLETED);
    cbn [negb]; [| reflexivity].
  destruct (transactionController.Qgtb _ 30); [reflexivity |].
  cbn [Transaction.metadata Transaction.setStatus].
  destruct (Transaction.metadata tx); [reflexivity |].
  cbn. rewrite Hid. reflexivity.
Qed.

(** X2. [requestRefund] on an existing transaction, with a reason: it
    resolves exactly for the buyer, on a COMPLETED transaction, within 30
    days of its creation, and when the stored transaction has no [metadata]
    field; it then stores the transaction as DISPUTED. Past 30 days the
    buyer of a COMPLETED transaction is rejected with the window message.
    Within the 30 days, on a transaction that has a [metadata] field, the
    buyer's request is rejected by the validation of the save, and nothing
    is written. *)
Theorem requestRefund_spec :
  forall user id reason now db tx,
    find (fun x => N.eqb (Transaction._id x) id) (transactions db) = Some tx ->
    JS.truthyString reason = true ->
    ((exists tx' db',
         transactionController.requestRefund user id reason now db = (inr tx', db'))
     <-> (Transaction.buyer tx = User._id user /\
          Transaction.status tx = Transaction.COMPLETED /\
          now - Transaction.createdAt tx <= 30 * (1000 * 60 * 60 * 24) /\
          Transaction.metadata tx = None)) /\
    (forall tx' db',
        transactionController.requestRefund user id reason now db = (inr tx', db') ->
        Transaction.status tx' = Transaction.DISPUTED /\
        find (fun x => N.eqb (Transaction._id x) id) (transactions db') = Some tx') /\
    (Transaction.buyer tx = User._id user ->
     Transaction.status tx = Transaction.COMPLETED ->
     30 * (1000 * 60 * 60 * 24) < now - Transaction.createdAt tx ->
     transactionController.requestRefund user id reason now db
     = (inl (errors.badRequest "Refund requests can only be made within 30 days"),
        db)) /\
    (Transaction.buyer tx = User._id user ->
     Transaction.status tx = Transaction.COMPLETED ->
     now - Transaction.createdAt tx <= 30 * (1000 * 60 * 60 * 24) ->
     Transaction.metadata tx <> None ->
     transactionController.requestRefund user id reason now db
     = (inl (ValidationError "metadata"), db)).
Proof.
  intros user id reason now db tx Hfind Hreason.
  assert (Hid : Transaction._id tx = id)
    by (apply N.eqb_eq; exact (proj2 (find_some _ _ Hfind))).
  rewrite (requestRefund_found user id reason now db tx Hfind Hreason).
  assert (Hrejected : forall e : Exception,
             (Transaction.buyer tx = User._id user ->
              Transaction.status tx = Transaction.COMPLETED ->
              now - Transaction.createdAt tx <= 30 * (1000 * 60 * 60 * 24) ->
              Transaction.metadata tx = None -> False) ->
             ((exists tx' db', (@inl Exception Transaction.t e, db) = (inr tx', db'))
              <-> (Transaction.buyer tx = User._id user /\
                   Transaction.status tx = Transaction.COMPLETED /\
                   now - Transaction.createdAt tx <= 30 * (1000 * 60 * 60 * 24) /\
                   Transaction.metadata tx = None)) /\
             (forall tx' db',
                 (@inl Exception Transaction.t e, db) = (inr tx', db') ->
                 Transaction.status tx' = Transaction.DISPUTED /\
                 find (fun x => N.eqb (Transaction._id x) id) (transactions db')
                 = Some tx')).
  { intros e Hno. split.
    - split; [intros (tx' & db' & Hr); discriminate Hr |].
      intros (Hb & Hs & Hle & Hm). destruct (Hno Hb Hs Hle Hm).
    - intros tx' db' Hr. discriminate Hr. }
  destruct (N.eqb (Transaction.buyer tx) (User._id user)) eqn:Hbuyer; cbn [negb].
  2:{ apply N.eqb_neq in Hbuyer.
      destruct (Hrejected (errors.forbidden "Only the buyer can request a refund"))
        as [HA HB]; [intros Hb; contradiction |].
      split; [exact HA | split; [exact HB |]].
      split; intros Hb; contradiction. }
  apply N.eqb_eq in Hbuyer.
  destruct (Transaction.Status_eqb (Transaction.status tx) Transaction.COMPLETED)
    eqn:Hstatus; cbn [negb].
  2:{ assert (Hne : Transaction.status tx <> Transaction.COMPLETED)
        by (intro E; apply Status_eqb_eq in E; congruence).
      destruct (Hrejected
                  (errors.badRequest
                     "Refund can only be requested for completed transactions"))
        as [HA HB]; [intros _ Hs; contradiction |].
      split; [exact HA | split; [exact HB |]].
      split; intros _ Hs; contradiction. }
  apply Status_eqb_eq in Hstatus.
  destruct (transactionController.Qgtb
              (transactionController.daysSince now (Transaction.createdAt tx)) 30)
    eqn:Hwin.
  - apply daysSince_gt_30 in Hwin.
    destruct (Hrejected
                (errors.badRequest "Refund requests can only be made within 30 days"))
      as [HA HB]; [intros _ _ Hle; lia |].
    split; [exact HA | split; [exact HB |]].
    split; [intros _ _ _; reflexivity | intros _ _ Hle; lia].
  - assert (Hle : now - Transaction.createdAt tx <= 30 * (1000 * 60 * 60 * 24)).
    { destruct (Z_lt_le_dec (30 * (1000 * 60 * 60 * 24))
                            (now - Transaction.createdAt tx)) as [Hlt | Hle];
        [apply daysSince_gt_30 in Hlt; congruence | exact Hle]. }
    destruct (Transaction.metadata tx) as [m |] eqn:Hm.
    + destruct (Hrejected (ValidationError "metadata"))
        as [HA HB]; [intros _ _ _ H; discriminate H |].
      split; [exact HA | split; [exact HB |]].
      split; [intros _ _ Hlt; lia | intros _ _ _ _; reflexivity].
    + cbv zeta. split; [| split; [| split]].
      * split; [intros _; auto | intros _; eexists _, _; reflexivity].
      * intros tx' db' H. inversion H; subst tx' db'. clear H.
        split; [reflexivity |].
        cbn [transactions setNotifications setTransactions].
        apply (find_replaced _ _ _ _ Hfind). cbn. rewrite Hid. apply N.eqb_refl.
      * intros _ _ Hlt. lia.
      * intros _ _ _ Hnone. contradiction.
Qed.

Lemma processRefund_found id approved db tx :
  find (fun x => N.eqb (Transaction._id x) id) (transactions db) = Some tx ->
  transactionController.processRefund id approved db
  = if Transaction.Status_eqb (Transaction.status tx) Transaction.DISPUTED then
      if approved then
        (inr (Transaction.setStatus Transaction.REFUNDED tx),
         setTransactions
           (replaceBy (fun y => N.eqb (Transaction._id y) (Transaction._id tx))
              (Transaction.setStatus Transaction.REFUNDED tx) (transactions db))
           (setNotifications
              (notifications db ++
               [{| Notification.recipient := Transaction.buyer tx;
                   Notification.type := Notification.SYSTEM;
                   Notification.title := "Refund approved" |};
                {| Notification.recipient := Transaction.seller tx;
                   Notification.type := Notification.SYSTEM;
                   Notification.title := "Refund issued" |}])%list db))
      else
        (inr (Transaction.setStatus Transaction.COMPLETED tx),
         setTransactions
           (replaceBy (fun y => N.eqb (Transaction._id y) (Transaction._id tx))
              (Transaction.setStatus Transaction.COMPLETED tx) (transactions db))
           (setNotifications
              (notifications db ++
               [{| Notification.recipient := Transaction.buyer tx;
                   Notification.type := Notification.SYSTEM;
                   Notification.title := "Refund denied" |}])%list db))
    else (inl (errors.badRequest "Only disputed transactions can be refunded"), db).
Proof.
  intro Hfind. unfold transactionController.processRefund. unfold_handler.
  rewrite Hfind.
  destruct (Transaction.Status_eqb (Transaction.status tx) Transaction.DISPUTED);
    cbn [negb]; [| reflexivity].
  destruct approved.
  - strict. unfold setNotifications, setTransactions; cbn.
    rewrite <- app_assoc. reflexivity.
  - reflexivity.
Qed.

(** C3: what a settled refund stores. An approved refund makes the DISPUTED
    transaction REFUNDED and leaves every user document as it was: the
    decrement by [sellerEarnings] is addressed to [statistics.earnings],
    which the User schema does not declare, and is dropped; the seller's
    [statistics.totalEarnings] is the one of before. A denied refund
    restores COMPLETED, and a transaction that is not DISPUTED is rejected
    without a write. *)
Theorem processRefund_effect :
  forall id db tx,
    find (fun x => N.eqb (Transaction._id x) id) (transactions db) = Some tx ->
    (Transaction.status tx = Transaction.DISPUTED ->
     fst (transactionController.processRefund id true db)
     = inr (Transaction.setStatus Transaction.REFUNDED tx) /\
     find (fun x => N.eqb (Transaction._id x) id)
          (transactions (snd (transactionController.processRefund id true db)))
     = Some (Transaction.setStatus Transaction.REFUNDED tx) /\
     users (snd (transactionController.processRefund id true db)) = users db /\
     fst (transactionController.processRefund id false db)
     = inr (Transaction.setStatus Transaction.COMPLETED tx) /\
     find (fun x => N.eqb (Transaction._id x) id)
          (transactions (snd (transactionController.processRefund id false db)))
     = Some (Transaction.setStatus Transaction.COMPLETED tx) /\
     users (snd (transactionController.processRefund id false db)) = users db) /\
    (Transaction.status tx <> Transaction.DISPUTED ->
     forall approved,
       transactionController.processRefund id approved db
       = (inl (errors.badRequest "Only disputed transactions can be refunded"), db)).
Proof.
  intros id db tx Hfind.
  assert (Hid : Transaction._id tx = id)
    by (apply N.eqb_eq; exact (proj2 (find_some _ _ Hfind))).
  split.
  - intro Hstatus.
    rewrite !(processRefund_found id _ db tx Hfind), Hstatus.
    cbn [Transaction.Status_eqb fst snd].
    cbn [transactions users setTransactions setNotifications].
    rewrite <- Hid in Hfind |- *.
    repeat split.
    + apply (find_replaced _ _ _ _ Hfind). apply N.eqb_refl.
    + apply (find_replaced _ _ _ _ Hfind). apply N.eqb_refl.
  - intros Hstatus approved.
    rewrite (processRefund_found id approved db tx Hfind).
    destruct (Transaction.Status_eqb (Transaction.status tx) Transaction.DISPUTED)
      eqn:E; [apply Status_eqb_eq in E; contradiction | reflexivity].
Qed.

Lemma processRefund_effect_witness :
  fst (transactionController.processRefund 50 true
         (Sample.soldStore 11 Transaction.DISPUTED))
  = inr (Transaction.setStatus Transaction.REFUNDED
           (Sample.saleOf 11 Transaction.DISPUTED)) /\
  find (fun x => N.eqb (Transaction._id x) 50)
       (transactions (snd (transactionController.processRefund 50 true
                             (Sample.soldStore 11 Transaction.DISPUTED))))
  = Some (Transaction.setStatus Transaction.REFUNDED
            (Sample.saleOf 11 Transaction.DISPUTED)) /\
  users (snd (transactionController.processRefund 50 true
                (Sample.soldStore 11 Transaction.DISPUTED)))
  = users (Sample.soldStore 11 Transaction.DISPUTED) /\
  fst (transactionController.processRefund 50 false
         (Sample.soldStore 11 Transaction.DISPUTED))
  = inr (Transaction.setStatus Transaction.COMPLETED
           (Sample.saleOf 11 Transaction.DISPUTED)) /\
  find (fun x => N.eqb (Transaction._id x) 50)
       (transactions (snd (transactionController.processRefund 50 false
                             (Sample.soldStore 11 Transaction.DISPUTED))))
  = Some (Transaction.setStatus Transaction.COMPLETED
            (Sample.saleOf 11 Transaction.DISPUTED)) /\
  users (snd (transactionController.processRefund 50 false
                (Sample.soldStore 11 Transaction.DISPUTED)))
  = users (Sample.soldStore 11 Transaction.DISPUTED).
Proof.
  apply (proj1 (processRefund_effect 50%N (Sample.soldStore 11 Transaction.DISPUTED)
                  (Sample.saleOf 11 Transaction.DISPUTED) eq_refl)).
  reflexivity.
Defined.

(** The approved refund of alice's purchase, evaluated: bob's declared
    [statistics.totalEarnings] is the 4.32 it was, where the claim has it
    drop to 0, and nothing is stored under [statistics.earnings] either. *)
Lemma processRefund_totalEarnings_unchanged :
  map (fun u => (User.username u, User.totalEarnings (User.statistics u),
                 User.statistics_earnings u))
      (users (snd (transactionController.processRefund 50 true
                     (Sample.soldStore 11 Transaction.DISPUTED))))
  = [("alice", 0%float, None);
     ("bob", 0x1.147ae147ae148p+2%float, None);
     ("carol", 0%float, None); ("dave", 0%float, None)] /\
  Transaction.sellerEarnings (Sample.saleOf 11 Transaction.DISPUTED)
  = 0x1.147ae147ae148p+2%float.
Proof. vm_compute. split; reflexivity. Qed.

(** C10. An approved refund leaves the Purchase collection as it was: the
    transaction is stored REFUNDED, transactions differ from before in
    [status] only, users in [statistics.earnings] only, rules, reviews and
    activities not at all, and the buyer's active Purchase of the rule, with
    its licenseKey, is still found, so [Purchase.exists] still answers
    true for the buyer. *)
Theorem processRefund_leaves_purchase_active :
  forall id db tx p,
    find (fun x => N.eqb (Transaction._id x) id) (transactions db) = Some tx ->
    Transaction.status tx = Transaction.DISPUTED ->
    find (activePurchaseOf (Transaction.buyer tx) (Transaction.rule tx))
         (purchases db) = Some p ->
    let db' := snd (transactionController.processRefund id true db) in
    find (fun x => N.eqb (Transaction._id x) id) (transactions db')
    = Some (Transaction.setStatus Transaction.REFUNDED tx) /\
    purchases db' = purchases db /\
    rules db' = rules db /\ reviews db' = reviews db /\
    activities db' = activities db /\
    map (Transaction.setStatus Transaction.REFUNDED) (transactions db')
    = map (Transaction.setStatus Transaction.REFUNDED) (transactions db) /\
    map (User.setEarnings None) (users db') = map (User.setEarnings None) (users db) /\
    find (activePurchaseOf (Transaction.buyer tx) (Transaction.rule tx))
         (purchases db') = Some p /\
    Purchase.isActive p = true /\
    Purchase_exists (Transaction.buyer tx) (Transaction.rule tx) db' = (inr true, db').
Proof.
  intros id db tx p Hfind Hstatus Hp db'.
  assert (Hid : Transaction._id tx = id)
    by (apply N.eqb_eq; exact (proj2 (find_some _ _ Hfind))).
  assert (Hpurchases : purchases db' = purchases db).
  { subst db'. rewrite (processRefund_found id true db tx Hfind), Hstatus.
    reflexivity. }
  assert (Hactive : Purchase.isActive p = true).
  { pose proof (proj2 (find_some _ _ Hp)) as H. unfold activePurchaseOf in H.
    apply andb_prop in H. exact (proj2 H). }
  subst db'. rewrite (processRefund_found id true db tx Hfind), Hstatus in *.
  cbn [Transaction.Status_eqb fst snd] in *.
  cbn [rules reviews activities transactions users purchases
       setTransactions setNotifications setUsers] in *.
  rewrite <- Hid in Hfind |- *. unfold replaceBy.
  split; [| repeat split; try assumption].
  - apply (find_updateFirst _ (fun _ => _) _ tx); [exact Hfind | apply N.eqb_refl].
  - apply (updateFirst_map_found _ _ _ _ tx Hfind). reflexivity.
  - unfold Purchase_exists, read.
    cbn [purchases setTransactions setNotifications setUsers].
    rewrite find_existsb, Hp. reflexivity.
Qed.

Lemma processRefund_leaves_purchase_active_witness :
  let db' := snd (transactionController.processRefund 50 true
                    (Sample.soldStore 11 Transaction.DISPUTED)) in
  find (fun x => N.eqb (Transaction._id x) 50) (transactions db')
  = Some (Transaction.setStatus Transaction.REFUNDED
            (Sample.saleOf 11 Transaction.DISPUTED)) /\
  purchases db' = purchases (Sample.soldStore 11 Transaction.DISPUTED) /\
  rules db' = rules (Sample.soldStore 11 Transaction.DISPUTED) /\
  reviews db' = reviews (Sample.soldStore 11 Transaction.DISPUTED) /\
  activities db' = activities (Sample.soldStore 11 Transaction.DISPUTED) /\
  map (Transaction.setStatus Transaction.REFUNDED) (transactions db')
  = map (Transaction.setStatus Transaction.REFUNDED)
        (transactions (Sample.soldStore 11 Transaction.DISPUTED)) /\
  map (User.setEarnings None) (users db')
  = map (User.setEarnings None) (users (Sample.soldStore 11 Transaction.DISPUTED)) /\
  find (activePurchaseOf
          (Transaction.buyer (Sample.saleOf 11 Transaction.DISPUTED))
          (Transaction.rule (Sample.saleOf 11 Transaction.DISPUTED)))
       (purchases db') = Some (Sample.purchaseOf 51 11) /\
  Purchase.isActive (Sample.purchaseOf 51 11) = true /\
  Purchase_exists (Transaction.buyer (Sample.saleOf 11 Transaction.DISPUTED))
                  (Transaction.rule (Sample.saleOf 11 Transaction.DISPUTED)) db'
  = (inr true, db').
Proof.
  apply (processRefund_leaves_purchase_active 50%N
           (Sample.soldStore 11 Transaction.DISPUTED)
           (Sample.saleOf 11 Transaction.DISPUTED) (Sample.purchaseOf 51 11));
    reflexivity.
Defined.

(** After the refund alice is still shown the whole query of the rule, and
    may still download it. *)
Lemma refunded_buyer_keeps_the_content :
  let db' := snd (transactionController.processRefund 50 true
                    (Sample.soldStore 10 Transaction.DISPUTED)) in
  option_map Transaction.status
    (find (fun x => N.eqb (Transaction._id x) 50) (transactions db'))
  = Some Transaction.REFUNDED /\
  fst (ruleController.getRuleById (Some Sample.alice) 10 db')
  = inr (Rule.setStatistics
           {| Rule.views := 1; Rule.downloads := 0; Rule.forks := 0;
              Rule.purchases := 0; Rule.rating := 0%float;
              Rule.totalRatings := 0 |} Sample.schemaRule, true) /\
  fst (ruleController.download Sample.alice 10 7 db')
  = inr {| Rule.query := Sample.longQuery |}.
Proof. vm_compute. repeat split; reflexivity. Qed.

(* ================================================================== *)
(** * Reviews (C7, C8, C4) *)

(** [createReview], run: it is rejected with [createReview_rejection] and
    leaves the database as it was. *)
Lemma createReview_rejected user ruleId rating comment db :
  reviewController.createReview user ruleId rating comment db
  = (inl (createReview_rejection user ruleId db), db).
Proof.
  unfold reviewController.createReview, createReview_rejection,
    reviewController.isSome, reviewController.paidType,
    transactionController.notPaidType.
  unfold_handler.
  repeat (case_innermost; cbn [fst snd Rule.hydrate Rule.pricing Rule.type negb]);
    reflexivity.
Qed.



(** ** Who reviewed what is never forgotten *)

Lemma replaceBy_found_map {A K : Type} (idOf : A -> ObjectId) (key : A -> K)
    (id : ObjectId) (y x' : A) (l : list A) :
  find (fun x => N.eqb (idOf x) id) l = Some y ->
  idOf x' = id -> key x' = key y ->
  map key (replaceBy (fun z => N.eqb (idOf z) (idOf x')) x' l) = map key l.
Proof.
  intros Hfind Hid Hkey. rewrite Hid. unfold replaceBy.
  apply (updateFirst_map_found _ _ _ _ y Hfind). exact Hkey.
Qed.

Lemma found_id {A : Type} (idOf : A -> ObjectId) (id : ObjectId) (y : A)
    (l : list A) :
  find (fun x => N.eqb (idOf x) id) l = Some y -> idOf y = id.
Proof. intro H. apply N.eqb_eq. exact (proj2 (find_some _ _ H)). Qed.

Lemma keepsReviews_refl db : keepsReviews db db.
Proof. reflexivity. Qed.

Lemma keepsReviews_trans a b c :
  keepsReviews a b -> keepsReviews b c -> keepsReviews a c.
Proof. unfold keepsReviews. congruence. Qed.

Ltac frame_reviews :=
  frame_with keepsReviews_refl keepsReviews_trans ltac:(reflexivity).

Lemma purchaseRule_keepsReviews user ruleId pm r1 r2 now :
  preserves keepsReviews
    (transactionController.purchaseRule user ruleId pm r1 r2 now).
Proof. unfold transactionController.purchaseRule. frame_reviews. Qed.

Lemma requestRefund_keepsReviews user id reason now :
  preserves keepsReviews (transactionController.requestRefund user id reason now).
Proof. unfold transactionController.requestRefund. frame_reviews. Qed.

Lemma processRefund_keepsReviews id approved :
  preserves keepsReviews (transactionController.processRefund id approved).
Proof. unfold transactionController.processRefund. frame_reviews. Qed.

Lemma mask_keepsReviews n user rule :
  preserves keepsReviews (ruleController.mask n user rule).
Proof. unfold ruleController.mask. frame_reviews. Qed.

Lemma maskedRules_keepsReviews user found :
  preserves keepsReviews (ruleController.maskedRules user found).
Proof.
  induction found as [| rule rest IH]; simpl.
  - apply (preserves_ret _ keepsReviews_refl).
  - apply (preserves_bind _ keepsReviews_trans); [apply mask_keepsReviews |].
    intro r. apply (preserves_bind _ keepsReviews_trans); [exact IH |].
    intro rs. apply (preserves_ret _ keepsReviews_refl).
Qed.

Lemma getRuleById_keepsReviews user id :
  preserves keepsReviews (ruleController.getRuleById user id).
Proof.
  unfold ruleController.getRuleById. frame_reviews. apply mask_keepsReviews.
Qed.

Lemma download_keepsReviews user id now :
  preserves keepsReviews (ruleController.download user id now).
Proof. unfold ruleController.download. frame_reviews. Qed.

Ltac saved_review :=
  match goal with
  | H : find (fun x => N.eqb (Review._id x) ?id) (reviews _) = Some ?y |- _ =>
      apply (replaceBy_found_map Review._id _ id y); [exact H | | reflexivity];
      exact (found_id Review._id id y _ H)
  end.

Lemma updateReview_keepsReviewKeys user id rating comment db :
  keepsReviewKeys db (snd (reviewController.updateReview user id rating comment db)).
Proof.
  unfold keepsReviewKeys, reviewController.updateReview. run_handler.
  all: cbn [reviews setReviews setRules]; try reflexivity; saved_review.
Qed.

Lemma deleteReview_keepsReviewKeys user id db :
  keepsReviewKeys db (snd (reviewController.deleteReview user id db)).
Proof.
  unfold keepsReviewKeys, reviewController.deleteReview. run_handler.
  all: cbn [reviews setReviews setRules]; try reflexivity; saved_review.
Qed.

Lemma markHelpful_keepsReviewKeys user id helpful db :
  keepsReviewKeys db (snd (reviewController.markHelpful user id helpful db)).
Proof.
  unfold keepsReviewKeys, reviewController.markHelpful. run_handler.
  all: cbn [reviews setReviews setRules]; try reflexivity; saved_review.
Qed.

Lemma serve_keepsReviewKeys rq db : keepsReviewKeys db (serve rq db).
Proof.
  assert (Hsame : forall db', keepsReviews db db' -> keepsReviewKeys db db').
  { intros db' H. unfold keepsReviewKeys. rewrite H. reflexivity. }
  destruct rq; simpl.
  - apply Hsame. apply purchaseRule_keepsReviews.
  - apply Hsame. apply requestRefund_keepsReviews.
  - apply Hsame. apply processRefund_keepsReviews.
  - rewrite createReview_rejected. reflexivity.
  - apply updateReview_keepsReviewKeys.
  - apply deleteReview_keepsReviewKeys.
  - apply markHelpful_keepsReviewKeys.
  - apply Hsame. apply maskedRules_keepsReviews.
  - apply Hsame. apply getRuleById_keepsReviews.
  - apply Hsame. apply download_keepsReviews.
Qed.

Lemma reviewedBy_by_key rule user db db' :
  keepsReviewKeys db db' -> reviewedBy rule user db -> reviewedBy rule user db'.
Proof.
  unfold keepsReviewKeys, reviewedBy. intros Hk (x & Hin & Hr & Hu).
  assert (Hkey : In (reviewKey x) (map reviewKey (reviews db')))
    by (rewrite Hk; apply in_map; exact Hin).
  apply in_map_iff in Hkey. destruct Hkey as (y & Hy & Hyin).
  exists y. unfold reviewKey in Hy. injection Hy as _ Hr' Hu'.
  repeat split; [exact Hyin | congruence | congruence].
Qed.

Lemma reachable_reviewedBy rule user db db' :
  reachable db db' -> reviewedBy rule user db -> reviewedBy rule user db'.
Proof.
  intros Hreach Hrev. induction Hreach as [| db1 rq _ IH].
  - exact Hrev.
  - exact (reviewedBy_by_key rule user db1 _ (serve_keepsReviewKeys rq db1) IH).
Qed.

Lemma find_reviewedBy rule user db :
  (exists x, find (fun x => N.eqb (Review.rule x) rule && N.eqb (Review.user x) user)
                  (reviews db) = Some x)
  <-> reviewedBy rule user db.
Proof.
  unfold reviewedBy. split.
  - intros (x & H). apply find_some in H. destruct H as [Hin H].
    apply andb_prop in H. destruct H as [Hr Hu].
    apply N.eqb_eq in Hr. apply N.eqb_eq in Hu. eauto.
  - intros (x & Hin & Hr & Hu).
    destruct (find (fun x => N.eqb (Review.rule x) rule && N.eqb (Review.user x) user)
                   (reviews db)) as [y |] eqn:E; [eauto |].
    exfalso. pose proof (find_none _ _ E x Hin) as Hno. cbv beta in Hno.
    rewrite Hr, Hu, !N.eqb_refl in Hno. discriminate.
Qed.

(** C8, as the code has it. For a rule that exists and a user who
    passes the purchase test, [createReview] is rejected with "You have
    already reviewed this rule" exactly when a Review of the rule by that
    user is on record, active or soft-deleted; and once on record it stays
    on record through every later request, edits and soft-deletes
    included. *)
Theorem createReview_duplicate_iff :
  forall user ruleId rating comment db rule,
    find (fun r => N.eqb (Rule._id r) ruleId) (rules db) = Some rule ->
    (reviewController.paidType rule = true ->
     exists p,
       find (activePurchaseOf (User._id user) ruleId) (purchases db) = Some p) ->
    (reviewController.createReview user ruleId rating comment db
     = (inl (errors.conflict "You have already reviewed this rule"), db)
     <-> reviewedBy ruleId (User._id user) db) /\
    (forall db',
        reachable db db' ->
        reviewedBy ruleId (User._id user) db ->
        reviewedBy ruleId (User._id user) db').
Proof.
  intros user ruleId rating comment db rule Hrule _. split.
  - rewrite createReview_rejected, <- find_reviewedBy.
    unfold createReview_rejection. rewrite Hrule.
    destruct (find _ (reviews db)) as [x |].
    + split; [eauto | reflexivity].
    + split; [discriminate | intros (x & H); discriminate].
  - intros db' Hreach. apply reachable_reviewedBy. exact Hreach.
Qed.

Lemma createReview_duplicate_iff_witness :
  (reviewController.createReview Sample.alice 10 (Some 4%float) None
     Sample.deletedReviewStore
   = (inl (errors.conflict "You have already reviewed this rule"),
      Sample.deletedReviewStore)
   <-> reviewedBy 10 (User._id Sample.alice) Sample.deletedReviewStore) /\
  (forall db',
      reachable Sample.deletedReviewStore db' ->
      reviewedBy 10 (User._id Sample.alice) Sample.deletedReviewStore ->
      reviewedBy 10 (User._id Sample.alice) db').
Proof.
  apply (createReview_duplicate_iff Sample.alice 10%N (Some 4%float) None
           Sample.deletedReviewStore Sample.schemaRule).
  - reflexivity.
  - vm_compute. discriminate.
Defined.

(** C8, as stated, fails after a soft-delete: alice deletes her only review
    of rule 10, no active Review of hers is left, and her next submission is
    still rejected with "You have already reviewed this rule". *)
Lemma createReview_after_soft_delete_rejected :
  let before := setReviews [Sample.mkReview 60 1 5%float true] Sample.emptyStore in
  let db := serve (DeleteReview Sample.alice 60) before in
  fst (reviewController.deleteReview Sample.alice 60 before) = inr tt /\
  filter (fun x => N.eqb (Review.rule x) 10 && N.eqb (Review.user x) 1 &&
                   Review.isActive x) (reviews db) = [] /\
  reviewController.createReview Sample.alice 10 (Some 4%float) (Some "again") db
  = (inl (errors.conflict "You have already reviewed this rule"), db).
Proof. vm_compute. repeat split; reflexivity. Qed.

(** ** The aggregate never reaches the rule (C4) *)

Lemma keepsRules_refl db : keepsRules db db.
Proof. reflexivity. Qed.

Lemma keepsRules_trans a b c : keepsRules a b -> keepsRules b c -> keepsRules a c.
Proof. unfold keepsRules. congruence. Qed.

Ltac frame_rules :=
  frame_with keepsRules_refl keepsRules_trans ltac:(reflexivity).

Lemma requestRefund_keepsRules user id reason now :
  preserves keepsRules (transactionController.requestRefund user id reason now).
Proof. unfold transactionController.requestRefund. frame_rules. Qed.

Lemma processRefund_keepsRules id approved :
  preserves keepsRules (transactionController.processRefund id approved).
Proof. unfold transactionController.processRefund. frame_rules. Qed.

Lemma markHelpful_keepsRules user id helpful :
  preserves keepsRules (reviewController.markHelpful user id helpful).
Proof. unfold reviewController.markHelpful. frame_rules. Qed.

Lemma mask_keepsRules n user rule :
  preserves keepsRules (ruleController.mask n user rule).
Proof. unfold ruleController.mask. frame_rules. Qed.

Lemma maskedRules_keepsRules user found :
  preserves keepsRules (ruleController.maskedRules user found).
Proof.
  induction found as [| rule rest IH]; simpl.
  - apply (preserves_ret _ keepsRules_refl).
  - apply (preserves_bind _ keepsRules_trans); [apply mask_keepsRules |].
    intro r. apply (preserves_bind _ keepsRules_trans); [exact IH |].
    intro rs. apply (preserves_ret _ keepsRules_refl).
Qed.

(** The review controller addresses what it computes to [stats.rating] and
    [stats.reviewCount]; the update is dropped and the Rule collection is
    what it was. *)
Ltac frame_rules_strict :=
  frame_with keepsRules_refl keepsRules_trans
    ltac:(unfold keepsRules; cbn [rules setRules setReviews];
          first [ reflexivity
                | apply updateFirst_fixed;
                  intros [? ? ? ? ? [] ? ? ? ?]; reflexivity ]).

Lemma updateReview_keepsRules user id rating comment :
  preserves keepsRules (reviewController.updateReview user id rating comment).
Proof. unfold reviewController.updateReview. frame_rules_strict. Qed.

Lemma deleteReview_keepsRules user id :
  preserves keepsRules (reviewController.deleteReview user id).
Proof. unfold reviewController.deleteReview. frame_rules_strict. Qed.

Lemma purchaseRule_keepsRules user ruleId pm r1 r2 now :
  preserves keepsRules
    (transactionController.purchaseRule user ruleId pm r1 r2 now).
Proof. intro db. rewrite purchaseRule_rejected. reflexivity. Qed.

(** A save of the loaded rule with other [statistics]: what a projection of
    the stored rules gives is kept when it is kept on that rule. *)
Ltac saved_rule :=
  match goal with
  | H : find (fun x => N.eqb (Rule._id x) ?id) (rules _) = Some ?y
    |- map ?g (updateFirst _ ?f _) = _ =>
      let Hid := fresh "Hid" in
      pose proof (found_id Rule._id id y _ H) as Hid;
      cbn [Rule._id Rule.setStatistics Rule.hydrate Rule_setIsActive];
      rewrite Hid;
      apply (updateFirst_map_found _ g f _ y H);
      first [ reflexivity
            | destruct y as [? ? ? ? ? [] ? ? ? ?]; reflexivity ]
  end.

Lemma getRuleById_keepsRatingFields user id db :
  keepsRatingFields db (snd (ruleController.getRuleById user id db)).
Proof.
  unfold keepsRatingFields, ruleController.getRuleById, ruleController.mask.
  run_handler.
  all: cbn [rules setRules]; try reflexivity; saved_rule.
Qed.

Lemma download_keepsRatingFields user id now db :
  keepsRatingFields db (snd (ruleController.download user id now db)).
Proof.
  unfold keepsRatingFields, ruleController.download. run_handler.
  all: cbn [rules setRules setPurchases setActivities]; try reflexivity; saved_rule.
Qed.

Lemma serve_keepsRatingFields rq db : keepsRatingFields db (serve rq db).
Proof.
  assert (Hsame : forall db', keepsRules db db' -> keepsRatingFields db db').
  { intros db' H. unfold keepsRatingFields. rewrite H. reflexivity. }
  destruct rq; simpl.
  - apply Hsame. apply purchaseRule_keepsRules.
  - apply Hsame. apply requestRefund_keepsRules.
  - apply Hsame. apply processRefund_keepsRules.
  - rewrite createReview_rejected. reflexivity.
  - apply Hsame. apply updateReview_keepsRules.
  - apply Hsame. apply deleteReview_keepsRules.
  - apply Hsame. apply markHelpful_keepsRules.
  - apply Hsame. apply maskedRules_keepsRules.
  - apply getRuleById_keepsRatingFields.
  - apply download_keepsRatingFields.
Qed.

(** C4: what the code does instead. No request, a review submission, update
    or soft-delete included, ever changes [statistics.rating] or
    [statistics.totalRatings] of any rule: in every database reached they
    are those of the start. *)
Theorem rating_fields_never_written :
  forall db0 db,
    reachable db0 db -> map ratingFields (rules db) = map ratingFields (rules db0).
Proof.
  intros db0 db Hreach. induction Hreach as [| db rq _ IH].
  - reflexivity.
  - rewrite <- IH. apply serve_keepsRatingFields.
Qed.

Lemma rating_fields_never_written_witness :
  map ratingFields (rules (serve (DeleteReview Sample.carol 61) Sample.reviewedStore))
  = map ratingFields (rules Sample.reviewedStore).
Proof.
  apply (rating_fields_never_written Sample.reviewedStore).
  apply reachable_serve. apply reachable_start.
Defined.

(** The example of the claim, evaluated. With active reviews rated 5, 3 and
    4 on rule 10, carol (an admin) soft-deletes the review rated 3: the
    active ratings left are 5 and 4, whose aggregate is 4.5 over 2 reviews;
    the rule's [statistics] still hold rating 0 and count 0, and the Rule
    collection is the one of before. *)
Lemma deleteReview_aggregate_beside_schema :
  let db := snd (reviewController.deleteReview Sample.carol 61 Sample.reviewedStore) in
  fst (reviewController.deleteReview Sample.carol 61 Sample.reviewedStore) = inr tt /\
  map Review.rating
      (filter (fun x => N.eqb (Review.rule x) 10 && Review.isActive x) (reviews db))
  = [5%float; 4%float] /\
  Spec.aggregate [5%float; 4%float] = (0x1.2p+2%float, 2) /\
  reviewController.avgRating
    (filter (fun x => N.eqb (Review.rule x) 10 && Review.isActive x) (reviews db))
  = 0x1.2p+2%float /\
  option_map ratingFields (find (fun r => N.eqb (Rule._id r) 10) (rules db))
  = Some (0%float, 0) /\
  rules db = rules Sample.reviewedStore.
Proof. vm_compute. repeat split; reflexivity. Qed.

(** X3. The aggregate the review controller computes never reaches the
    Rule collection: [updateReview] and [deleteReview] leave every rule as
    it was, whatever the reviews on record. What [updateReview] computes
    for its update is, moreover, no rating where no active review is left:
    it divides by the length of the list without the test for zero that
    [deleteReview] has, and 0 / 0 is NaN. *)
Theorem review_aggregate_is_never_stored :
  forall db user id rating comment,
    rules (snd (reviewController.updateReview user id rating comment db))
    = rules db /\
    rules (snd (reviewController.deleteReview user id db)) = rules db /\
    JS.isNaN (reviewController.avgRating []) = true.
Proof.
  intros db user id rating comment. split; [| split].
  - apply updateReview_keepsRules.
  - apply deleteReview_keepsRules.
  - reflexivity.
Qed.

(* ================================================================== *)
(** * The helpful vote (C9) *)

Lemma indexOf_notin (u : ObjectId) (l : list ObjectId) :
  ~ In u l -> JS.indexOf u l = None.
Proof.
  induction l as [| y l IH]; simpl; intro H; [reflexivity |].
  destruct (N.eqb y u) eqn:E.
  - apply N.eqb_eq in E. exfalso. apply H. left. exact E.
  - rewrite IH; [reflexivity | intro Hin; apply H; right; exact Hin].
Qed.

Lemma indexOf_app_last (u : ObjectId) (l : list ObjectId) :
  ~ In u l -> JS.indexOf u (l ++ [u]) = Some (List.length l).
Proof.
  induction l as [| y l IH]; simpl; intro H.
  - rewrite N.eqb_refl. reflexivity.
  - destruct (N.eqb y u) eqn:E.
    + apply N.eqb_eq in E. exfalso. apply H. left. exact E.
    + rewrite IH; [reflexivity | intro Hin; apply H; right; exact Hin].
Qed.

Lemma splice1_app_last {A : Type} (l : list A) (x : A) :
  JS.splice1 (List.length l) (l ++ [x]) = l.
Proof.
  induction l as [| y l IH]; simpl; [reflexivity | rewrite IH; reflexivity].
Qed.

Lemma setReviews_same db : setReviews (reviews db) db = db.
Proof. destruct db. reflexivity. Qed.

(** [markHelpful] on a stored review whose rating passes the validators. *)
Lemma markHelpful_found user id helpful db review :
  find (fun x => N.eqb (Review._id x) id) (reviews db) = Some review ->
  Review.validRating review = true ->
  reviewController.markHelpful user id helpful db
  = (inr {| reviewController.res_helpful :=
              Review.count (helpfulAfter (User._id user) helpful
                                         (Review.helpful review));
            reviewController.res_userMarked := helpful |},
     setReviews
       (replaceBy (fun y => N.eqb (Review._id y) id)
          (Review.setHelpful
             (helpfulAfter (User._id user) helpful (Review.helpful review)) review)
          (reviews db)) db).
Proof.
  intros Hfind Hvalid.
  pose proof (found_id Review._id id review _ Hfind) as Hid.
  unfold reviewController.markHelpful.
  rewrite (bind_step _ _ db (Some review) db)
    by (unfold Review_findById, read; rewrite Hfind; reflexivity).
  rewrite (bind_step _ _ db review db) by reflexivity.
  cbv zeta.
  assert (Hh : (if helpful && negb (reviewController.isSome
                                      (JS.indexOf (User._id user)
                                         (Review.users (Review.helpful review))))
                then {| Review.users :=
                          (Review.users (Review.helpful review) ++ [User._id user])%list;
                        Review.count := Review.count (Review.helpful review) + 1 |}
                else if negb helpful && reviewController.isSome
                                          (JS.indexOf (User._id user)
                                             (Review.users (Review.helpful review)))
                then {| Review.users :=
                          match JS.indexOf (User._id user)
                                  (Review.users (Review.helpful review)) with
                          | Some i => JS.splice1 i (Review.users (Review.helpful review))
                          | None => Review.users (Review.helpful review)
                          end;
                        Review.count := Review.count (Review.helpful review) - 1 |}
                else Review.helpful review)
               = helpfulAfter (User._id user) helpful (Review.helpful review)).
  { unfold helpfulAfter.
    destruct (JS.indexOf (User._id user) (Review.users (Review.helpful review)));
      destruct helpful; reflexivity. }
  rewrite Hh.
  unfold Review_save.
  rewrite bind_assoc.
  rewrite (bind_step _ _ db tt db).
  2:{ apply throwIf_false. unfold Review.validRating in *. cbn.
      rewrite Hvalid. reflexivity. }
  unfold bind, write, ret. cbn [Review._id Review.setHelpful]. rewrite Hid.
  reflexivity.
Qed.

Lemma indexOf_none (u : ObjectId) (l : list ObjectId) :
  JS.indexOf u l = None -> ~ In u l.
Proof.
  induction l as [| y l IH]; simpl; intros H Hin; [exact Hin |].
  destruct (N.eqb y u) eqn:E; [discriminate |].
  destruct (JS.indexOf u l); [discriminate |].
  destruct Hin as [-> | Hin]; [rewrite N.eqb_refl in E; discriminate |].
  exact (IH eq_refl Hin).
Qed.

Lemma indexOf_spliced (u : ObjectId) (l : list ObjectId) (i : nat) :
  NoDup l -> JS.indexOf u l = Some i -> JS.indexOf u (JS.splice1 i l) = None.
Proof.
  revert i. induction l as [| y l IH]; simpl; intros i Hnd H; [discriminate |].
  inversion Hnd as [| ? ? Hnotin Hnd']; subst.
  destruct (N.eqb y u) eqn:E.
  - injection H as <-. apply N.eqb_eq in E. subst y.
    apply indexOf_notin. exact Hnotin.
  - destruct (JS.indexOf u l) as [j |] eqn:Ej; [| discriminate].
    injection H as <-. simpl. rewrite E, (IH j Hnd' eq_refl). reflexivity.
Qed.

(** Under a duplicate-free [helpful.users], the step of [markHelpful]
    applied twice is the step applied once. *)
Lemma helpfulAfter_idempotent (u : ObjectId) (helpful : bool) (h : Review.Helpful) :
  NoDup (Review.users h) ->
  helpfulAfter u helpful (helpfulAfter u helpful h) = helpfulAfter u helpful h.
Proof.
  intro Hnd.
  destruct (JS.indexOf u (Review.users h)) as [i |] eqn:E; destruct helpful.
  - assert (H1 : helpfulAfter u true h = h)
      by (unfold helpfulAfter; rewrite E; reflexivity).
    rewrite H1. exact H1.
  - assert (H1 : helpfulAfter u false h
                 = {| Review.count := Review.count h - 1;
                      Review.users := JS.splice1 i (Review.users h) |})
      by (unfold helpfulAfter; rewrite E; reflexivity).
    rewrite H1. unfold helpfulAfter. cbn [Review.users Review.count].
    rewrite (indexOf_spliced u _ i Hnd E). reflexivity.
  - assert (H1 : helpfulAfter u true h
                 = {| Review.count := Review.count h + 1;
                      Review.users := (Review.users h ++ [u])%list |})
      by (unfold helpfulAfter; rewrite E; reflexivity).
    rewrite H1. unfold helpfulAfter. cbn [Review.users Review.count].
    rewrite (indexOf_app_last u _ (indexOf_none u _ E)). reflexivity.
  - assert (H1 : helpfulAfter u false h = h)
      by (unfold helpfulAfter; rewrite E; reflexivity).
    rewrite H1. exact H1.
Qed.

(** A repeated identical call of [markHelpful] leaves the database of the
    first call. *)
Lemma markHelpful_idempotent user id helpful db review :
  find (fun x => N.eqb (Review._id x) id) (reviews db) = Some review ->
  Review.validRating review = true ->
  NoDup (Review.users (Review.helpful review)) ->
  snd (reviewController.markHelpful user id helpful
         (snd (reviewController.markHelpful user id helpful db)))
  = snd (reviewController.markHelpful user id helpful db).
Proof.
  intros Hfind Hvalid Hnd.
  pose proof (found_id Review._id id review _ Hfind) as Hid.
  rewrite (markHelpful_found user id helpful db review Hfind Hvalid).
  cbn [snd].
  set (once := Review.setHelpful
                 (helpfulAfter (User._id user) helpful (Review.helpful review))
                 review).
  set (db1 := setReviews (replaceBy (fun y => N.eqb (Review._id y) id) once
                                    (reviews db)) db).
  assert (Hfind1 : find (fun x => N.eqb (Review._id x) id) (reviews db1) = Some once).
  { subst db1. cbn [reviews setReviews]. unfold replaceBy.
    apply (find_updateFirst _ (fun _ => once) _ review Hfind).
    cbn. rewrite Hid. apply N.eqb_refl. }
  rewrite (markHelpful_found user id helpful db1 once Hfind1 Hvalid).
  cbn [snd]. subst once. cbn [Review.helpful Review.setHelpful].
  rewrite (helpfulAfter_idempotent _ _ _ Hnd).
  fold (Review.setHelpful
          (helpfulAfter (User._id user) helpful (Review.helpful review)) review)
    in *.
  set (once := Review.setHelpful
                 (helpfulAfter (User._id user) helpful (Review.helpful review))
                 review) in *.
  assert (E : Review.setHelpful (Review.helpful once) once = once) by reflexivity.
  cbn [Review.helpful Review.setHelpful once] in E.
  rewrite E. unfold replaceBy.
  rewrite (updateFirst_found_fixed _ (fun _ => once) _ once Hfind1 eq_refl).
  apply setReviews_same.
Qed.

(** C9. For a stored review, of a valid rating, that [user] has not marked:
    [markHelpful(true)] appends the user and adds one to the count; the same
    call again changes nothing; [markHelpful(false)] then puts the review,
    and the whole database, back as it was; and the same call again changes
    nothing. Wherever [helpful.users] has no duplicate, a call repeated with
    the same flag changes nothing. *)
Theorem markHelpful_toggle :
  forall user id db review,
    find (fun x => N.eqb (Review._id x) id) (reviews db) = Some review ->
    Review.validRating review = true ->
    ~ In (User._id user) (Review.users (Review.helpful review)) ->
    let marked :=
      Review.setHelpful
        {| Review.count := Review.count (Review.helpful review) + 1;
           Review.users :=
             (Review.users (Review.helpful review) ++ [User._id user])%list |}
        review in
    let db1 := snd (reviewController.markHelpful user id true db) in
    let db2 := snd (reviewController.markHelpful user id true db1) in
    let db3 := snd (reviewController.markHelpful user id false db2) in
    let db4 := snd (reviewController.markHelpful user id false db3) in
    find (fun x => N.eqb (Review._id x) id) (reviews db1) = Some marked /\
    fst (reviewController.markHelpful user id true db)
    = inr {| reviewController.res_helpful := Review.count (Review.helpful review) + 1;
             reviewController.res_userMarked := true |} /\
    db2 = db1 /\
    fst (reviewController.markHelpful user id true db1)
    = inr {| reviewController.res_helpful := Review.count (Review.helpful review) + 1;
             reviewController.res_userMarked := true |} /\
    db3 = db /\
    fst (reviewController.markHelpful user id false db2)
    = inr {| reviewController.res_helpful := Review.count (Review.helpful review);
             reviewController.res_userMarked := false |} /\
    db4 = db3 /\
    (NoDup (Review.users (Review.helpful review)) ->
     forall helpful,
       snd (reviewController.markHelpful user id helpful
              (snd (reviewController.markHelpful user id helpful db)))
       = snd (reviewController.markHelpful user id helpful db)).
Proof.
  intros user id db review Hfind Hvalid Hnotin marked db1 db2 db3 db4.
  pose proof (found_id Review._id id review _ Hfind) as Hid.
  assert (Hmarked : helpfulAfter (User._id user) true (Review.helpful review)
                    = Review.helpful marked).
  { unfold helpfulAfter. rewrite (indexOf_notin _ _ Hnotin). reflexivity. }
  assert (Hdb1 : db1 = setReviews
                         (replaceBy (fun y => N.eqb (Review._id y) id) marked
                                    (reviews db)) db).
  { subst db1. rewrite (markHelpful_found user id true db review Hfind Hvalid).
    cbn [snd]. rewrite Hmarked. reflexivity. }
  assert (Hfind1 : find (fun x => N.eqb (Review._id x) id) (reviews db1) = Some marked).
  { rewrite Hdb1. cbn [reviews setReviews]. unfold replaceBy.
    apply (find_updateFirst _ (fun _ => marked) _ review Hfind).
    cbn. rewrite Hid. apply N.eqb_refl. }
  assert (Hvalid1 : Review.validRating marked = true) by exact Hvalid.
  assert (Hagain : helpfulAfter (User._id user) true (Review.helpful marked)
                   = Review.helpful marked).
  { unfold helpfulAfter. cbn [marked Review.helpful Review.setHelpful Review.users].
    rewrite (indexOf_app_last _ _ Hnotin). reflexivity. }
  assert (Hback : helpfulAfter (User._id user) false (Review.helpful marked)
                  = Review.helpful review).
  { unfold helpfulAfter.
    cbn [marked Review.helpful Review.setHelpful Review.users Review.count].
    rewrite (indexOf_app_last _ _ Hnotin), splice1_app_last.
    destruct (Review.helpful review) as [c us]. cbn. f_equal. lia. }
  assert (Hsame : forall (x : Review.t) (l : list Review.t),
             find (fun y => N.eqb (Review._id y) id) l = Some x ->
             replaceBy (fun y => N.eqb (Review._id y) id) x l = l).
  { intros x l H. unfold replaceBy.
    apply (updateFirst_found_fixed _ (fun _ => x) l x H). reflexivity. }
  assert (Hdb2 : db2 = db1).
  { subst db2. rewrite (markHelpful_found user id true db1 marked Hfind1 Hvalid1).
    cbn [snd]. rewrite Hagain.
    assert (E : Review.setHelpful (Review.helpful marked) marked = marked)
      by reflexivity.
    rewrite E, (Hsame marked _ Hfind1). apply setReviews_same. }
  assert (Hdb3 : db3 = db).
  { subst db3. rewrite Hdb2.
    rewrite (markHelpful_found user id false db1 marked Hfind1 Hvalid1).
    cbn [snd]. rewrite Hback.
    assert (E : Review.setHelpful (Review.helpful review) marked = review)
      by (destruct review; reflexivity).
    rewrite E, Hdb1. cbn [reviews setReviews]. unfold replaceBy.
    rewrite updateFirst_twice
      by (intros y Hy; cbn; rewrite Hid; apply N.eqb_refl).
    fold (replaceBy (fun y => N.eqb (Review._id y) id) review (reviews db)).
    rewrite (Hsame review _ Hfind).
    destruct db. reflexivity. }
  assert (Hunmarked : helpfulAfter (User._id user) false (Review.helpful review)
                      = Review.helpful review).
  { unfold helpfulAfter. rewrite (indexOf_notin _ _ Hnotin). reflexivity. }
  repeat split.
  - exact Hfind1.
  - rewrite (markHelpful_found user id true db review Hfind Hvalid).
    cbn [fst]. rewrite Hmarked. reflexivity.
  - exact Hdb2.
  - rewrite (markHelpful_found user id true db1 marked Hfind1 Hvalid1).
    cbn [fst]. rewrite Hagain. reflexivity.
  - exact Hdb3.
  - rewrite Hdb2, (markHelpful_found user id false db1 marked Hfind1 Hvalid1).
    cbn [fst]. rewrite Hback. reflexivity.
  - subst db4. rewrite Hdb3.
    rewrite (markHelpful_found user id false db review Hfind Hvalid).
    cbn [snd]. rewrite Hunmarked.
    assert (E : Review.setHelpful (Review.helpful review) review = review)
      by (destruct review; reflexivity).
    rewrite E, (Hsame review _ Hfind). apply setReviews_same.
  - intros Hnd helpful.
    exact (markHelpful_idempotent user id helpful db review Hfind Hvalid Hnd).
Qed.

(** dave's vote on carol's review of rule 10: given, given again, and taken
    back, it leaves the database as it found it. *)
Lemma markHelpful_toggle_witness :
  snd (reviewController.markHelpful Sample.dave 61 false
         (snd (reviewController.markHelpful Sample.dave 61 true
                 (snd (reviewController.markHelpful Sample.dave 61 true
                         Sample.reviewedStore)))))
  = Sample.reviewedStore.
Proof.
  apply (proj1 (proj2 (proj2 (proj2 (proj2
           (markHelpful_toggle Sample.dave 61%N Sample.reviewedStore
              (Sample.mkReview 61 3 3%float true)
              eq_refl eq_refl
              (fun H : In (User._id Sample.dave) [] => H))))))).
Defined.

(* ================================================================== *)
(** * The content gate (C5) *)

Lemma substring0_length (n : nat) (s : string) :
  (String.length (JS.substring0 n s) <= n)%nat.
Proof.
  unfold JS.substring0. revert s.
  induction n as [| n IH]; intros [| c s]; simpl; try lia.
  specialize (IH s). lia.
Qed.

Lemma substring0_prefix (n : nat) (s : string) :
  String.prefix (JS.substring0 n s) s = true.
Proof.
  unfold JS.substring0. revert s.
  induction n as [| n IH]; intros [| c s]; simpl; try reflexivity.
  destruct (ascii_dec c c) as [_ | Hne]; [apply IH | contradiction].
Qed.

(** The masking step on a paid rule. *)
Lemma mask_paid (n : nat) (user : option User.t) (rule : Rule.t) (db : Store) :
  Rule.isPaid (Rule.pricing rule) = true ->
  ruleController.mask n user rule db
  = match user with
    | None => (inr (Rule.setQuery ruleController.loginPlaceholder rule, false), db)
    | Some u =>
        if existsb (activePurchaseOf (User._id u) (Rule._id rule)) (purchases db)
        then (inr (rule, true), db)
        else (inr (Rule.setQuery
                     (JS.substring0 n (Rule.query (Rule.ruleContent rule))
                      ++ ruleController.purchaseMarker) rule, false), db)
    end.
Proof.
  intro Hpaid. unfold ruleController.mask. rewrite Hpaid.
  destruct user as [u |]; [| reflexivity].
  unfold bind, Purchase_exists, read.
  destruct (existsb _ (purchases db)); reflexivity.
Qed.

Lemma populateAuthor_runs user rule db :
  ruleController.populateAuthor user rule db
  = (inr match find (fun u => N.eqb (User._id u) (Rule.author rule)) (users db),
               user with
         | Some a, _ => Some a
         | None, Some u =>
             if N.eqb (User._id u) (Rule.author rule) then Some u else None
         | None, None => None
         end, db).
Proof. reflexivity. Qed.

(** [getRuleById] on a rule the requester may see: the rule is stored with
    one more view, and the loaded document, with one more view, is masked
    for the response. *)
Lemma getRuleById_found (user : option User.t) (id : ObjectId) (db : Store)
    (rule : Rule.t) :
  find (fun r => N.eqb (Rule._id r) id) (rules db) = Some rule ->
  (Rule.visibility rule = Rule.PRIVATE ->
   exists u, user = Some u /\ Rule.author rule = User._id u) ->
  ruleController.getRuleById user id db
  = ruleController.mask 150 user (viewed (Rule.hydrate rule))
      (setRules (replaceBy (fun y => N.eqb (Rule._id y) id)
                           (viewed rule) (rules db)) db).
Proof.
  intros Hfind Hvisible. unfold ruleController.getRuleById.
  rewrite (bind_step _ _ db _ db (Rule_findById_found _ _ _ Hfind)).
  rewrite (bind_step _ _ db (Rule.hydrate rule) db) by reflexivity.
  rewrite (bind_step _ _ db _ db (populateAuthor_runs user (Rule.hydrate rule) db)).
  rewrite (bind_step _ _ db tt db).
  2:{ cbn [Rule.visibility Rule.author Rule.hydrate].
      destruct (Rule.visibility rule); try reflexivity.
      destruct (Hvisible eq_refl) as (u & -> & Hu).
      destruct (find (fun u0 => N.eqb (User._id u0) (Rule.author rule)) (users db))
        as [a |] eqn:Ha.
      - pose proof (found_id _ _ _ _ Ha) as Hida.
        unfold deref, bind, ret. apply throwIf_false.
        rewrite Hida, Hu, N.eqb_refl. reflexivity.
      - rewrite Hu, N.eqb_refl.
        unfold deref, bind, ret. apply throwIf_false.
        rewrite N.eqb_refl. reflexivity. }
  cbv zeta.
  rewrite (bind_step _ _ db tt _ (Rule_save_statistics id _ rule db Hfind)).
  reflexivity.
Qed.

(** C5: the gate of [getRuleById] on a paid rule. An anonymous requester
    is shown the fixed login placeholder, whatever the query; the holder of
    an active Purchase is shown the whole query; every other authenticated
    requester is shown the first 150 characters followed by the purchase
    marker, and that includes the rule's own author, for whom the source
    has no test. *)
Theorem getRuleById_content_gate :
  forall id db rule,
    find (fun r => N.eqb (Rule._id r) id) (rules db) = Some rule ->
    Rule.isPaid (Rule.pricing rule) = true ->
    (Rule.visibility rule <> Rule.PRIVATE ->
     shownQuery (ruleController.getRuleById None id db)
     = Some ruleController.loginPlaceholder) /\
    (forall user,
        (Rule.visibility rule = Rule.PRIVATE -> Rule.author rule = User._id user) ->
        existsb (activePurchaseOf (User._id user) id) (purchases db) = true ->
        shownQuery (ruleController.getRuleById (Some user) id db)
        = Some (Rule.query (Rule.ruleContent rule))) /\
    (forall user,
        Rule.author rule = User._id user ->
        existsb (activePurchaseOf (User._id user) id) (purchases db) = false ->
        shownQuery (ruleController.getRuleById (Some user) id db)
        = Some (JS.substring0 150 (Rule.query (Rule.ruleContent rule))
                ++ ruleController.purchaseMarker)) /\
    (forall user,
        Rule.visibility rule <> Rule.PRIVATE ->
        Rule.author rule <> User._id user ->
        existsb (activePurchaseOf (User._id user) id) (purchases db) = false ->
        shownQuery (ruleController.getRuleById (Some user) id db)
        = Some (JS.substring0 150 (Rule.query (Rule.ruleContent rule))
                ++ ruleController.purchaseMarker)) /\
    (String.length (JS.substring0 150 (Rule.query (Rule.ruleContent rule))) <= 150)%nat /\
    String.prefix (JS.substring0 150 (Rule.query (Rule.ruleContent rule)))
                  (Rule.query (Rule.ruleContent rule)) = true.
Proof.
  intros id db rule Hfind Hpaid.
  pose proof (found_id Rule._id id rule _ Hfind) as Hid.
  assert (Hpaid' : Rule.isPaid (Rule.pricing (viewed (Rule.hydrate rule))) = true)
    by exact Hpaid.
  assert (Hshown : forall user,
             (Rule.visibility rule = Rule.PRIVATE ->
              exists u, user = Some u /\ Rule.author rule = User._id u) ->
             shownQuery (ruleController.getRuleById user id db)
             = match user with
               | None => Some ruleController.loginPlaceholder
               | Some u =>
                   if existsb (activePurchaseOf (User._id u) id) (purchases db)
                   then Some (Rule.query (Rule.ruleContent rule))
                   else Some (JS.substring0 150 (Rule.query (Rule.ruleContent rule))
                              ++ ruleController.purchaseMarker)
               end).
  { intros user Hvisible.
    rewrite (getRuleById_found user id db rule Hfind Hvisible).
    rewrite (mask_paid 150 user (viewed (Rule.hydrate rule)) _ Hpaid').
    cbn [purchases setRules Rule._id viewed Rule.setStatistics Rule.hydrate].
    rewrite Hid.
    destruct user as [u |]; [| reflexivity].
    destruct (existsb _ (purchases db)); reflexivity. }
  split; [| split; [| split; [| split; [| split]]]].
  - intro Hpublic. apply (Hshown None). intro Hprivate. contradiction.
  - intros user Hvisible Hbought.
    rewrite (Hshown (Some user)), Hbought; [reflexivity |].
    intro Hprivate. exists user. split; [reflexivity | exact (Hvisible Hprivate)].
  - intros user Howner Hnone.
    rewrite (Hshown (Some user)), Hnone; [reflexivity |].
    intros _. exists user. split; [reflexivity | exact Howner].
  - intros user Hpublic _ Hnone.
    rewrite (Hshown (Some user)), Hnone; [reflexivity |].
    intro Hprivate. contradiction.
  - apply substring0_length.
  - apply substring0_prefix.
Qed.

(** bob, the author of the paid rule 10, opens his own rule: he is shown 150
    characters of its 195 and the purchase marker. *)
Lemma getRuleById_content_gate_witness :
  shownQuery (ruleController.getRuleById (Some Sample.bob) 10 Sample.emptyStore)
  = Some (JS.substring0 150 Sample.longQuery ++ ruleController.purchaseMarker).
Proof.
  apply (proj1 (proj2 (proj2 (getRuleById_content_gate 10%N Sample.emptyStore
                                Sample.schemaRule eq_refl eq_refl)))
           Sample.bob);
    reflexivity.
Defined.

(** The download route, for comparison, tests ownership first: the author
    of a rule is handed its whole content. *)
Lemma download_releases_to_owner (user : User.t) (id : ObjectId) (now : Z)
    (db : Store) (rule : Rule.t) :
  find (fun r => N.eqb (Rule._id r) id) (rules db) = Some rule ->
  Rule.author rule = User._id user ->
  fst (ruleController.download user id now db) = inr (Rule.ruleContent rule).
Proof.
  intros Hfind Howner. unfold ruleController.download.
  rewrite (bind_step _ _ db _ db (Rule_findById_found _ _ _ Hfind)).
  rewrite (bind_step _ _ db (Rule.hydrate rule) db) by reflexivity.
  cbv zeta. cbn [Rule.author Rule.hydrate].
  rewrite Howner, N.eqb_refl, andb_false_r.
  reflexivity.
Qed.

(** The listing masks the same way, on the first 100 characters. *)
Lemma getRules_masks_owner :
  map (fun r => Rule.query (Rule.ruleContent r))
      match fst (ruleController.maskedRules (Some Sample.bob) [Sample.schemaRule]
                   Sample.emptyStore) with
      | inr shown => shown
      | inl _ => []
      end
  = [JS.substring0 100 Sample.longQuery ++ ruleController.purchaseMarker] /\
  fst (ruleController.download Sample.bob 10 7 Sample.emptyStore)
  = inr {| Rule.query := Sample.longQuery |}.
Proof. vm_compute. split; reflexivity. Qed.

(** The two ages of the specification's example: a request 31 days after
    the sale is rejected with the window message. *)
Lemma requestRefund_spec_witness :
  transactionController.requestRefund Sample.alice 50 (Some "does not parse")
    (31 * Sample.day) (Sample.soldStore 11 Transaction.COMPLETED)
  = (inl (errors.badRequest "Refund requests can only be made within 30 days"),
     Sample.soldStore 11 Transaction.COMPLETED).
Proof.
  apply (proj1 (proj2 (proj2
           (requestRefund_spec Sample.alice 50%N (Some "does not parse")
              (31 * Sample.day)
              (Sample.soldStore 11 Transaction.COMPLETED)
              (Sample.saleOf 11 Transaction.COMPLETED)
              eq_refl eq_refl))));
    reflexivity.
Defined.

(** And 10 days after the sale it goes through and stores DISPUTED. *)
Lemma requestRefund_ten_days :
  option_map Transaction.status
    (find (fun x => N.eqb (Transaction._id x) 50)
       (transactions
          (snd (transactionController.requestRefund Sample.alice 50
                  (Some "does not parse") (10 * Sample.day)
                  (Sample.soldStore 11 Transaction.COMPLETED)))))
  = Some Transaction.DISPUTED.
Proof. vm_compute. reflexivity. Qed.

(** The quotient of the source is a binary64 division; at the edge of the
    window it decides as the exact quotient does. *)
Lemma daysSince_binary64_edge :
  (30 <? 2592000001 / (1000 * 60 * 60 * 24))%float = true /\
  (30 <? 2592000000 / (1000 * 60 * 60 * 24))%float = false.
Proof. vm_compute. split; reflexivity. Qed.

(* ================================================================== *)
(** * Further facts about lists of documents *)

Lemma find_app_none {A : Type} (f : A -> bool) (l l' : list A) :
  find f l = None -> find f (l ++ l') = find f l'.
Proof.
  induction l as [| y l IH]; simpl; intro H; [reflexivity |].
  destruct (f y); [discriminate | auto].
Qed.

Lemma find_app_some {A : Type} (f : A -> bool) (l l' : list A) (y : A) :
  find f l = Some y -> find f (l ++ l') = Some y.
Proof.
  induction l as [| z l IH]; simpl; intro H; [discriminate |].
  destruct (f z); auto.
Qed.

(* ================================================================== *)
(** * The ledger of transactions *)

Lemma keepsTransactions_refl db : keepsTransactions db db.
Proof. reflexivity. Qed.

Lemma keepsTransactions_trans a b c :
  keepsTransactions a b -> keepsTransactions b c -> keepsTransactions a c.
Proof. unfold keepsTransactions. congruence. Qed.

Ltac unfold_more_models :=
  unfold User_findByIdAndUpdate_role, User_findById, Rule_insert.

Ltac frame_transactions :=
  unfold_more_models;
  frame_with keepsTransactions_refl keepsTransactions_trans ltac:(reflexivity).

Lemma mask_keepsTransactions n user rule :
  preserves keepsTransactions (ruleController.mask n user rule).
Proof. unfold ruleController.mask. frame_transactions. Qed.

Lemma maskedRules_keepsTransactions user found :
  preserves keepsTransactions (ruleController.maskedRules user found).
Proof.
  induction found as [| rule rest IH]; simpl.
  - apply (preserves_ret _ keepsTransactions_refl).
  - apply (preserves_bind _ keepsTransactions_trans);
      [apply mask_keepsTransactions |].
    intro r. apply (preserves_bind _ keepsTransactions_trans); [exact IH |].
    intro rs. apply (preserves_ret _ keepsTransactions_refl).
Qed.

Lemma statusStep_refl s : statusStep s s = true.
Proof. destruct s; reflexivity. Qed.

Lemma sameSale_refl x : sameSale statusStep x x.
Proof. split; [reflexivity | apply statusStep_refl]. Qed.

Lemma Forall2_sameSale_refl l : Forall2 (sameSale statusStep) l l.
Proof. induction l; constructor; auto using sameSale_refl. Qed.

Lemma ledger_kept db db' :
  keepsTransactions db db' -> ledgerEvolves statusStep db db'.
Proof.
  intro H. exists (transactions db), []. rewrite H, app_nil_r.
  repeat split; [apply Forall2_sameSale_refl | constructor].
Qed.

Lemma ledger_saved (l : list Transaction.t) (i : ObjectId)
    (tx tx' : Transaction.t) :
  find (fun y => N.eqb (Transaction._id y) i) l = Some tx ->
  sameSale statusStep tx tx' ->
  Forall2 (sameSale statusStep) l
    (replaceBy (fun y => N.eqb (Transaction._id y) i) tx' l).
Proof.
  unfold replaceBy.
  induction l as [| z l IH]; simpl; intros Hfind Hs.
  - constructor.
  - destruct (N.eqb (Transaction._id z) i).
    + inversion Hfind; subst. constructor; [exact Hs | apply Forall2_sameSale_refl].
    + constructor; [apply sameSale_refl | apply IH; assumption].
Qed.

(** What [purchaseRule] does to the ledger: nothing. *)
Lemma purchaseRule_ledger user ruleId pm r1 r2 now db :
  ledgerEvolves statusStep db
    (snd (transactionController.purchaseRule user ruleId pm r1 r2 now db)).
Proof. rewrite purchaseRule_rejected. apply ledger_kept. reflexivity. Qed.

Ltac saved_transaction :=
  eexists _, []; rewrite app_nil_r; simpl; repeat split; [| constructor];
  match goal with
  | H : find _ (transactions _) = Some ?tx |- _ =>
      rewrite <- (found_id _ _ _ _ H) in H;
      apply (ledger_saved _ _ tx); [exact H |]
  end;
  split; [reflexivity | simpl];
  repeat match goal with
         | H : negb _ = false |- _ => apply negb_false_iff in H
         end;
  match goal with
  | H : Transaction.Status_eqb _ _ = true |- _ =>
      apply Status_eqb_eq in H; rewrite H; reflexivity
  end.

Lemma requestRefund_ledger user id reason now db :
  ledgerEvolves statusStep db
    (snd (transactionController.requestRefund user id reason now db)).
Proof.
  unfold transactionController.requestRefund. run_handler.
  all: try (apply ledger_kept; reflexivity).
  all: saved_transaction.
Qed.

Lemma processRefund_ledger id approved db :
  ledgerEvolves statusStep db
    (snd (transactionController.processRefund id approved db)).
Proof.
  unfold transactionController.processRefund. run_handler.
  all: try (apply ledger_kept; reflexivity).
  all: saved_transaction.
Qed.

Lemma serve_keepsTransactions_others rq db :
  match rq with
  | PurchaseRule _ _ _ _ _ _ | RequestRefund _ _ _ _ | ProcessRefund _ _ => True
  | _ => keepsTransactions db (serve rq db)
  end.
Proof.
  destruct rq; simpl; try exact I.
  - revert db. change (preserves keepsTransactions
      (reviewController.createReview user ruleId rating comment)).
    unfold reviewController.createReview. frame_transactions.
  - revert db. change (preserves keepsTransactions
      (reviewController.updateReview user id rating comment)).
    unfold reviewController.updateReview. frame_transactions.
  - revert db. change (preserves keepsTransactions
      (reviewController.deleteReview user id)).
    unfold reviewController.deleteReview. frame_transactions.
  - revert db. change (preserves keepsTransactions
      (reviewController.markHelpful user id helpful)).
    unfold reviewController.markHelpful. frame_transactions.
  - apply maskedRules_keepsTransactions.
  - revert db. change (preserves keepsTransactions
      (ruleController.getRuleById user id)).
    unfold ruleController.getRuleById. frame_transactions.
    apply mask_keepsTransactions.
  - revert db. change (preserves keepsTransactions
      (ruleController.download user id now)).
    unfold ruleController.download. frame_transactions.
Qed.

Lemma manage_keepsTransactions rq db : keepsTransactions db (manage rq db).
Proof.
  destruct rq; simpl.
  - revert db. change (preserves keepsTransactions
      (ruleManagement.deleteRule user id)).
    unfold ruleManagement.deleteRule. frame_transactions.
  - revert db. change (preserves keepsTransactions
      (ruleManagement.forkRule user id)).
    unfold ruleManagement.forkRule. frame_transactions.
  - revert db. change (preserves keepsTransactions
      (adminController.moderateRule ruleId approved)).
    unfold adminController.moderateRule. frame_transactions.
  - revert db. change (preserves keepsTransactions
      (adminController.reviewModerationAction reviewId action)).
    unfold adminController.reviewModerationAction. frame_transactions.
  - revert db. change (preserves keepsTransactions
      (adminController.updateUserRole userId role)).
    unfold adminController.updateUserRole. frame_transactions.
Qed.

Lemma serve_ledger rq db : ledgerEvolves statusStep db (serve rq db).
Proof.
  pose proof (serve_keepsTransactions_others rq db) as H.
  destruct rq; try (apply ledger_kept; exact H); simpl.
  - apply purchaseRule_ledger.
  - apply requestRefund_ledger.
  - apply processRefund_ledger.
Qed.

(** X4. Whatever the request, of the transaction, review, rule or admin
    controllers, the transactions on record stay the same sales, in the same
    order: _id, buyer, seller, rule, amount, currency, payment method,
    payment intent, platformFee, sellerEarnings and createdAt never change,
    and the status makes at most one move of the refund workflow
    (COMPLETED to DISPUTED, DISPUTED to REFUNDED or back to COMPLETED); what
    a request adds to the ledger are new sales, each between two different
    accounts. *)
Theorem requests_keep_sales_and_follow_refund_workflow :
  (forall rq db, ledgerEvolves statusStep db (serve rq db)) /\
  (forall rq db, ledgerEvolves statusStep db (manage rq db)).
Proof.
  split; intros rq db.
  - apply serve_ledger.
  - apply ledger_kept. apply manage_keepsTransactions.
Qed.

Lemma statusReach_refl s : statusReach s s = true.
Proof. destruct s; reflexivity. Qed.

Lemma statusReach_step a b c :
  statusReach a b = true -> statusStep b c = true -> statusReach a c = true.
Proof. destruct a, b, c; cbv; intros; congruence. Qed.

Lemma Forall2_sameSale_step l1 l2 l3 :
  Forall2 (sameSale statusReach) l1 l2 ->
  Forall2 (sameSale statusStep) l2 l3 ->
  Forall2 (sameSale statusReach) l1 l3.
Proof.
  intro H. revert l3. induction H as [| x y l1 l2 [Hk Hs] _ IH]; intros l3 H3.
  - inversion H3. constructor.
  - inversion H3 as [| y' z l2' l3' [Hk' Hs'] Hrest]; subst.
    constructor; [| apply IH; exact Hrest].
    split; [congruence | exact (statusReach_step _ _ _ Hs Hs')].
Qed.

Lemma ledgerEvolves_step db0 db db' :
  ledgerEvolves statusReach db0 db -> ledgerEvolves statusStep db db' ->
  ledgerEvolves statusReach db0 db'.
Proof.
  intros (old & added & Hdb & Hold & Hadded) (old' & added' & Hdb' & Hold' & Hadded').
  rewrite Hdb in Hold'.
  apply Forall2_app_inv_l in Hold'.
  destruct Hold' as (o1 & o2 & Ho1 & Ho2 & ->).
  exists o1, (o2 ++ added')%list. repeat split.
  - rewrite Hdb', app_assoc. reflexivity.
  - exact (Forall2_sameSale_step _ _ _ Hold Ho1).
  - apply Forall_app. split.
    + clear - Hadded Ho2. induction Ho2 as [| x y l l' [Hk Hs] _ IH].
      * constructor.
      * inversion Hadded as [| ? ? [Hc Hne] Hrest]; subst.
        constructor; [| exact (IH Hrest)]. split.
        -- exact (statusReach_step _ _ _ Hc Hs).
        -- unfold saleOfRecord in Hk. injection Hk as _ Hb Hsl _ _ _ _ _ _ _ _.
           congruence.
    + eapply Forall_impl; [| exact Hadded'].
      intros x [Hc Hne]. split; [| exact Hne].
      exact (statusReach_step _ _ _ (statusReach_refl _) Hc).
Qed.

Lemma reachableAll_ledger db0 db :
  reachableAll db0 db -> ledgerEvolves statusReach db0 db.
Proof.
  induction 1 as [| db rq _ IH | db rq _ IH].
  - exists (transactions db0), []. rewrite app_nil_r. repeat split.
    + induction (transactions db0); constructor; auto.
      split; [reflexivity | apply statusReach_refl].
    + constructor.
  - exact (ledgerEvolves_step _ _ _ IH (serve_ledger rq db)).
  - apply (ledgerEvolves_step _ _ _ IH).
    apply ledger_kept. apply manage_keepsTransactions.
Qed.

Lemma ledgerEvolves_armsLength step db db' :
  ledgerEvolves step db db' -> armsLength db -> armsLength db'.
Proof.
  intros (old & added & Hdb & Hold & Hadded) Harms.
  unfold armsLength in *. rewrite Hdb. apply Forall_app. split.
  - clear - Hold Harms. induction Hold as [| x y l l' [Hk _] _ IH].
    + constructor.
    + inversion Harms as [| ? ? Hne Hrest]; subst.
      constructor; [| exact (IH Hrest)].
      unfold saleOfRecord in Hk. injection Hk as _ Hb Hsl _ _ _ _ _ _ _ _.
      congruence.
  - eapply Forall_impl; [| exact Hadded]. intros x [_ Hne]. exact Hne.
Qed.

(** X5. Across any sequence of requests served one after the other: every
    transaction of the starting database is still on record, at the same
    place and with the same parties and amounts, in a status the refund
    workflow leads to from the one it had, where PENDING, FAILED and
    REFUNDED lead nowhere else; and when no transaction had its buyer for
    seller at the start, none has afterwards. *)
Theorem ledger_across_requests :
  forall db0 db,
    reachableAll db0 db ->
    ledgerEvolves statusReach db0 db /\
    (armsLength db0 -> armsLength db) /\
    (forall i x,
        nth_error (transactions db0) i = Some x ->
        In (Transaction.status x)
           [Transaction.PENDING; Transaction.FAILED; Transaction.REFUNDED] ->
        exists x', nth_error (transactions db) i = Some x' /\
                   saleOfRecord x' = saleOfRecord x /\
                   Transaction.status x' = Transaction.status x).
Proof.
  intros db0 db Hreach.
  pose proof (reachableAll_ledger db0 db Hreach) as Hledger.
  split; [exact Hledger | split].
  - exact (ledgerEvolves_armsLength _ _ _ Hledger).
  - destruct Hledger as (old & added & Hdb & Hold & _).
    intros i x Hi Hfinal. rewrite Hdb.
    clear Hdb Hreach. revert i Hi.
    induction Hold as [| y y' l l' [Hk Hs] _ IH]; intros i Hi.
    + destruct i; discriminate.
    + destruct i as [| i]; simpl in *.
      * inversion Hi; subst. exists y'. repeat split; [exact Hk |].
        destruct (Transaction.status x), (Transaction.status y');
          simpl in Hs, Hfinal; try reflexivity; try discriminate;
          intuition discriminate.
      * exact (IH i Hi).
Qed.

Lemma ledger_across_requests_witness :
  armsLength
    (manage (ModerateRule 11 true)
       (serve (RequestRefund Sample.alice 50 (Some "not as described")
                             (10 * Sample.day))
              (Sample.soldStore 11 Transaction.COMPLETED))).
Proof.
  apply (ledger_across_requests (Sample.soldStore 11 Transaction.COMPLETED)).
  - apply reachableAll_manage, reachableAll_serve, reachableAll_start.
  - repeat constructor. simpl. discriminate.
Defined.

(* ================================================================== *)
(** * No sale is ever recorded (C1) *)

Ltac saved_sale :=
  match goal with
  | H : find (fun x => N.eqb (Transaction._id x) ?id) (transactions _) = Some ?y
    |- _ =>
      apply (replaceBy_found_map Transaction._id _ id y);
      [exact H | | reflexivity];
      exact (found_id Transaction._id id y _ H)
  end.

(** The sales on record are those of before, one for one: a request
    changes at most the status and the metadata of one of them. *)
Lemma serve_keeps_sales rq db :
  map saleOfRecord (transactions (serve rq db))
  = map saleOfRecord (transactions db).
Proof.
  pose proof (serve_keepsTransactions_others rq db) as H.
  destruct rq; try (rewrite H; reflexivity); simpl.
  - rewrite purchaseRule_rejected. reflexivity.
  - unfold transactionController.requestRefund. run_handler.
    all: cbn [transactions setTransactions setNotifications];
      try reflexivity; saved_sale.
  - unfold transactionController.processRefund. run_handler.
    all: cbn [transactions setTransactions setNotifications setUsers];
      try reflexivity; saved_sale.
Qed.

(** C1: what the code does. The fee split of the claim is never stored,
    because no sale is: [purchaseRule] on a rule on record, whatever its
    pricing (and so on a rule the schema marks as paid, at a positive
    price), is rejected with "This rule is not for sale" before lines 153
    to 156 compute a fee, and writes nothing; and through every sequence
    of requests the sales on record stay those of the start, with the
    amounts, fees and earnings they had. *)
Theorem purchaseRule_records_no_sale :
  forall db user ruleId paymentMethodId randomHex1 randomHex2 now rule,
    find (fun r => N.eqb (Rule._id r) ruleId) (rules db) = Some rule ->
    transactionController.purchaseRule
      user ruleId paymentMethodId randomHex1 randomHex2 now db
    = (inl (errors.badRequest "This rule is not for sale"), db) /\
    forall db',
      reachable db db' ->
      map saleOfRecord (transactions db') = map saleOfRecord (transactions db).
Proof.
  intros db user ruleId pm r1 r2 now rule Hrule. split.
  - rewrite purchaseRule_rejected, Hrule. reflexivity.
  - intros db' Hreach. induction Hreach as [| db1 rq _ IH].
    + reflexivity.
    + rewrite <- IH. apply serve_keeps_sales.
Qed.

(** alice's purchase of rule 10, paid and priced 4.8: rejected, and no
    Transaction is on record afterwards. *)
Lemma purchaseRule_records_no_sale_witness :
  Rule.isPaid (Rule.pricing Sample.schemaRule) = true /\
  (0 <? Rule.price (Rule.pricing Sample.schemaRule))%float = true /\
  transactionController.purchaseRule Sample.alice 10 None "a1" "b2" 5
    Sample.emptyStore
  = (inl (errors.badRequest "This rule is not for sale"), Sample.emptyStore) /\
  map saleOfRecord
      (transactions (serve (PurchaseRule Sample.alice 10 None "a1" "b2" 5)
                           Sample.emptyStore))
  = [].
Proof.
  split; [reflexivity | split; [reflexivity |]].
  destruct (purchaseRule_records_no_sale Sample.emptyStore Sample.alice 10 None
              "a1" "b2" 5 Sample.schemaRule eq_refl) as [Hrejected Hsales].
  split; [exact Hrejected |].
  apply (Hsales (serve (PurchaseRule Sample.alice 10 None "a1" "b2" 5)
                       Sample.emptyStore)).
  apply reachable_serve, reachable_start.
Defined.

(** The arithmetic of lines 153 to 156, which no request reaches: the
    amount times 0.1 and the amount minus that product, neither rounded.
    At 4.8 they are 0.48 and 4.32, where the specification's [split] has
    the fee round(0.48) = 0, and they add up to 4.800000000000001; rounding
    to the cent gives the same two numbers. *)
Remark fee_lines_do_not_round :
  (Sample.price * transactionController.platformFeePercent
   =? fst (Spec.split Sample.price))%float = false /\
  (Sample.price * transactionController.platformFeePercent
   + (Sample.price - Sample.price * transactionController.platformFeePercent)
   =? Sample.price)%float = false /\
  Spec.splitCents Sample.price
  = ((Sample.price * transactionController.platformFeePercent)%float,
     (Sample.price - Sample.price * transactionController.platformFeePercent)%float).
Proof. vm_compute. repeat split; reflexivity. Qed.

(* ================================================================== *)
(** * Reading the ledger *)

(** X8. [getTransaction] writes nothing. Where the accounts of the buyer
    and of the seller exist, it hands the transaction to the buyer, to the
    seller and to an ADMIN, and answers anyone else, a MODERATOR included,
    with "You do not have access to this transaction". Where the account of
    the buyer is gone, the populated [buyer] is [null] and the request of
    anyone, the seller and an ADMIN included, ends in a TypeError. *)
Theorem getTransaction_access :
  forall db user id tx,
    find (fun x => N.eqb (Transaction._id x) id) (transactions db) = Some tx ->
    let out := transactionReports.getTransaction user id db in
    snd out = db /\
    (forall b s,
        find (fun u => N.eqb (User._id u) (Transaction.buyer tx)) (users db)
        = Some b ->
        find (fun u => N.eqb (User._id u) (Transaction.seller tx)) (users db)
        = Some s ->
        if N.eqb (Transaction.buyer tx) (User._id user) ||
           N.eqb (Transaction.seller tx) (User._id user) ||
           User.isAdmin (User.role user)
        then exists r, fst out = inr r /\
                       transactionReports.transaction r = tx /\
                       transactionReports.buyer r = Some b /\
                       transactionReports.seller r = Some s
        else fst out
             = inl (errors.forbidden "You do not have access to this transaction")) /\
    (find (fun u => N.eqb (User._id u) (Transaction.buyer tx)) (users db) = None ->
     fst out = inl (TypeError "_id")).
Proof.
  intros db user id tx Htx out. subst out.
  unfold transactionReports.getTransaction, User_findById. unfold_handler.
  rewrite Htx. simpl. split; [| split].
  - repeat (case_innermost; cbn [fst snd]); reflexivity.
  - intros b s Hb Hs. rewrite Hb, Hs. simpl.
    rewrite (found_id _ _ _ _ Hb), (found_id _ _ _ _ Hs).
    destruct (N.eqb (Transaction.buyer tx) (User._id user)); simpl.
    + eexists. repeat split.
    + destruct (N.eqb (Transaction.seller tx) (User._id user)); simpl.
      * eexists. repeat split.
      * destruct (User.isAdmin (User.role user)); simpl.
        -- eexists. repeat split.
        -- reflexivity.
  - intro Hb. rewrite Hb. reflexivity.
Qed.

Lemma getTransaction_access_witness :
  fst (transactionReports.getTransaction Cases.erin 50
         (Sample.soldStore 11 Transaction.COMPLETED))
  = inl (errors.forbidden "You do not have access to this transaction").
Proof.
  exact (proj1 (proj2
    (getTransaction_access (Sample.soldStore 11 Transaction.COMPLETED)
       Cases.erin 50 (Sample.saleOf 11 Transaction.COMPLETED) eq_refl))
    Sample.alice Sample.bob eq_refl eq_refl).
Defined.


Lemma filter_length_le {A : Type} (f g : A -> bool) (l : list A) :
  (forall x, f x = true -> g x = true) ->
  (List.length (filter f l) <= List.length (filter g l))%nat.
Proof.
  intro H. induction l as [| x l IH]; simpl; [lia |].
  destruct (f x) eqn:Ef.
  - rewrite (H x Ef). simpl. lia.
  - destruct (g x); simpl; lia.
Qed.

Lemma filter_length_ext {A : Type} (f g : A -> bool) (l : list A) :
  (forall x, f x = g x) -> List.length (filter f l) = List.length (filter g l).
Proof.
  intro H. induction l as [| x l IH]; simpl; [reflexivity |].
  rewrite (H x). destruct (g x); simpl; congruence.
Qed.

Lemma filter_length_disjoint {A : Type} (f g : A -> bool) (l : list A) :
  Forall (fun x => f x && g x = false) l ->
  List.length (filter (fun x => f x || g x) l)
  = (List.length (filter f l) + List.length (filter g l))%nat.
Proof.
  induction 1 as [| x l Hx _ IH]; simpl; [reflexivity |].
  destruct (f x), (g x); simpl in *; try discriminate; lia.
Qed.

(** X9. The total [getMyTransactions] reports: a [type] other than
    "purchases" and "sales" counts as "all", the default; and where no
    transaction has its buyer for seller (which the requests keep so),
    the total for "all" is the total for "purchases" plus the total for
    "sales". *)
Theorem getMyTransactions_totals :
  forall db user,
    (forall type,
        type <> Some "purchases" -> type <> Some "sales" ->
        transactionReports.getMyTransactions_total user type db
        = transactionReports.getMyTransactions_total user None db) /\
    (armsLength db ->
     exists p s,
       transactionReports.getMyTransactions_total user (Some "purchases") db
       = (inr p, db) /\
       transactionReports.getMyTransactions_total user (Some "sales") db
       = (inr s, db) /\
       transactionReports.getMyTransactions_total user None db
       = (inr (p + s), db)).
Proof.
  intros db user. split.
  - intros type Hp Hs.
    unfold transactionReports.getMyTransactions_total,
      transactionReports.Transaction_countDocuments, read.
    do 3 f_equal. apply filter_length_ext. intro x.
    unfold transactionReports.myTransactions.
    destruct type as [t |]; [| reflexivity].
    destruct (String.eqb t "purchases") eqn:E1.
    { apply String.eqb_eq in E1. congruence. }
    destruct (String.eqb t "sales") eqn:E2.
    { apply String.eqb_eq in E2. congruence. }
    reflexivity.
  - intro Harms. eexists _, _. split; [reflexivity | split; [reflexivity |]].
    unfold transactionReports.getMyTransactions_total,
      transactionReports.Transaction_countDocuments, read.
    do 2 f_equal. rewrite <- Nat2Z.inj_add. f_equal.
    unfold transactionReports.myTransactions. simpl.
    apply filter_length_disjoint.
    eapply Forall_impl; [| exact Harms].
    intros x Hne. simpl in Hne.
    destruct (N.eqb (Transaction.buyer x) (User._id user)) eqn:Eb;
      destruct (N.eqb (Transaction.seller x) (User._id user)) eqn:Es;
      try reflexivity.
    apply N.eqb_eq in Eb, Es. congruence.
Qed.

Lemma getMyTransactions_totals_witness :
  exists p s,
    transactionReports.getMyTransactions_total Sample.bob (Some "purchases")
      (Sample.soldStore 11 Transaction.COMPLETED)
    = (inr p, Sample.soldStore 11 Transaction.COMPLETED) /\
    transactionReports.getMyTransactions_total Sample.bob (Some "sales")
      (Sample.soldStore 11 Transaction.COMPLETED)
    = (inr s, Sample.soldStore 11 Transaction.COMPLETED) /\
    transactionReports.getMyTransactions_total Sample.bob None
      (Sample.soldStore 11 Transaction.COMPLETED)
    = (inr (p + s), Sample.soldStore 11 Transaction.COMPLETED).
Proof.
  apply (getMyTransactions_totals (Sample.soldStore 11 Transaction.COMPLETED)).
  repeat constructor. simpl. discriminate.
Defined.


Lemma totalCount_app g h : totalCount (g ++ h) = totalCount g + totalCount h.
Proof.
  unfold totalCount. induction g as [| x g IH]; simpl; [reflexivity |].
  rewrite IH. lia.
Qed.

Lemma methods_partition (l : list Transaction.t) :
  (List.length (filter (fun x => PaymentMethod_eqb (Transaction.paymentMethod x)
                                                   Transaction.STRIPE) l)
   + (List.length (filter (fun x => PaymentMethod_eqb (Transaction.paymentMethod x)
                                                      Transaction.PAYPAL) l)
   + (List.length (filter (fun x => PaymentMethod_eqb (Transaction.paymentMethod x)
                                                      Transaction.CRYPTO) l)
   + List.length (filter (fun x => PaymentMethod_eqb (Transaction.paymentMethod x)
                                                     Transaction.CREDITS) l))))%nat
  = List.length l.
Proof.
  induction l as [| x l IH]; simpl; [reflexivity |].
  destruct (Transaction.paymentMethod x); simpl; lia.
Qed.

Section Statistics.

Variable sum : list JS.Number -> JS.Number.

Lemma group_totalCount (m : Transaction.PaymentMethod) (g : list Transaction.t) :
  totalCount
    match g with
    | [] => []
    | _ => [{| transactionReports.method := m;
               transactionReports.count := Z.of_nat (List.length g);
               transactionReports.totalAmount := sum (map Transaction.amount g) |}]
    end
  = Z.of_nat (List.length g).
Proof. destruct g; unfold totalCount; simpl; lia. Qed.

Lemma groupByMethod_totalCount (matched : list Transaction.t) :
  totalCount (transactionReports.groupByMethod sum matched)
  = Z.of_nat (List.length matched).
Proof.
  unfold transactionReports.groupByMethod. cbn [flat_map]. cbv zeta.
  rewrite !totalCount_app, !group_totalCount.
  pose proof (methods_partition matched) as H.
  unfold totalCount. simpl. lia.
Qed.

Lemma groupByMethod_positive (matched : list Transaction.t) :
  Forall (fun g => 0 < transactionReports.count g)
         (transactionReports.groupByMethod sum matched).
Proof.
  unfold transactionReports.groupByMethod. cbn [flat_map]. cbv zeta.
  repeat (apply Forall_app; split); try constructor.
  all: match goal with
       | |- Forall _ (match ?g with _ => _ end) => destruct g
       end; repeat constructor; simpl; lia.
Qed.

Lemma getPlatformStats_runs period now db :
  exists r,
    transactionReports.getPlatformStats sum period now db = (inr r, db) /\
    transactionReports.transactionCount (transactionReports.overview r)
    = completedCount
        (transactionReports.dateFilter
           (match period with Some p => p | None => "month" end) now) db /\
    transactionReports.paymentMethodStats r
    = transactionReports.groupByMethod sum
        (filter (transactionReports.completedSince
                   (transactionReports.dateFilter
                      (match period with Some p => p | None => "month" end) now))
                (transactions db)).
Proof.
  unfold transactionReports.getPlatformStats. unfold_handler.
  eexists. split; [reflexivity |]. simpl. split; [| reflexivity].
  unfold completedCount, transactionReports.groupAll.
  destruct (filter _ (transactions db)); reflexivity.
Qed.

Lemma reportedCount_completedCount period now db :
  reportedCount sum period now db
  = completedCount
      (transactionReports.dateFilter
         (match period with Some p => p | None => "month" end) now) db.
Proof.
  unfold reportedCount.
  destruct (getPlatformStats_runs period now db) as (r & Hr & Hc & _).
  rewrite Hr. exact Hc.
Qed.

End Statistics.

(** X10. [getPlatformStats] always resolves and writes nothing; the
    [transactionCount] of its overview is the number of COMPLETED
    transactions created at or after [dateFilter]; the counts of
    [paymentMethodStats], one group per payment method in use, each counting
    at least one sale, add up to it; and when no transaction matches, the
    overview is the all-zero object and there is no group. *)
Theorem getPlatformStats_counts :
  forall sum period now db,
    exists r,
      transactionReports.getPlatformStats sum period now db = (inr r, db) /\
      transactionReports.transactionCount (transactionReports.overview r)
      = completedCount
          (transactionReports.dateFilter
             (match period with Some p => p | None => "month" end) now) db /\
      totalCount (transactionReports.paymentMethodStats r)
      = transactionReports.transactionCount (transactionReports.overview r) /\
      Forall (fun g => 0 < transactionReports.count g)
             (transactionReports.paymentMethodStats r) /\
      (transactionReports.transactionCount (transactionReports.overview r) = 0 ->
       transactionReports.overview r
       = {| transactionReports.totalRevenue := 0%float;
            transactionReports.totalPlatformFees := 0%float;
            transactionReports.totalSellerEarnings := 0%float;
            transactionReports.transactionCount := 0 |} /\
       transactionReports.paymentMethodStats r = []).
Proof.
  intros sum period now db.
  destruct (getPlatformStats_runs sum period now db) as (r & Hr & Hc & Hg).
  exists r. split; [exact Hr |]. split; [exact Hc |].
  split; [| split].
  - rewrite Hg, groupByMethod_totalCount, Hc. reflexivity.
  - rewrite Hg. apply groupByMethod_positive.
  - intro Hzero. rewrite Hc in Hzero. unfold completedCount in Hzero.
    revert Hr Hg. unfold transactionReports.getPlatformStats. unfold_handler.
    destruct (filter _ (transactions db)) as [| x l]; [| simpl in Hzero; lia].
    intro Hr. inversion Hr; subst; clear Hr. simpl. intros _.
    split; reflexivity.
Qed.


Lemma getPlatformStats_counts_witness :
  exists r,
    transactionReports.getPlatformStats Cases.sum None 0 Sample.emptyStore
    = (inr r, Sample.emptyStore) /\
    transactionReports.paymentMethodStats r = [].
Proof.
  destruct (getPlatformStats_counts Cases.sum None 0 Sample.emptyStore)
    as (r & Hr & Hc & _ & _ & Hzero).
  exists r. split; [exact Hr |].
  apply Hzero. rewrite Hc. reflexivity.
Defined.

Lemma completedCount_le (since since' : Z) (db : Store) :
  since' <= since -> completedCount since db <= completedCount since' db.
Proof.
  intro H. unfold completedCount. apply inj_le. apply filter_length_le.
  intro x. unfold transactionReports.completedSince.
  rewrite !andb_true_iff, !Z.leb_le. intros [Hs Hc]. split; [exact Hs | lia].
Qed.

(** X11. The periods of [getPlatformStats] nest: a sale counted for "week"
    is counted for "month", one counted for "month" is counted for "year",
    and, once the clock is 365 days past the epoch, one counted for "year"
    is counted for any other period, which all stand for "all time"; an
    absent period counts as "month". *)
Theorem getPlatformStats_periods :
  forall sum now db,
    reportedCount sum (Some "week") now db
    <= reportedCount sum (Some "month") now db /\
    reportedCount sum (Some "month") now db
    <= reportedCount sum (Some "year") now db /\
    reportedCount sum None now db = reportedCount sum (Some "month") now db /\
    forall period,
      period <> "week" -> period <> "month" -> period <> "year" ->
      reportedCount sum (Some period) now db
      = reportedCount sum (Some "all") now db /\
      (365 * 24 * 60 * 60 * 1000 <= now ->
       reportedCount sum (Some "year") now db
       <= reportedCount sum (Some period) now db).
Proof.
  intros sum now db. rewrite !reportedCount_completedCount.
  unfold transactionReports.dateFilter. simpl.
  split; [apply completedCount_le; lia |].
  split; [apply completedCount_le; lia |].
  split; [reflexivity |].
  intros period Hw Hm Hy. rewrite !reportedCount_completedCount.
  unfold transactionReports.dateFilter. simpl.
  destruct (String.eqb period "week") eqn:Ew.
  { apply String.eqb_eq in Ew. contradiction. }
  destruct (String.eqb period "month") eqn:Em.
  { apply String.eqb_eq in Em. contradiction. }
  destruct (String.eqb period "year") eqn:Ey.
  { apply String.eqb_eq in Ey. contradiction. }
  split; [reflexivity |].
  intro Hnow. apply completedCount_le. lia.
Qed.

Lemma getPlatformStats_periods_witness :
  reportedCount Cases.sum (Some "year") (400 * Sample.day)
    (Sample.soldStore 11 Transaction.COMPLETED)
  <= reportedCount Cases.sum (Some "ever") (400 * Sample.day)
       (Sample.soldStore 11 Transaction.COMPLETED).
Proof.
  destruct (getPlatformStats_periods Cases.sum (400 * Sample.day)
              (Sample.soldStore 11 Transaction.COMPLETED)) as (_ & _ & _ & H).
  destruct (H "ever" ltac:(discriminate) ltac:(discriminate) ltac:(discriminate))
    as [_ Hyear].
  apply Hyear. vm_compute. discriminate.
Defined.

Lemma filter_length_replaced {A : Type} (f same : A -> bool) (x' y : A)
    (l : list A) :
  find same l = Some y ->
  (List.length (filter f (replaceBy same x' l)) + (if f y then 1 else 0)
   = List.length (filter f l) + (if f x' then 1 else 0))%nat.
Proof.
  unfold replaceBy. induction l as [| z l IH]; simpl; intro Hfind.
  - discriminate.
  - destruct (same z).
    + inversion Hfind; subst. simpl.
      destruct (f y), (f x'); simpl; lia.
    + simpl. specialize (IH Hfind). destruct (f z); simpl; lia.
Qed.

(** A [requestRefund] that resolved, on the ledger. *)
Lemma requestRefund_resolved user id reason now db tx' db' :
  transactionController.requestRefund user id reason now db = (inr tx', db') ->
  exists tx,
    find (fun x => N.eqb (Transaction._id x) id) (transactions db) = Some tx /\
    Transaction.status tx = Transaction.COMPLETED /\
    Transaction.status tx' = Transaction.DISPUTED /\
    Transaction.createdAt tx' = Transaction.createdAt tx /\
    transactions db'
    = replaceBy (fun y => N.eqb (Transaction._id y) id) tx' (transactions db).
Proof.
  unfold transactionController.requestRefund. run_handler.
  all: intro H; try discriminate H.
  inversion H; subst; clear H.
  match goal with
  | Hf : find _ (transactions _) = Some ?t |- _ =>
      pose proof (found_id _ _ _ _ Hf) as Hid; exists t
  end.
  repeat match goal with
         | H : negb _ = false |- _ => apply negb_false_iff in H
         end.
  repeat split; try assumption; simpl.
  - apply Status_eqb_eq. assumption.
  - rewrite Hid. reflexivity.
Qed.

Lemma processRefund_resolved id approved db tx' db' :
  transactionController.processRefund id approved db = (inr tx', db') ->
  exists tx,
    find (fun x => N.eqb (Transaction._id x) id) (transactions db) = Some tx /\
    Transaction.status tx = Transaction.DISPUTED /\
    tx' = Transaction.setStatus
            (if approved then Transaction.REFUNDED else Transaction.COMPLETED) tx /\
    transactions db'
    = replaceBy (fun y => N.eqb (Transaction._id y) id) tx' (transactions db).
Proof.
  destruct (find (fun x => N.eqb (Transaction._id x) id) (transactions db))
    as [tx |] eqn:Hfind.
  - rewrite (processRefund_found _ _ _ _ Hfind).
    pose proof (found_id _ _ _ _ Hfind) as Hid.
    destruct (Transaction.Status_eqb (Transaction.status tx) Transaction.DISPUTED)
      eqn:Es; [| discriminate].
    apply Status_eqb_eq in Es.
    destruct approved; intro H; inversion H; subst; clear H;
      exists tx; repeat split; assumption.
  - unfold transactionController.processRefund. unfold_handler.
    rewrite Hfind. discriminate.
Qed.

(** X12. A sale counts toward the platform statistics exactly while its
    status is COMPLETED: for a transaction the period covers, a refund
    request that is accepted takes it out of [transactionCount] at once,
    before any decision; a denied refund puts it back; an approved refund
    leaves the count as the request left it. *)
Theorem refund_workflow_in_platform_stats :
  forall sum period now db,
    (forall user id reason at_ tx' db',
        transactionController.requestRefund user id reason at_ db = (inr tx', db') ->
        transactionReports.completedSince
          (transactionReports.dateFilter
             (match period with Some p => p | None => "month" end) now)
          (Transaction.setStatus Transaction.COMPLETED tx') = true ->
        reportedCount sum period now db' = reportedCount sum period now db - 1) /\
    (forall id tx' db',
        transactionController.processRefund id false db = (inr tx', db') ->
        transactionReports.completedSince
          (transactionReports.dateFilter
             (match period with Some p => p | None => "month" end) now)
          tx' = true ->
        reportedCount sum period now db' = reportedCount sum period now db + 1) /\
    (forall id tx' db',
        transactionController.processRefund id true db = (inr tx', db') ->
        reportedCount sum period now db' = reportedCount sum period now db).
Proof.
  intros sum period now db. rewrite !reportedCount_completedCount.
  set (since := transactionReports.dateFilter _ now).
  split; [| split].
  - intros user id reason at_ tx' db' H Hin.
    rewrite reportedCount_completedCount. fold since.
    apply requestRefund_resolved in H.
    destruct H as (tx & Hfind & Hc & Hd & Hat & Htxs).
    unfold completedCount. rewrite Htxs.
    pose proof (filter_length_replaced
                  (transactionReports.completedSince since) _ tx' _ _ Hfind) as Hn.
    assert (Hold : transactionReports.completedSince since tx = true).
    { unfold transactionReports.completedSince in *. simpl in Hin.
      rewrite Hc, <- Hat. exact Hin. }
    assert (Hnew : transactionReports.completedSince since tx' = false).
    { unfold transactionReports.completedSince. rewrite Hd. reflexivity. }
    rewrite Hold, Hnew in Hn. lia.
  - intros id tx' db' H Hin.
    rewrite reportedCount_completedCount. fold since.
    apply processRefund_resolved in H.
    destruct H as (tx & Hfind & Hd & -> & Htxs).
    unfold completedCount. rewrite Htxs.
    pose proof (filter_length_replaced
                  (transactionReports.completedSince since)
                  _ (Transaction.setStatus Transaction.COMPLETED tx) _ _ Hfind) as Hn.
    assert (Hold : transactionReports.completedSince since tx = false).
    { unfold transactionReports.completedSince. rewrite Hd. reflexivity. }
    rewrite Hin, Hold in Hn. lia.
  - intros id tx' db' H.
    rewrite reportedCount_completedCount. fold since.
    apply processRefund_resolved in H.
    destruct H as (tx & Hfind & Hd & -> & Htxs).
    unfold completedCount. rewrite Htxs.
    pose proof (filter_length_replaced
                  (transactionReports.completedSince since)
                  _ (Transaction.setStatus Transaction.REFUNDED tx) _ _ Hfind) as Hn.
    assert (Hold : transactionReports.completedSince since tx = false).
    { unfold transactionReports.completedSince. rewrite Hd. reflexivity. }
    assert (Hnew : transactionReports.completedSince since
                     (Transaction.setStatus Transaction.REFUNDED tx) = false).
    { reflexivity. }
    rewrite Hold, Hnew in Hn. lia.
Qed.

Lemma refund_workflow_in_platform_stats_witness :
  reportedCount Cases.sum (Some "all") (10 * Sample.day)
    (snd (transactionController.requestRefund
            Sample.alice 50 (Some "not as described") (10 * Sample.day)
            (Sample.soldStore 11 Transaction.COMPLETED)))
  = reportedCount Cases.sum (Some "all") (10 * Sample.day)
      (Sample.soldStore 11 Transaction.COMPLETED) - 1.
Proof.
  destruct (transactionController.requestRefund
              Sample.alice 50 (Some "not as described") (10 * Sample.day)
              (Sample.soldStore 11 Transaction.COMPLETED))
    as [[e | tx'] db'] eqn:H.
  - vm_compute in H. discriminate H.
  - refine (proj1 (refund_workflow_in_platform_stats
                     Cases.sum (Some "all") (10 * Sample.day)
                     (Sample.soldStore 11 Transaction.COMPLETED))
                  _ _ _ _ _ _ H _).
    vm_compute in H. injection H as <- _. reflexivity.
Defined.

(* ================================================================== *)
(** * Permissions *)

Lemma includes_In p l : includes p l = true <-> In p l.
Proof.
  unfold includes. rewrite existsb_exists. split.
  - intros (x & Hx & E). apply String.eqb_eq in E. subst. exact Hx.
  - intro H. exists p. split; [exact H | apply String.eqb_refl].
Qed.

(** X13. The roles as [hasPermission] orders them: an ADMIN holds every
    permission, whatever its name; whoever holds a permission is an ADMIN or
    has it listed for the role in the table; a VERIFIED_CONTRIBUTOR holds
    all that a USER holds; a MODERATOR does not, lacking "rule:update:own",
    "rule:delete:own" and "rule:publish"; and "rule:delete:any" and
    "rule:update:any" are held by MODERATOR and ADMIN only. *)
Theorem hasPermission_by_role :
  forall user permission,
    (User.role user = User.ADMIN -> User_hasPermission user permission = true) /\
    (User_hasPermission user permission = true ->
     User.role user = User.ADMIN \/
     In permission (rolePermissions (User.role user))) /\
    (forall contributor,
        User.role user = User.USER ->
        User.role contributor = User.VERIFIED_CONTRIBUTOR ->
        User_hasPermission user permission = true ->
        User_hasPermission contributor permission = true) /\
    (User.role user = User.MODERATOR ->
     In permission ["rule:update:own"; "rule:delete:own"; "rule:publish"] ->
     User_hasPermission user permission = false) /\
    (In permission ["rule:delete:any"; "rule:update:any"] ->
     User_hasPermission user permission
     = match User.role user with
       | User.MODERATOR | User.ADMIN => true
       | _ => false
       end).
Proof.
  intros user permission. unfold User_hasPermission.
  split; [| split; [| split; [| split]]].
  - intros ->. reflexivity.
  - intro H. apply orb_true_iff in H. destruct H as [H | H].
    + left. destruct (User.role user); simpl in H; try discriminate. reflexivity.
    + right. apply includes_In. exact H.
  - intros contributor -> ->. simpl. rewrite !orb_true_iff.
    intuition auto.
  - intros -> H. simpl in H.
    destruct H as [<- | [<- | [<- | []]]]; reflexivity.
  - intro H. simpl in H.
    destruct H as [<- | [<- | []]]; destruct (User.role user); reflexivity.
Qed.

Lemma hasPermission_by_role_witness :
  User_hasPermission Cases.erin "rule:publish" = false.
Proof.
  apply (hasPermission_by_role Cases.erin "rule:publish").
  - reflexivity.
  - simpl. auto.
Defined.

(* ================================================================== *)
(** * Deleting a rule *)

Lemma deleteRule_found user id db rule :
  find (fun r => N.eqb (Rule._id r) id) (rules db) = Some rule ->
  ruleManagement.deleteRule user id db
  = if N.eqb (Rule.author rule) (User._id user) ||
       User_hasPermission user "rule:delete:any"
    then (inr tt,
          setRules (replaceBy (fun y => N.eqb (Rule._id y) id)
                              (Rule_setIsActive false rule) (rules db)) db)
    else (inl (errors.forbidden "Access denied"), db).
Proof.
  intro Hrule. pose proof (found_id _ _ _ _ Hrule) as Hid.
  unfold ruleManagement.deleteRule. unfold_handler. rewrite Hrule.
  cbn [Rule.author Rule._id Rule.hydrate Rule_setIsActive].
  assert (Hsaved :
    updateFirst (fun y => N.eqb (Rule._id y) (Rule._id rule))
      (Rule.saveOver (Rule_setIsActive false (Rule.hydrate rule))) (rules db)
    = replaceBy (fun y => N.eqb (Rule._id y) id)
                (Rule_setIsActive false rule) (rules db)).
  { rewrite Hid, (updateFirst_found_replace _ _ _ _ Hrule),
      saveOver_hydrate_isActive.
    reflexivity. }
  destruct (N.eqb (Rule.author rule) (User._id user)); cbn [negb andb orb].
  - rewrite Hsaved. reflexivity.
  - destruct (User_hasPermission user "rule:delete:any"); cbn [negb].
    + rewrite Hsaved. reflexivity.
    + reflexivity.
Qed.

Lemma deleteRule_not_found user id db :
  find (fun r => N.eqb (Rule._id r) id) (rules db) = None ->
  ruleManagement.deleteRule user id db
  = (inl (errors.notFound "Rule not found"), db).
Proof.
  intro Hrule. unfold ruleManagement.deleteRule. unfold_handler.
  rewrite Hrule. reflexivity.
Qed.

(** X14. [deleteRule] on a rule on record: the author, a MODERATOR and an
    ADMIN get the rule deactivated, the stored document being the one of
    before with [isActive] false and every other collection being left as it
    was; a USER or VERIFIED_CONTRIBUTOR who is not the author is answered
    "Access denied" and nothing is written. *)
Theorem deleteRule_effect :
  forall db user id rule,
    find (fun r => N.eqb (Rule._id r) id) (rules db) = Some rule ->
    ruleManagement.deleteRule user id db
    = if N.eqb (Rule.author rule) (User._id user) ||
         match User.role user with
         | User.MODERATOR | User.ADMIN => true
         | _ => false
         end
      then (inr tt,
            setRules (replaceBy (fun y => N.eqb (Rule._id y) id)
                                (Rule_setIsActive false rule) (rules db)) db)
      else (inl (errors.forbidden "Access denied"), db).
Proof.
  intros db user id rule Hrule.
  rewrite (deleteRule_found _ _ _ _ Hrule).
  unfold User_hasPermission. destruct (User.role user); reflexivity.
Qed.

Lemma deleteRule_effect_witness :
  ruleManagement.deleteRule Cases.erin 10 Sample.emptyStore
  = (inr tt,
     setRules [Rule_setIsActive false Sample.schemaRule; Sample.listedRule]
              Sample.emptyStore).
Proof.
  exact (deleteRule_effect Sample.emptyStore Cases.erin 10 Sample.schemaRule
                           eq_refl).
Defined.


(** What [getRuleById], the download route and [purchaseRule] answer is the
    same on two databases that differ in [isActive] of the rule only. *)
Lemma isActive_is_not_read viewer buyer id now pm r1 r2 db rule b :
  find (fun r => N.eqb (Rule._id r) id) (rules db) = Some rule ->
  let db' :=
    setRules (replaceBy (fun y => N.eqb (Rule._id y) id)
                        (Rule_setIsActive b rule) (rules db)) db in
  shownQuery (ruleController.getRuleById viewer id db')
  = shownQuery (ruleController.getRuleById viewer id db) /\
  fst (ruleController.download buyer id now db')
  = fst (ruleController.download buyer id now db) /\
  fst (transactionController.purchaseRule buyer id pm r1 r2 now db')
  = fst (transactionController.purchaseRule buyer id pm r1 r2 now db).
Proof.
  intros Hrule db'.
  pose proof (found_id _ _ _ _ Hrule) as Hid.
  assert (Hrule' : find (fun r => N.eqb (Rule._id r) id) (rules db')
                   = Some (Rule_setIsActive b rule)).
  { apply (find_replaced _ _ _ _ Hrule). simpl. apply N.eqb_eq. exact Hid. }
  assert (Hps : purchases db' = purchases db) by reflexivity.
  assert (Hus : users db' = users db) by reflexivity.
  clearbody db'.
  split; [| split].
  - unfold shownQuery, ruleController.getRuleById, ruleController.mask.
    unfold_handler. rewrite Hrule', Hrule.
    repeat (first [rewrite Hps | rewrite Hus | case_innermost];
            cbn -[String.append N.eqb]);
      first [reflexivity | cbn in *; congruence].
  - unfold ruleController.download. unfold_handler.
    rewrite Hrule', Hrule.
    repeat (first [rewrite Hps | case_innermost]; cbn -[N.eqb]);
      first [reflexivity | cbn in *; congruence].
  - rewrite !purchaseRule_rejected, Hrule', Hrule. reflexivity.
Qed.

(** X15. Deleting a rule is soft and does not take it out of reach: after
    [deleteRule], whoever called it and with whatever outcome, [getRuleById]
    shows every viewer the query it showed before, the download route
    releases what it released before, and [purchaseRule] answers what it
    answered before; none of the three reads [isActive]. *)
Theorem deleted_rule_is_still_served :
  forall db user id viewer buyer now paymentMethodId randomHex1 randomHex2,
    let db' := snd (ruleManagement.deleteRule user id db) in
    shownQuery (ruleController.getRuleById viewer id db')
    = shownQuery (ruleController.getRuleById viewer id db) /\
    fst (ruleController.download buyer id now db')
    = fst (ruleController.download buyer id now db) /\
    fst (transactionController.purchaseRule
           buyer id paymentMethodId randomHex1 randomHex2 now db')
    = fst (transactionController.purchaseRule
             buyer id paymentMethodId randomHex1 randomHex2 now db).
Proof.
  intros db user id viewer buyer now pm r1 r2 db'. subst db'.
  destruct (find (fun r => N.eqb (Rule._id r) id) (rules db)) as [rule |] eqn:Hrule.
  - rewrite (deleteRule_found _ _ _ _ Hrule).
    destruct (_ || _); cbn [snd].
    + exact (isActive_is_not_read viewer buyer id now pm r1 r2 db rule false Hrule).
    + repeat split.
  - rewrite (deleteRule_not_found _ _ _ Hrule). repeat split.
Qed.


(** X16. The DELETE route of a rule, middleware and controller together:
    without an account behind the token the answer is 401, for an unknown
    rule 404, and for an account that is neither the author nor holds
    "rule:delete:any" the 403 of [isOwnerOr], each without a write; every
    other request deactivates the rule. The ownership test of the
    controller repeats the one of the middleware, so its "Access denied"
    is never the answer of the route. *)
Theorem delete_route :
  forall db user info id,
    let out := routes.deleteRule user info id db in
    fst out <> inl (errors.forbidden "Access denied") /\
    match user with
    | None => out = (inl (ApiError 401 (JS.orString info "Unauthorized")), db)
    | Some u =>
        match find (fun r => N.eqb (Rule._id r) id) (rules db) with
        | None => out = (inl (ApiError 404 "Rule not found"), db)
        | Some rule =>
            if N.eqb (Rule.author rule) (User._id u) ||
               User_hasPermission u "rule:delete:any"
            then out = ruleManagement.deleteRule u id db /\ fst out = inr tt
            else out = (inl (ApiError 403 "You can only modify your own resources"),
                        db)
        end
    end.
Proof.
  intros db user info id out. subst out.
  unfold routes.deleteRule, routes.loadRule, auth.authenticate, auth.isOwnerOr.
  destruct user as [u |].
  - destruct (find (fun r => N.eqb (Rule._id r) id) (rules db))
      as [rule |] eqn:Hrule.
    + pose proof (deleteRule_found u id db rule Hrule) as Hdel.
      unfold_handler. rewrite Hrule. cbn [fst snd Rule.author Rule.hydrate].
      destruct (N.eqb (Rule.author rule) (User._id u));
        cbn [negb andb orb fst snd] in *.
      * rewrite Hdel. repeat split. discriminate.
      * destruct (User_hasPermission u "rule:delete:any");
          cbn [negb andb orb fst snd] in *.
        -- rewrite Hdel. repeat split. discriminate.
        -- split; [discriminate | reflexivity].
    + unfold_handler. rewrite Hrule. simpl. split; [discriminate | reflexivity].
  - unfold_handler. simpl. split; [discriminate | reflexivity].
Qed.

(* ================================================================== *)
(** * Forking a rule *)

Lemma find_updateFirst_other {A : Type} (same same' : A -> bool) (f : A -> A)
    (l : list A) :
  (forall y, same y = true -> same' y = false /\ same' (f y) = false) ->
  find same' (updateFirst same f l) = find same' l.
Proof.
  intro H. induction l as [| z l IH]; simpl; [reflexivity |].
  destruct (same z) eqn:E; simpl.
  - destruct (H z E) as [H1 H2]. rewrite H1, H2. reflexivity.
  - rewrite IH. reflexivity.
Qed.

Lemma find_fresh_id (n : ObjectId) (l : list Rule.t) :
  Forall (fun r => (Rule._id r < n)%N) l ->
  find (fun r => N.eqb (Rule._id r) n) l = None.
Proof.
  induction 1 as [| r l Hr _ IH]; simpl; [reflexivity |].
  destruct (N.eqb_spec (Rule._id r) n); [lia | exact IH].
Qed.

Lemma forkRule_found user id db rule :
  find (fun r => N.eqb (Rule._id r) id) (rules db) = Some rule ->
  Rule.visibility rule = Rule.PUBLIC ->
  (String.length (Rule.title rule ++ " (Fork)") <= 200)%nat ->
  ruleManagement.forkRule user id db
  = (inr (forkOf user (nextId db) rule),
     setRules
       (replaceBy (fun y => N.eqb (Rule._id y) id) (forked rule)
                  (rules db ++ [forkOf user (nextId db) rule])%list)
       (setNextId (N.succ (nextId db)) db)).
Proof.
  intros Hrule Hpublic Htitle.
  unfold ruleManagement.forkRule, Rule_insert. unfold_handler.
  rewrite Hrule.
  cbn [Rule.visibility Rule.title Rule.ruleContent Rule.statistics Rule._id
       Rule.hydrate Rule.setStatistics].
  rewrite Hpublic. cbn [Visibility_eqb negb].
  apply Nat.leb_le in Htitle. rewrite Nat.ltb_antisym, Htitle. cbn [negb].
  cbn [rules setRules setNextId].
  rewrite (found_id _ _ _ _ Hrule).
  rewrite (updateFirst_found_replace _ _ _ _ (find_app_some _ _ _ _ Hrule)),
    saveOver_hydrate_statistics.
  reflexivity.
Qed.

(** X17. [forkRule] lets any account that calls it fork a PUBLIC rule
    whose title leaves room for " (Fork)", and the copy carries the whole
    content: it is a PRIVATE rule of the forking account, free
    ([pricing.isPaid] false by the schema's default) whatever the price of
    the original, and with the unmasked [ruleContent] of the original;
    [getRuleById] then shows the forking account the full query of the copy
    and the download route releases it, with no Purchase asked for or
    recorded. *)
Theorem forkRule_copies_the_content :
  forall db user id rule,
    find (fun r => N.eqb (Rule._id r) id) (rules db) = Some rule ->
    Rule.visibility rule = Rule.PUBLIC ->
    (String.length (Rule.title rule ++ " (Fork)") <= 200)%nat ->
    Forall (fun r => (Rule._id r < nextId db)%N) (rules db) ->
    exists fork db',
      ruleManagement.forkRule user id db = (inr fork, db') /\
      Rule._id fork = nextId db /\
      Rule.author fork = User._id user /\
      Rule.visibility fork = Rule.PRIVATE /\
      Rule.isPaid (Rule.pricing fork) = false /\
      Rule.ruleContent fork = Rule.ruleContent rule /\
      purchases db' = purchases db /\
      shownQuery (ruleController.getRuleById (Some user) (Rule._id fork) db')
      = Some (Rule.query (Rule.ruleContent rule)) /\
      forall now,
        fst (ruleController.download user (Rule._id fork) now db')
        = inr (Rule.ruleContent rule).
Proof.
  intros db user id rule Hrule Hpublic Htitle Hfresh.
  pose proof (found_id _ _ _ _ Hrule) as Hid.
  assert (Hne : N.eqb id (nextId db) = false).
  { apply N.eqb_neq. rewrite <- Hid.
    apply find_some in Hrule. destruct Hrule as [Hin _].
    rewrite Forall_forall in Hfresh. specialize (Hfresh _ Hin). lia. }
  eexists _, _. split; [exact (forkRule_found user id db rule Hrule Hpublic Htitle) |].
  do 6 (split; [reflexivity |]).
  set (db' := setRules _ _).
  assert (Hfork : find (fun r => N.eqb (Rule._id r) (nextId db)) (rules db')
                  = Some (forkOf user (nextId db) rule)).
  { subst db'. cbn [rules setRules]. unfold replaceBy.
    rewrite find_updateFirst_other.
    - rewrite (find_app_none _ _ _ (find_fresh_id _ _ Hfresh)).
      simpl. rewrite N.eqb_refl. reflexivity.
    - intros y Hy. apply N.eqb_eq in Hy.
      simpl. rewrite Hy, Hid, Hne. split; reflexivity. }
  clearbody db'. cbn [Rule._id forkOf]. split.
  - rewrite (getRuleById_found (Some user) _ db' _ Hfork)
      by (intros _; exists user; split; reflexivity).
    reflexivity.
  - intro now. unfold ruleController.download. unfold_handler.
    rewrite Hfork. reflexivity.
Qed.

Lemma forkRule_copies_the_content_witness :
  exists fork db',
    ruleManagement.forkRule Sample.dave 10 Sample.emptyStore = (inr fork, db') /\
    Rule.isPaid (Rule.pricing Sample.schemaRule) = true /\
    purchases db' = [] /\
    shownQuery (ruleController.getRuleById (Some Sample.dave) (Rule._id fork) db')
    = Some Sample.longQuery.
Proof.
  destruct (forkRule_copies_the_content Sample.emptyStore Sample.dave 10
              Sample.schemaRule eq_refl eq_refl)
    as (fork & db' & Hfork & _ & _ & _ & _ & _ & Hps & Hshown & _).
  - simpl. lia.
  - repeat constructor.
  - exists fork, db'. repeat split; assumption.
Defined.


(* ================================================================== *)
(** * Moderation *)

(** X18. Removing a review through [reviewModerationAction] deactivates it
    as [deleteReview] called by an ADMIN does, and the two leave the same
    Review collection; but the moderation action stops there: it does not
    touch the Rule collection, so no rating of the rule is recomputed. Its
    message is "Review removed successfully". *)
Theorem moderation_removal_recomputes_nothing :
  forall db admin id review,
    find (fun x => N.eqb (Review._id x) id) (reviews db) = Some review ->
    Review.validRating review = true ->
    User.role admin = User.ADMIN ->
    adminController.reviewModerationAction id (Some "remove") db
    = (inr ("Review removed successfully", Review.setIsActive false review),
       setReviews (replaceBy (fun y => N.eqb (Review._id y) id)
                             (Review.setIsActive false review) (reviews db)) db) /\
    reviews (snd (reviewController.deleteReview admin id db))
    = replaceBy (fun y => N.eqb (Review._id y) id)
                (Review.setIsActive false review) (reviews db) /\
    fst (reviewController.deleteReview admin id db) = inr tt.
Proof.
  intros db admin id review Hfind Hvalid Hadmin.
  pose proof (found_id _ _ _ _ Hfind) as Hid.
  split; [| split].
  - unfold adminController.reviewModerationAction. unfold_handler.
    rewrite Hfind. simpl.
    unfold Review.validRating in *. simpl. rewrite Hvalid. simpl.
    rewrite Hid. reflexivity.
  - unfold reviewController.deleteReview. unfold_handler.
    rewrite Hfind, Hadmin. simpl. rewrite andb_false_r.
    unfold Review.validRating in *. simpl. rewrite Hvalid. simpl.
    rewrite Hid. destruct (_ <? _)%nat; reflexivity.
  - unfold reviewController.deleteReview. unfold_handler.
    rewrite Hfind, Hadmin. simpl. rewrite andb_false_r.
    unfold Review.validRating in *. simpl. rewrite Hvalid. simpl.
    destruct (_ <? _)%nat; reflexivity.
Qed.

Lemma moderation_removal_recomputes_nothing_witness :
  rules (snd (adminController.reviewModerationAction 61 (Some "remove")
                Sample.reviewedStore))
  = rules Sample.reviewedStore.
Proof.
  rewrite (proj1 (moderation_removal_recomputes_nothing Sample.reviewedStore
                    Sample.carol 61 (Sample.mkReview 61 3 3%float true)
                    eq_refl eq_refl eq_refl)).
  reflexivity.
Defined.

(** X19. [moderateRule] cannot approve: "PUBLISHED", the status it sets,
    is not a status of the Rule schema, so the save of an approval is always
    rejected and the Rule collection is as before. On a rule as the schema
    shapes it, which has no [creator] to notify, the call is rejected before
    any write, whether it approves or rejects. *)
Theorem moderateRule_never_approves :
  forall db ruleId,
    (exists e,
        fst (adminController.moderateRule ruleId true db) = inl e /\
        rules (snd (adminController.moderateRule ruleId true db)) = rules db) /\
    (forall approved,
        Forall (fun r => Rule.creator r = None) (rules db) ->
        exists e, adminController.moderateRule ruleId approved db = (inl e, db)).
Proof.
  intros db ruleId. split.
  - unfold adminController.moderateRule. run_handler; eexists; split; reflexivity.
  - intros approved _.
    unfold adminController.moderateRule. unfold_handler.
    destruct (find (fun r => N.eqb (Rule._id r) ruleId) (rules db))
      as [rule |] eqn:Hrule.
    + cbn [Rule.creator Rule.hydrate].
      destruct approved; eexists; reflexivity.
    + eexists. reflexivity.
Qed.

Lemma moderateRule_never_approves_witness :
  exists e,
    adminController.moderateRule 10 false
      (setRules [Sample.schemaRule] Sample.emptyStore)
    = (inl e, setRules [Sample.schemaRule] Sample.emptyStore).
Proof.
  apply (moderateRule_never_approves
           (setRules [Sample.schemaRule] Sample.emptyStore) 10).
  repeat constructor.
Defined.

(** X20. [updateUserRole] never resolves. A role outside the four of the
    schema is answered "Invalid role" and an unknown user "User not found";
    for a valid role and a known user the new role is stored first, and the
    request is then rejected by the Activity it logs, whose type
    "ADMIN_ACTION" the Activity schema does not list: the account holds
    the new role, with its permissions, although the request failed. *)
Theorem updateUserRole_stores_then_rejects :
  forall db userId role,
    (exists e, fst (adminController.updateUserRole userId role db) = inl e) /\
    (forall r user,
        adminController.roleOfString role = Some r ->
        find (fun u => N.eqb (User._id u) userId) (users db) = Some user ->
        adminController.updateUserRole userId role db
        = (inl (ValidationError "type"),
           setUsers (replaceBy (fun u => N.eqb (User._id u) userId)
                               (User_setRole r user) (users db)) db) /\
        find (fun u => N.eqb (User._id u) userId)
             (users (snd (adminController.updateUserRole userId role db)))
        = Some (User_setRole r user)).
Proof.
  intros db userId role. split.
  - unfold adminController.updateUserRole, User_findByIdAndUpdate_role,
      User_findById.
    run_handler; eexists; reflexivity.
  - intros r user Hrole Hfind.
    pose proof (found_id _ _ _ _ Hfind) as Hid.
    assert (Hnew : find (fun u => N.eqb (User._id u) userId)
                        (updateFirst (fun u => N.eqb (User._id u) userId)
                                     (User_setRole r) (users db))
                   = Some (User_setRole r user)).
    { apply (find_updateFirst _ _ _ _ Hfind). simpl. apply N.eqb_eq. exact Hid. }
    assert (Hsame : updateFirst (fun u => N.eqb (User._id u) userId)
                                (User_setRole r) (users db)
                    = replaceBy (fun u => N.eqb (User._id u) userId)
                                (User_setRole r user) (users db)).
    { unfold replaceBy. clear Hnew. revert Hfind.
      induction (users db) as [| z l IH]; simpl; intro Hf; [reflexivity |].
      destruct (N.eqb (User._id z) userId).
      - inversion Hf; subst. reflexivity.
      - rewrite (IH Hf). reflexivity. }
    assert (Hout : adminController.updateUserRole userId role db
                   = (inl (ValidationError "type"),
                      setUsers (replaceBy (fun u => N.eqb (User._id u) userId)
                                          (User_setRole r user) (users db)) db)).
    { unfold adminController.updateUserRole, User_findByIdAndUpdate_role,
        User_findById.
      unfold_handler. rewrite Hrole. cbn [fst snd users setUsers].
      rewrite Hnew, Hsame. reflexivity. }
    split; [exact Hout |].
    rewrite Hout. cbn [snd users setUsers]. rewrite <- Hsame. exact Hnew.
Qed.

Lemma updateUserRole_stores_then_rejects_witness :
  User_hasPermission Sample.dave "user:moderate" = false /\
  exists dave',
    find (fun u => N.eqb (User._id u) 4)
         (users (snd (adminController.updateUserRole 4 (Some "ADMIN")
                        Sample.emptyStore)))
    = Some dave' /\
    User_hasPermission dave' "user:moderate" = true.
Proof.
  split; [reflexivity |].
  exists (User_setRole User.ADMIN Sample.dave). split; [| reflexivity].
  exact (proj2 (proj2 (updateUserRole_stores_then_rejects
                         Sample.emptyStore 4 (Some "ADMIN"))
                      User.ADMIN Sample.dave eq_refl eq_refl)).
Defined.

(* ================================================================== *)
(** * The count of helpful votes *)

Lemma splice1_counted (u : ObjectId) (l : list ObjectId) (i : nat) :
  JS.indexOf u l = Some i ->
  S (List.length (JS.splice1 i l)) = List.length l /\
  (NoDup l -> NoDup (JS.splice1 i l)) /\
  (forall x, In x (JS.splice1 i l) -> In x l).
Proof.
  revert i. induction l as [| y l IH]; simpl; intros i H; [discriminate |].
  destruct (N.eqb y u).
  - injection H as <-. simpl. repeat split.
    + intro Hnd. inversion Hnd. assumption.
    + intros x Hx. right. exact Hx.
  - destruct (JS.indexOf u l) as [j |]; [| discriminate].
    injection H as <-. destruct (IH j eq_refl) as (Hlen & Hnd & Hin).
    simpl. repeat split.
    + rewrite Hlen. reflexivity.
    + intro H. inversion H as [| ? ? Hnotin Hnd']; subst.
      constructor; [| exact (Hnd Hnd')].
      intro Hy. apply Hnotin. exact (Hin _ Hy).
    + intros x [-> | Hx]; [left; reflexivity | right; exact (Hin _ Hx)].
Qed.

Lemma helpfulAfter_counted (u : ObjectId) (helpful : bool) (h : Review.Helpful) :
  helpfulCounted h -> helpfulCounted (helpfulAfter u helpful h).
Proof.
  intros [Hcount Hnd]. unfold helpfulAfter.
  destruct (JS.indexOf u (Review.users h)) as [i |] eqn:E; destruct helpful;
    try (split; assumption).
  - destruct (splice1_counted _ _ _ E) as (Hlen & Hnd' & _).
    split; simpl; [lia | exact (Hnd' Hnd)].
  - split; simpl.
    + rewrite length_app. simpl. lia.
    + apply NoDup_app; [exact Hnd | repeat constructor; intros [] |].
      intros x Hx [<- | []]. exact (indexOf_none _ _ E Hx).
Qed.

Lemma Forall_replaceBy {A : Type} (P : A -> Prop) (same : A -> bool) (x' : A)
    (l : list A) :
  Forall P l -> P x' -> Forall P (replaceBy same x' l).
Proof.
  intros Hl Hx. unfold replaceBy. induction Hl as [| z l Hz Hl IH]; simpl.
  - constructor.
  - destruct (same z); constructor; assumption.
Qed.

Lemma helpfulConsistent_found db id review :
  helpfulConsistent db ->
  find (fun x => N.eqb (Review._id x) id) (reviews db) = Some review ->
  helpfulCounted (Review.helpful review).
Proof.
  intros H Hfind. apply find_some in Hfind.
  unfold helpfulConsistent in H. rewrite Forall_forall in H.
  exact (H _ (proj1 Hfind)).
Qed.

Ltac consistent_after :=
  unfold helpfulConsistent in *; cbn [snd reviews setReviews setRules];
  first
    [ assumption
    | apply Forall_replaceBy; [assumption |];
      match goal with
      | H : find _ (reviews _) = Some ?y |- _ =>
          cbn [Review.helpful Review.setRatingComment Review.setIsActive
               Review.setHelpful Review_setReported];
          first [ exact (helpfulConsistent_found _ _ _ ltac:(eassumption) H) ]
      end ].

Lemma updateReview_helpful user id rating comment db :
  helpfulConsistent db ->
  helpfulConsistent (snd (reviewController.updateReview user id rating comment db)).
Proof.
  intro H. unfold reviewController.updateReview. run_handler.
  all: consistent_after.
Qed.

Lemma deleteReview_helpful user id db :
  helpfulConsistent db ->
  helpfulConsistent (snd (reviewController.deleteReview user id db)).
Proof.
  intro H. unfold reviewController.deleteReview. run_handler.
  all: consistent_after.
Qed.

Lemma reviewModerationAction_helpful id action db :
  helpfulConsistent db ->
  helpfulConsistent (snd (adminController.reviewModerationAction id action db)).
Proof.
  intro H. unfold adminController.reviewModerationAction. run_handler.
  all: consistent_after.
Qed.

Lemma markHelpful_helpful user id helpful db :
  helpfulConsistent db ->
  helpfulConsistent (snd (reviewController.markHelpful user id helpful db)).
Proof.
  intro H.
  destruct (find (fun x => N.eqb (Review._id x) id) (reviews db))
    as [review |] eqn:Hfind.
  - destruct (Review.validRating review) eqn:Hvalid.
    + rewrite (markHelpful_found _ _ _ _ _ Hfind Hvalid).
      unfold helpfulConsistent in *. cbn [snd reviews setReviews].
      apply Forall_replaceBy; [exact H |]. cbn [Review.helpful Review.setHelpful].
      apply helpfulAfter_counted.
      exact (helpfulConsistent_found _ _ _ H Hfind).
    + unfold reviewController.markHelpful. unfold_handler. rewrite Hfind.
      unfold Review.validRating in *. cbn. rewrite Hvalid. exact H.
  - unfold reviewController.markHelpful. unfold_handler. rewrite Hfind. exact H.
Qed.


Lemma keepsReviews_helpful db db' :
  keepsReviews db db' -> helpfulConsistent db -> helpfulConsistent db'.
Proof. unfold keepsReviews, helpfulConsistent. intros ->. auto. Qed.

Lemma serve_helpful rq db :
  helpfulConsistent db -> helpfulConsistent (serve rq db).
Proof.
  destruct rq; simpl.
  - apply keepsReviews_helpful. apply purchaseRule_keepsReviews.
  - apply keepsReviews_helpful. apply requestRefund_keepsReviews.
  - apply keepsReviews_helpful. apply processRefund_keepsReviews.
  - rewrite createReview_rejected. auto.
  - apply updateReview_helpful.
  - apply deleteReview_helpful.
  - apply markHelpful_helpful.
  - apply keepsReviews_helpful. apply maskedRules_keepsReviews.
  - apply keepsReviews_helpful. apply getRuleById_keepsReviews.
  - apply keepsReviews_helpful. apply download_keepsReviews.
Qed.

Lemma manage_helpful rq db :
  helpfulConsistent db -> helpfulConsistent (manage rq db).
Proof.
  destruct rq; simpl.
  - apply keepsReviews_helpful. revert db.
    change (preserves keepsReviews (ruleManagement.deleteRule user id)).
    unfold ruleManagement.deleteRule. frame_reviews.
  - apply keepsReviews_helpful. revert db.
    change (preserves keepsReviews (ruleManagement.forkRule user id)).
    unfold ruleManagement.forkRule, Rule_insert. frame_reviews.
  - apply keepsReviews_helpful. revert db.
    change (preserves keepsReviews (adminController.moderateRule ruleId approved)).
    unfold adminController.moderateRule. frame_reviews.
  - apply reviewModerationAction_helpful.
  - apply keepsReviews_helpful. revert db.
    change (preserves keepsReviews (adminController.updateUserRole userId role)).
    unfold adminController.updateUserRole, User_findByIdAndUpdate_role,
      User_findById.
    frame_reviews.
Qed.

(** Every handler but [markHelpful] leaves [helpful] on every review. *)
Ltac saved_votes :=
  cbn [snd reviews setReviews setRules];
  first
    [ reflexivity
    | match goal with
      | H : find (fun x => N.eqb (Review._id x) ?id) (reviews _) = Some ?y |- _ =>
          apply (replaceBy_found_map Review._id _ id y);
          [exact H | | reflexivity];
          exact (found_id Review._id id y _ H)
      end ].

Lemma updateReview_votes user id rating comment db :
  map reviewVotes
      (reviews (snd (reviewController.updateReview user id rating comment db)))
  = map reviewVotes (reviews db).
Proof.
  unfold reviewController.updateReview. run_handler. all: saved_votes.
Qed.

Lemma deleteReview_votes user id db :
  map reviewVotes (reviews (snd (reviewController.deleteReview user id db)))
  = map reviewVotes (reviews db).
Proof.
  unfold reviewController.deleteReview. run_handler. all: saved_votes.
Qed.

Lemma reviewModerationAction_votes id action db :
  map reviewVotes
      (reviews (snd (adminController.reviewModerationAction id action db)))
  = map reviewVotes (reviews db).
Proof.
  unfold adminController.reviewModerationAction. run_handler. all: saved_votes.
Qed.

Lemma keepsReviews_votes db db' :
  keepsReviews db db' ->
  map reviewVotes (reviews db') = map reviewVotes (reviews db).
Proof. unfold keepsReviews. intros ->. reflexivity. Qed.

Lemma serve_votes rq db :
  match rq with
  | MarkHelpful _ _ _ => True
  | _ => map reviewVotes (reviews (serve rq db)) = map reviewVotes (reviews db)
  end.
Proof.
  destruct rq; simpl; try exact I.
  - apply keepsReviews_votes. apply purchaseRule_keepsReviews.
  - apply keepsReviews_votes. apply requestRefund_keepsReviews.
  - apply keepsReviews_votes. apply processRefund_keepsReviews.
  - rewrite createReview_rejected. reflexivity.
  - apply updateReview_votes.
  - apply deleteReview_votes.
  - apply keepsReviews_votes. apply maskedRules_keepsReviews.
  - apply keepsReviews_votes. apply getRuleById_keepsReviews.
  - apply keepsReviews_votes. apply download_keepsReviews.
Qed.

Lemma manage_votes rq db :
  map reviewVotes (reviews (manage rq db)) = map reviewVotes (reviews db).
Proof.
  destruct rq; simpl.
  - apply keepsReviews_votes. revert db.
    change (preserves keepsReviews (ruleManagement.deleteRule user id)).
    unfold ruleManagement.deleteRule. frame_reviews.
  - apply keepsReviews_votes. revert db.
    change (preserves keepsReviews (ruleManagement.forkRule user id)).
    unfold ruleManagement.forkRule, Rule_insert. frame_reviews.
  - apply keepsReviews_votes. revert db.
    change (preserves keepsReviews (adminController.moderateRule ruleId approved)).
    unfold adminController.moderateRule. frame_reviews.
  - apply reviewModerationAction_votes.
  - apply keepsReviews_votes. revert db.
    change (preserves keepsReviews (adminController.updateUserRole userId role)).
    unfold adminController.updateUserRole, User_findByIdAndUpdate_role,
      User_findById.
    frame_reviews.
Qed.

(** [markHelpful] rewrites [helpful] on the review it was called for, by
    the step [helpfulAfter] of the calling account, and no other review. *)
Lemma markHelpful_votes user id helpful db :
  Forall2 (voted (User._id user) id helpful)
          (reviews db)
          (reviews (snd (reviewController.markHelpful user id helpful db))).
Proof.
  assert (Hrefl : forall l, Forall2 (voted (User._id user) id helpful) l l).
  { induction l; constructor; [left; reflexivity | assumption]. }
  destruct (find (fun x => N.eqb (Review._id x) id) (reviews db))
    as [review |] eqn:Hfind.
  - destruct (Review.validRating review) eqn:Hvalid.
    + rewrite (markHelpful_found _ _ _ _ _ Hfind Hvalid).
      cbn [snd reviews setReviews]. unfold replaceBy.
      clear Hvalid. revert Hfind.
      induction (reviews db) as [| z l IH]; simpl; intro Hfind.
      * constructor.
      * destruct (N.eqb (Review._id z) id) eqn:Ez.
        -- inversion Hfind; subst. constructor; [| apply Hrefl].
           right. split; [apply N.eqb_eq; exact Ez | reflexivity].
        -- constructor; [left; reflexivity | exact (IH Hfind)].
    + unfold reviewController.markHelpful. unfold_handler. rewrite Hfind.
      unfold Review.validRating in *. cbn. rewrite Hvalid. apply Hrefl.
  - unfold reviewController.markHelpful. unfold_handler. rewrite Hfind.
    apply Hrefl.
Qed.

Lemma splice1_others (u : ObjectId) (l : list ObjectId) (i : nat) :
  JS.indexOf u l = Some i ->
  In u l /\
  (forall v, v <> u -> (In v (JS.splice1 i l) <-> In v l)).
Proof.
  revert i. induction l as [| y l IH]; simpl; intros i H; [discriminate |].
  destruct (N.eqb y u) eqn:E.
  - injection H as <-. apply N.eqb_eq in E. subst y. simpl. split.
    + left. reflexivity.
    + intros v Hv. split; [intro Hin; right; exact Hin |].
      intros [Heq | Hin]; [congruence | exact Hin].
  - destruct (JS.indexOf u l) as [j |]; [| discriminate].
    injection H as <-. destruct (IH j eq_refl) as (Hin & Hothers).
    simpl. split; [right; exact Hin |].
    intros v Hv. specialize (Hothers v Hv). tauto.
Qed.

(** The step of [markHelpful], vote by vote. *)
Lemma helpfulAfter_votes (u : ObjectId) (h : Review.Helpful) :
  (~ In u (Review.users h) ->
   helpfulAfter u true h
   = {| Review.count := Review.count h + 1;
        Review.users := (Review.users h ++ [u])%list |} /\
   helpfulAfter u false h = h) /\
  (In u (Review.users h) ->
   helpfulAfter u true h = h /\
   Review.count (helpfulAfter u false h) = Review.count h - 1 /\
   (forall v, v <> u ->
              (In v (Review.users (helpfulAfter u false h))
               <-> In v (Review.users h))) /\
   (NoDup (Review.users h) -> ~ In u (Review.users (helpfulAfter u false h)))).
Proof.
  unfold helpfulAfter.
  destruct (JS.indexOf u (Review.users h)) as [i |] eqn:E.
  - destruct (splice1_others _ _ _ E) as (Hin & Hothers). split.
    + intro Hnot. contradiction.
    + intros _. cbn [Review.count Review.users].
      split; [reflexivity | split; [reflexivity | split]].
      * exact Hothers.
      * intros Hnd. apply indexOf_none. exact (indexOf_spliced _ _ _ Hnd E).
  - pose proof (indexOf_none _ _ E) as Hnot. split.
    + intros _. split; reflexivity.
    + intro Hin. contradiction.
Qed.

(** X21. The helpful votes stay consistent: where every review counts in
    [helpful.count] exactly the accounts listed in [helpful.users], each
    listed once, this still holds after any sequence of requests. No
    handler but [markHelpful] touches [helpful]: every other request
    leaves it, on every review, as it was. [markHelpful] changes the review
    it is called for, in [helpful] only and by one step for the calling
    account, and no other review; and the step adds 1, with the account,
    only when the account is a new voter asked to be added, takes 1 off,
    with the account and no other, only when it is a voter asked to be
    removed, and changes nothing otherwise. *)
Theorem helpful_count_is_the_number_of_voters :
  (forall db0 db,
      reachableAll db0 db -> helpfulConsistent db0 -> helpfulConsistent db) /\
  (forall rq db,
      match rq with
      | MarkHelpful user id helpful =>
          Forall2 (voted (User._id user) id helpful)
                  (reviews db) (reviews (serve rq db))
      | _ => map reviewVotes (reviews (serve rq db)) = map reviewVotes (reviews db)
      end) /\
  (forall rq db,
      map reviewVotes (reviews (manage rq db)) = map reviewVotes (reviews db)) /\
  (forall u h,
      (~ In u (Review.users h) ->
       helpfulAfter u true h
       = {| Review.count := Review.count h + 1;
            Review.users := (Review.users h ++ [u])%list |} /\
       helpfulAfter u false h = h) /\
      (In u (Review.users h) ->
       helpfulAfter u true h = h /\
       Review.count (helpfulAfter u false h) = Review.count h - 1 /\
       (forall v, v <> u ->
                  (In v (Review.users (helpfulAfter u false h))
                   <-> In v (Review.users h))) /\
       (NoDup (Review.users h) ->
        ~ In u (Review.users (helpfulAfter u false h))))).
Proof.
  split; [| split; [| split]].
  - intros db0 db Hreach H0.
    induction Hreach as [| db rq _ IH | db rq _ IH].
    + exact H0.
    + exact (serve_helpful rq db IH).
    + exact (manage_helpful rq db IH).
  - intros rq db. pose proof (serve_votes rq db) as H.
    destruct rq; try exact H. simpl. apply markHelpful_votes.
  - exact manage_votes.
  - exact helpfulAfter_votes.
Qed.

Lemma helpful_count_is_the_number_of_voters_witness :
  helpfulConsistent
    (serve (MarkHelpful Sample.bob 60 false)
       (serve (MarkHelpful Sample.bob 60 true) Sample.reviewedStore)).
Proof.
  apply (proj1 helpful_count_is_the_number_of_voters Sample.reviewedStore).
  - apply reachableAll_serve, reachableAll_serve, reachableAll_start.
  - repeat constructor; simpl; intros [].
Defined.


(* ================================================================== *)
(** * Editing a review *)

Lemma sameComment_refl c : reviewController.sameComment c c = true.
Proof. destruct c as [s |]; simpl; [apply String.eqb_refl | reflexivity]. Qed.

(** [updateReview] on a review on record, test by test. *)
Lemma updateReview_found user id rating comment db review :
  find (fun x => N.eqb (Review._id x) id) (reviews db) = Some review ->
  reviewController.updateReview user id rating comment db
  = if negb (N.eqb (Review.user review) (User._id user)) then
      (inl (errors.forbidden "You can only update your own reviews"), db)
    else if editAccepted rating comment review then
      (inr (edited rating comment review),
       setReviews (replaceBy (fun y => N.eqb (Review._id y) id)
                             (edited rating comment review) (reviews db)) db)
    else (inl (ValidationError "Review"), db).
Proof.
  intro Hfind. pose proof (found_id _ _ _ _ Hfind) as Hid.
  unfold reviewController.updateReview. unfold_handler. rewrite Hfind.
  destruct (N.eqb (Review.user review) (User._id user)); cbn [negb];
    [| reflexivity].
  fold (edited rating comment review). rewrite negb_involutive.
  change (Review.validRating (edited rating comment review) &&
          (reviewController.sameComment
             (if JS.truthyString comment then comment else Review.comment review)
             (Review.comment review)
           || Review.validComment (edited rating comment review)))
    with (editAccepted rating comment review).
  destruct (editAccepted rating comment review); cbn [negb]; [| reflexivity].
  strict. cbn [Review._id edited Review.setRatingComment]. rewrite Hid.
  reflexivity.
Qed.

(** X22. [updateReview] at its edges, on a review on record. Only the
    account that wrote the review may edit it: anyone else, an ADMIN
    included, is answered "You can only update your own reviews". For its
    author, the edit is either stored, the review on record then being the
    stored one with the rating replaced when a truthy one is given and the
    comment replaced when a non-empty one is given, and nothing else
    changed in the database; or it is rejected by the validators of the
    schema, and nothing is written. It is rejected when a given rating is
    outside 1..5, and stored when the fields given pass the validators. A
    field that is absent or falsy (a rating of 0, an empty comment) keeps
    the stored value, whatever the other field is: an edit can neither
    clear a comment nor zero a rating, and with both fields absent or falsy
    the review is saved as it was. *)
Theorem updateReview_edges :
  forall db user id rating comment review,
    find (fun x => N.eqb (Review._id x) id) (reviews db) = Some review ->
    let out := reviewController.updateReview user id rating comment db in
    let stored :=
      Review.setRatingComment
        (JS.orNumber rating (Review.rating review))
        (if JS.truthyString comment then comment else Review.comment review)
        review in
    (Review.user review <> User._id user ->
     out = (inl (errors.forbidden "You can only update your own reviews"), db)) /\
    (Review.user review = User._id user ->
     out = (inr stored,
            setReviews (replaceBy (fun y => N.eqb (Review._id y) id) stored
                                  (reviews db)) db) \/
     out = (inl (ValidationError "Review"), db)) /\
    (Review.user review = User._id user ->
     forall r,
       rating = Some r -> JS.truthy r = true ->
       (1 <=? r)%float && (r <=? 5)%float = false ->
       out = (inl (ValidationError "Review"), db)) /\
    (Review.user review = User._id user ->
     Review.validRating review = true ->
     (forall r, rating = Some r -> JS.truthy r = true ->
                (1 <=? r)%float && (r <=? 5)%float = true) ->
     (forall c, comment = Some c -> (String.length c <= 1000)%nat) ->
     out = (inr stored,
            setReviews (replaceBy (fun y => N.eqb (Review._id y) id) stored
                                  (reviews db)) db)) /\
    (JS.truthyString comment = false ->
     Review.comment stored = Review.comment review) /\
    (match rating with Some r => JS.truthy r = false | None => True end ->
     Review.rating stored = Review.rating review) /\
    (JS.truthyString (Review.comment review) = true ->
     JS.truthyString (Review.comment stored) = true) /\
    (JS.truthy (Review.rating review) = true ->
     JS.truthy (Review.rating stored) = true) /\
    (Review.user review = User._id user ->
     Review.validRating review = true ->
     match rating with Some r => JS.truthy r = false | None => True end ->
     JS.truthyString comment = false ->
     out = (inr review, db)).
Proof.
  intros db user id rating comment review Hfind out stored.
  pose proof (found_id _ _ _ _ Hfind) as Hid.
  assert (Hout : out
    = if negb (N.eqb (Review.user review) (User._id user)) then
        (inl (errors.forbidden "You can only update your own reviews"), db)
      else if editAccepted rating comment review then
        (inr stored,
         setReviews (replaceBy (fun y => N.eqb (Review._id y) id) stored
                               (reviews db)) db)
      else (inl (ValidationError "Review"), db))
    by exact (updateReview_found user id rating comment db review Hfind).
  assert (Hcomment : JS.truthyString comment = false ->
                     Review.comment stored = Review.comment review).
  { intro Hc. subst stored. cbn [Review.comment Review.setRatingComment].
    rewrite Hc. reflexivity. }
  assert (Hrating : match rating with
                    | Some r => JS.truthy r = false
                    | None => True
                    end ->
                    Review.rating stored = Review.rating review).
  { intro Hr. subst stored. cbn [Review.rating Review.setRatingComment].
    unfold JS.orNumber. destruct rating as [r |]; [rewrite Hr |]; reflexivity. }
  clearbody out. subst out.
  split; [| split; [| split; [| split; [| split; [| split; [| split; [| split]]]]]]].
  - intro Hne. apply N.eqb_neq in Hne. rewrite Hne. reflexivity.
  - intro Hown. rewrite Hown, N.eqb_refl. cbn [negb].
    destruct (editAccepted rating comment review); [left | right]; reflexivity.
  - intros Hown r -> Htruthy Hrange. rewrite Hown, N.eqb_refl. cbn [negb].
    unfold editAccepted, edited, Review.validRating.
    cbn [Review.rating Review.setRatingComment]. unfold JS.orNumber.
    rewrite Htruthy, Hrange. reflexivity.
  - intros Hown Hvalid Hr Hc. rewrite Hown, N.eqb_refl. cbn [negb].
    assert (Hok : editAccepted rating comment review = true).
    { unfold editAccepted, edited, Review.validRating, Review.validComment.
      cbn [Review.rating Review.comment Review.setRatingComment].
      apply andb_true_intro. split.
      - unfold JS.orNumber. destruct rating as [r |]; [| exact Hvalid].
        destruct (JS.truthy r) eqn:Et; [| exact Hvalid].
        exact (Hr r eq_refl Et).
      - destruct (JS.truthyString comment).
        + destruct comment as [c |].
          * apply orb_true_intro. right. apply Nat.leb_le. exact (Hc c eq_refl).
          * apply orb_true_intro. right. reflexivity.
        + rewrite sameComment_refl. reflexivity. }
    rewrite Hok. reflexivity.
  - exact Hcomment.
  - exact Hrating.
  - intro Hc. subst stored. cbn [Review.comment Review.setRatingComment].
    destruct (JS.truthyString comment) eqn:E; [exact E | exact Hc].
  - intro Hr. subst stored. cbn [Review.rating Review.setRatingComment].
    unfold JS.orNumber. destruct rating as [r |]; [| exact Hr].
    destruct (JS.truthy r) eqn:E; [exact E | exact Hr].
  - intros Hown Hvalid Hr Hc. rewrite Hown, N.eqb_refl. cbn [negb].
    assert (Hsame : stored = review).
    { pose proof (Hcomment Hc) as H1. pose proof (Hrating Hr) as H2.
      subst stored.
      cbn [Review.comment Review.rating Review.setRatingComment] in H1, H2.
      unfold Review.setRatingComment. rewrite H1, H2.
      destruct review. reflexivity. }
    assert (Hsame' : edited rating comment review = review) by exact Hsame.
    assert (Hok : editAccepted rating comment review = true).
    { unfold editAccepted. rewrite Hsame', Hvalid, sameComment_refl.
      reflexivity. }
    rewrite Hok, Hsame. unfold replaceBy.
    rewrite (updateFirst_found_fixed _ (fun _ => review) _ _ Hfind eq_refl).
    rewrite setReviews_same. reflexivity.
Qed.

Lemma updateReview_edges_witness :
  reviewController.updateReview Sample.carol 60 (Some 1%float) None
    Sample.reviewedStore
  = (inl (errors.forbidden "You can only update your own reviews"),
     Sample.reviewedStore).
Proof.
  apply (updateReview_edges Sample.reviewedStore Sample.carol 60 (Some 1%float)
           None (Sample.mkReview 60 1 5%float true) eq_refl).
  discriminate.
Defined.

(** alice lowers the rating of her review to 4 and sends an empty comment
    with it: the rating is stored, and the comment is the one she wrote. *)
Remark updateReview_empty_comment_kept :
  option_map (fun x => (Review.rating x, Review.comment x))
    (find (fun x => N.eqb (Review._id x) 60)
       (reviews (snd (reviewController.updateReview Sample.alice 60
                        (Some 4%float) (Some "") Sample.reviewedStore))))
  = Some (4%float, Some "useful").
Proof. vm_compute. reflexivity. Qed.

(* ================================================================== *)
(** * The download route *)

(** X23. The download route on a rule on record. [visibility] is not
    consulted: a free rule, and any rule for its author, is released to
    every authenticated account, a PRIVATE rule included, the Purchase
    collection being left alone. A paid rule is released to another account
    exactly when it holds an active Purchase; the first such Purchase then
    has its [downloads.count] raised by 1 and [lastDownloadedAt] set to the
    clock, while without one the answer is "Purchase required to download
    this rule" and nothing is written. Every release adds 1 to
    [statistics.downloads] of the rule and logs one RULE_DOWNLOADED. *)
Theorem download_effect :
  forall db user id now rule,
    find (fun r => N.eqb (Rule._id r) id) (rules db) = Some rule ->
    let out := ruleController.download user id now db in
    let released :=
      setActivities
        (activities db ++
         [{| Activity.user := User._id user;
             Activity.type := Activity.RULE_DOWNLOADED;
             Activity.target := id |}])%list
        (setRules
           (replaceBy (fun y => N.eqb (Rule._id y) id)
              (Rule.setStatistics
                 {| Rule.views := Rule.views (Rule.statistics rule);
                    Rule.downloads := Rule.downloads (Rule.statistics rule) + 1;
                    Rule.forks := Rule.forks (Rule.statistics rule);
                    Rule.purchases := Rule.purchases (Rule.statistics rule);
                    Rule.rating := Rule.rating (Rule.statistics rule);
                    Rule.totalRatings := Rule.totalRatings (Rule.statistics rule) |}
                 rule)
              (rules db)) db) in
    if Rule.isPaid (Rule.pricing rule) &&
       negb (N.eqb (Rule.author rule) (User._id user))
    then
      match find (activePurchaseOf (User._id user) id) (purchases db) with
      | Some p =>
          out = (inr (Rule.ruleContent rule),
                 setPurchases
                   (replaceBy (fun y => N.eqb (Purchase._id y) (Purchase._id p))
                      (Purchase.setDownloads
                         {| Purchase.count :=
                              Purchase.count (Purchase.downloads p) + 1;
                            Purchase.lastDownloadedAt := Some now |} p)
                      (purchases db))
                   released)
      | None =>
          out = (inl (errors.forbidden "Purchase required to download this rule"),
                 db)
      end
    else out = (inr (Rule.ruleContent rule), released).
Proof.
  intros db user id now rule Hrule out released. subst out released.
  pose proof (found_id _ _ _ _ Hrule) as Hid.
  unfold ruleController.download. unfold_handler.
  rewrite Hrule. rewrite <- Hid in Hrule |- *.
  cbn [Rule.pricing Rule.isPaid Rule.author Rule._id Rule.ruleContent
       Rule.statistics Rule.hydrate Rule.setStatistics].
  destruct (Rule.isPaid (Rule.pricing rule) &&
            negb (N.eqb (Rule.author rule) (User._id user))).
  - destruct (find (activePurchaseOf (User._id user) (Rule._id rule))
                   (purchases db)); [| reflexivity].
    cbn [rules setPurchases].
    rewrite (updateFirst_found_replace _ _ _ _ Hrule),
      saveOver_hydrate_statistics.
    reflexivity.
  - rewrite (updateFirst_found_replace _ _ _ _ Hrule),
      saveOver_hydrate_statistics.
    reflexivity.
Qed.

Lemma download_effect_witness :
  fst (ruleController.download Sample.dave 10 7
         (setRules [Rule_setIsActive false Sample.schemaRule] Sample.emptyStore))
  = inl (errors.forbidden "Purchase required to download this rule").
Proof.
  rewrite (download_effect
             (setRules [Rule_setIsActive false Sample.schemaRule] Sample.emptyStore)
             Sample.dave 10 7 (Rule_setIsActive false Sample.schemaRule) eq_refl).
  reflexivity.
Defined.


(** X24. The download route does not consult [visibility], where
    [getRuleById] does. A PRIVATE rule that is free is released in full by
    the download route to any account; [getRuleById] refuses it to every
    account but its author: with "Access denied" when the author's account
    is on record, and with the TypeError of reading [_id] on the populated
    author, [null], when it is not. *)
Theorem download_ignores_visibility :
  forall db user id now rule,
    find (fun r => N.eqb (Rule._id r) id) (rules db) = Some rule ->
    Rule.visibility rule = Rule.PRIVATE ->
    Rule.isPaid (Rule.pricing rule) = false ->
    Rule.author rule <> User._id user ->
    (forall author,
        find (fun u => N.eqb (User._id u) (Rule.author rule)) (users db)
        = Some author ->
        ruleController.getRuleById (Some user) id db
        = (inl (errors.forbidden "Access denied"), db)) /\
    (find (fun u => N.eqb (User._id u) (Rule.author rule)) (users db) = None ->
     ruleController.getRuleById (Some user) id db = (inl (TypeError "_id"), db)) /\
    fst (ruleController.download user id now db) = inr (Rule.ruleContent rule).
Proof.
  intros db user id now rule Hrule Hprivate Hfree Hother.
  apply N.eqb_neq in Hother. split; [| split].
  - intros author Hauthor.
    pose proof (found_id _ _ _ _ Hauthor) as Hid.
    unfold ruleController.getRuleById. unfold_handler.
    rewrite Hrule. cbn [Rule.visibility Rule.author Rule.hydrate].
    rewrite Hprivate, Hauthor, Hid, Hother. reflexivity.
  - intros Hnone.
    unfold ruleController.getRuleById. unfold_handler.
    rewrite Hrule. cbn [Rule.visibility Rule.author Rule.hydrate].
    rewrite Hprivate, Hnone.
    rewrite N.eqb_sym, Hother. reflexivity.
  - unfold ruleController.download. unfold_handler.
    rewrite Hrule. cbn [Rule.pricing Rule.isPaid Rule.hydrate].
    rewrite Hfree. reflexivity.
Qed.

(** dave is refused alice's private fork of rule 10 by [getRuleById], and
    downloads it all the same. *)
Lemma download_ignores_visibility_witness :
  ruleController.getRuleById (Some Sample.dave) 12
    (setRules [forkOf Sample.alice 12 Sample.schemaRule] Sample.emptyStore)
  = (inl (errors.forbidden "Access denied"),
     setRules [forkOf Sample.alice 12 Sample.schemaRule] Sample.emptyStore) /\
  fst (ruleController.download Sample.dave 12 7
         (setRules [forkOf Sample.alice 12 Sample.schemaRule] Sample.emptyStore))
  = inr {| Rule.query := Sample.longQuery |}.
Proof.
  destruct (download_ignores_visibility
              (setRules [forkOf Sample.alice 12 Sample.schemaRule] Sample.emptyStore)
              Sample.dave 12 7 (forkOf Sample.alice 12 Sample.schemaRule)
              eq_refl eq_refl eq_refl ltac:(simpl; discriminate))
    as (Hdenied & _ & Hreleased).
  split; [exact (Hdenied Sample.alice eq_refl) | exact Hreleased].
Defined.

(** X25. The route that settles a refund lets an ADMIN through and nobody
    else: a request without an account is answered 401, the account of a
    USER, VERIFIED_CONTRIBUTOR or MODERATOR 403 "Insufficient permissions",
    and an ADMIN whose body fails validation 400, each time with the
    database untouched; only then does [processRefund] run. *)
Theorem processRefund_route_admin_only :
  forall db user info valid id approved,
    let out := routes.processRefund user info valid id approved db in
    match user with
    | None => out = (inl (ApiError 401 (JS.orString info "Unauthorized")), db)
    | Some u =>
        match User.role u with
        | User.ADMIN =>
            if valid then out = transactionController.processRefund id approved db
            else out = (inl (ApiError 400 "Validation failed"), db)
        | _ => out = (inl (ApiError 403 "Insufficient permissions"), db)
        end
    end.
Proof.
  intros db user info valid id approved out. subst out.
  unfold routes.processRefund, routes.validate, auth.authenticate, auth.hasRole.
  destruct user as [u |]; [| reflexivity].
  unfold_handler. simpl.
  destruct (User.role u); simpl; try reflexivity.
  destruct valid; simpl; [| reflexivity].
  destruct (transactionController.processRefund id approved db) as [[e | a] db'];
    reflexivity.
Qed.

Lemma maskedRules_runs user found db :
  exists shown,
    ruleController.maskedRules user found db = (inr shown, db) /\
    map Rule._id shown = map Rule._id found /\
    map (fun r => Rule.query (Rule.ruleContent r)) shown
    = map (fun r => maskedQuery 100 user r db) found.
Proof.
  induction found as [| rule rest IH]; simpl.
  - exists []. repeat split.
  - destruct IH as (shown & Hrest & Hids & Hqueries).
    unfold ruleController.mask, maskedQuery. unfold_handler.
    destruct user as [u |]; destruct (Rule.isPaid (Rule.pricing rule)); simpl.
    1: destruct (existsb _ (purchases db)); simpl.
    all: rewrite Hrest; cbn [fst snd]; eexists; split; [reflexivity |];
         simpl; rewrite Hids, Hqueries; split; reflexivity.
Qed.

(** X26. The listing of [getRules] masks rule by rule: it writes nothing
    and answers with the rules the catalog query found, in their order,
    each with its query replaced, when the rule is paid, by the fixed
    placeholder for a caller without an account and by the first 100
    characters and the purchase marker for an account without an active
    Purchase of that rule; the query of a free rule, and of a paid rule the
    account has purchased, is shown whole. So nothing of a paid query
    reaches a caller without an account. *)
Theorem getRules_masks_each_rule :
  forall db user found,
    exists shown,
      ruleController.maskedRules user found db = (inr shown, db) /\
      map Rule._id shown = map Rule._id found /\
      map (fun r => Rule.query (Rule.ruleContent r)) shown
      = map (fun r => maskedQuery 100 user r db) found /\
      forall rule,
        user = None -> Rule.isPaid (Rule.pricing rule) = true ->
        maskedQuery 100 user rule db = ruleController.loginPlaceholder.
Proof.
  intros db user found.
  destruct (maskedRules_runs user found db) as (shown & H1 & H2 & H3).
  exists shown. repeat split; try assumption.
  intros rule -> Hpaid. unfold maskedQuery. rewrite Hpaid. reflexivity.
Qed.

Lemma getRules_masks_each_rule_witness :
  maskedQuery 100 None Sample.schemaRule Sample.emptyStore
  = "[Login and purchase to view content]".
Proof.
  destruct (getRules_masks_each_rule Sample.emptyStore None [Sample.schemaRule])
    as (shown & _ & _ & _ & Hanonymous).
  apply Hanonymous; reflexivity.
Defined.

(* ================================================================== *)
(** * Rejections and writes *)

Ltac clean_or_server_error :=
  intros e Hrejected Hclient;
  first
    [ reflexivity
    | discriminate Hrejected
    | exfalso; unfold rejection in Hrejected; cbn [fst] in Hrejected;
      injection Hrejected as <-; cbn in Hclient; lia ].

(** X27. A request that is turned down has written nothing: whenever one
    of the transaction, review and rule handlers served here ends in a
    rejection that is answered with a status below 500 (400, 403, 404, 409,
    a failed validation included), the database is exactly the one of
    before. Every guard and every validation of these handlers runs before
    their first write; only a rejection answered with 500 can leave writes
    behind. *)
Theorem client_errors_write_nothing :
  forall rq db e,
    rejected rq db = Some e ->
    errorHandler.statusCode e < 500 ->
    serve rq db = db.
Proof.
  intros rq db. destruct rq; unfold rejected, serve.
  - unfold transactionController.purchaseRule. run_handler.
    all: clean_or_server_error.
  - unfold transactionController.requestRefund. run_handler.
    all: clean_or_server_error.
  - unfold transactionController.processRefund. run_handler.
    all: clean_or_server_error.
  - rewrite createReview_rejected. reflexivity.
  - unfold reviewController.updateReview. run_handler.
    all: clean_or_server_error.
  - unfold reviewController.deleteReview. run_handler.
    all: clean_or_server_error.
  - unfold reviewController.markHelpful. run_handler.
    all: clean_or_server_error.
  - intros e Hrejected _. exfalso. revert Hrejected. unfold rejection.
    generalize db. induction found as [| rule rest IH]; intro db0; simpl.
    + discriminate.
    + unfold ruleController.mask. unfold_handler.
      repeat (case_innermost; cbn [fst snd]); try discriminate.
      all: intro H; apply (IH db0); unfold ruleController.mask;
           match goal with
           | E : ruleController.maskedRules _ _ _ = _ |- _ => rewrite E
           end; exact H.
  - unfold ruleController.getRuleById, ruleController.mask. run_handler.
    all: clean_or_server_error.
  - unfold ruleController.download. run_handler.
    all: clean_or_server_error.
Qed.

Lemma client_errors_write_nothing_witness :
  serve (RequestRefund Sample.alice 50 (Some "too late") (31 * Sample.day))
        (Sample.soldStore 11 Transaction.COMPLETED)
  = Sample.soldStore 11 Transaction.COMPLETED.
Proof.
  apply (client_errors_write_nothing
           (RequestRefund Sample.alice 50 (Some "too late") (31 * Sample.day))
           (Sample.soldStore 11 Transaction.COMPLETED)
           (errors.badRequest "Refund requests can only be made within 30 days")).
  - reflexivity.
  - simpl. lia.
Defined.

(** X28. Reading a rule stores nothing of what the response shows in place
    of the content: [getRuleById] and the download route leave every rule
    as it was apart from the counters of views and downloads (the query is
    masked on the document only after it was saved, and that document is
    not saved again), and the listing of [getRules] leaves the Rule
    collection untouched. *)
Theorem reading_keeps_rules :
  forall db,
    (forall user id,
        map ruleApartFromCounters
            (rules (snd (ruleController.getRuleById user id db)))
        = map ruleApartFromCounters (rules db)) /\
    (forall user found,
        rules (snd (ruleController.maskedRules user found db)) = rules db) /\
    (forall user id now,
        map ruleApartFromCounters
            (rules (snd (ruleController.download user id now db)))
        = map ruleApartFromCounters (rules db)).
Proof.
  intro db. split; [| split].
  - intros user id.
    unfold ruleController.getRuleById, ruleController.mask. run_handler.
    all: cbn [rules setRules]; try reflexivity; saved_rule.
  - intros user found. exact (maskedRules_keepsRules user found db).
  - intros user id now. unfold ruleController.download. run_handler.
    all: cbn [rules setRules setPurchases setActivities]; try reflexivity;
         saved_rule.
Qed.
